(** * flytekit type engine: wire types, transformers, registry, resolver

    A shallow embedding of [flytekit/core/type_engine.py].  Python objects
    with optional attributes are records of [option] fields, dictionaries
    that are iterated are association lists in insertion order, the
    process-wide registry is threaded explicitly, and raised exceptions are
    values of [PyErr]. *)

From Stdlib Require Import ZArith String List Bool Lia.
From Stdlib Require Import Floats.SpecFloat DecimalString.
From stdpp Require Import base decidable option list strings gmap.

Set Warnings "-register-all".
Open Scope string_scope.

(** ** Wire types: [flytekit.models.types.LiteralType] *)

Inductive SimpleType :=
  | ST_NONE | INTEGER | FLOAT | STRING | BOOLEAN | DATETIME | DURATION
  | BINARY | ERROR | STRUCT.

Inductive BlobDimensionality := SINGLE | MULTIPART.

Record BlobType := mkBlobType {
  blob_format : string;
  dimensionality : BlobDimensionality }.

Record TypeStructure := mkTypeStructure { tag : string }.

Inductive SchemaColumnType :=
  | COL_INTEGER | COL_FLOAT | COL_STRING | COL_BOOLEAN | COL_DATETIME | COL_DURATION.

Record UnionTypeOf (T : Type) := mkUnionType { variants : list T }.
Arguments mkUnionType {T} _.
Arguments variants {T} _.

Record DatasetColumnOf (T : Type) := mkDatasetColumn {
  name : string;
  literal_type : T }.
Arguments mkDatasetColumn {T} _ _.
Arguments name {T} _.
Arguments literal_type {T} _.

Record StructuredDatasetTypeOf (T : Type) := mkStructuredDatasetType {
  columns : list (DatasetColumnOf T);
  sdt_format : string;
  external_schema_type : option string;
  external_schema_bytes : option (list Byte.byte) }.
Arguments mkStructuredDatasetType {T} _ _ _ _.
Arguments columns {T} _.
Arguments sdt_format {T} _.
Arguments external_schema_type {T} _.
Arguments external_schema_bytes {T} _.

(** The values of a type's [metadata] dictionary: a string (the protobuf
    transformer's [pb_type]) or the dictionary form of a wire type (the
    dataclass transformer's per-field sub-types). *)
Inductive MetaValueOf (T : Type) :=
  | MetaStr (s : string)
  | MetaType (t : T).
Arguments MetaStr {T} _.
Arguments MetaType {T} _.

(** Modelled from the spec: [flytekit.models.types] is not among the
    sources.  A wire type is "a closed variant over {simple scalar kind,
    collection-of, map-of, struct/opaque, enum, blob, union,
    structured-dataset}, plus optional metadata", a structural tag and an
    annotation payload.  Each is an optional attribute, as the engine reads
    them ([x.collection_type is not None]); the dataclass transformer does
    build [LiteralType()] with none set. *)
Inductive LiteralType := mkLiteralType {
  simple : option SimpleType;
  schema : option (list (string * SchemaColumnType));
  collection_type : option LiteralType;
  map_value_type : option LiteralType;
  blob : option BlobType;
  enum_type : option (list string);
  union_type : option (UnionTypeOf LiteralType);
  structured_dataset_type : option (StructuredDatasetTypeOf LiteralType);
  metadata : option (list (string * MetaValueOf LiteralType));
  structure : option TypeStructure;
  annotation : option (list (string * string)) }.

Definition UnionType := UnionTypeOf LiteralType.
Definition StructuredDatasetType := StructuredDatasetTypeOf LiteralType.
Definition MetaValue := MetaValueOf LiteralType.

(** *** Decidable equality on wire types

    [==] on two wire types compares them field by field. *)

Definition SimpleType_eq_dec : forall x y : SimpleType, {x = y} + {x <> y}.
Proof. decide equality. Defined.

Definition BlobType_eq_dec : forall x y : BlobType, {x = y} + {x <> y}.
Proof. decide equality; [decide equality | apply string_dec]. Defined.

Definition TypeStructure_eq_dec : forall x y : TypeStructure, {x = y} + {x <> y}.
Proof. decide equality; apply string_dec. Defined.

Definition SchemaColumnType_eq_dec :
  forall x y : SchemaColumnType, {x = y} + {x <> y}.
Proof. decide equality. Defined.

Definition opt_eq_dec {A} (d : forall x y : A, {x = y} + {x <> y}) :
  forall x y : option A, {x = y} + {x <> y}.
Proof. decide equality. Defined.

Fixpoint LiteralType_eq_dec (x y : LiteralType) {struct x} : {x = y} + {x <> y}.
Proof.
  decide equality.
  all: apply opt_eq_dec.
  all: try first [ apply LiteralType_eq_dec | apply SimpleType_eq_dec
                 | apply BlobType_eq_dec | apply TypeStructure_eq_dec ].
  - apply List.list_eq_dec. decide equality; apply string_dec.
  - apply List.list_eq_dec. decide equality; try apply string_dec.
    decide equality; first [apply LiteralType_eq_dec | apply string_dec].
  - decide equality.
    + apply opt_eq_dec, List.list_eq_dec, Byte.byte_eq_dec.
    + apply opt_eq_dec, string_dec.
    + apply string_dec.
    + apply List.list_eq_dec.
      decide equality; first [apply LiteralType_eq_dec | apply string_dec].
  - decide equality. apply List.list_eq_dec, LiteralType_eq_dec.
  - apply List.list_eq_dec, string_dec.
  - apply List.list_eq_dec.
    decide equality; first [apply SchemaColumnType_eq_dec | apply string_dec].
Defined.

Global Instance BlobDimensionality_eqdec : EqDecision BlobDimensionality.
Proof. intros x y. unfold Decision. decide equality. Defined.

Global Instance SimpleType_eqdec : EqDecision SimpleType := SimpleType_eq_dec.
Global Instance byte_eqdec : EqDecision Byte.byte := Byte.byte_eq_dec.
Global Instance LiteralType_eqdec : EqDecision LiteralType := LiteralType_eq_dec.

(** [LiteralType(...)] with keyword arguments: everything else is [None]. *)
Definition LiteralType_ : LiteralType :=
  mkLiteralType None None None None None None None None None None None.

Definition lt_simple (s : SimpleType) : LiteralType :=
  mkLiteralType (Some s) None None None None None None None None None None.
Definition lt_collection (t : LiteralType) : LiteralType :=
  mkLiteralType None None (Some t) None None None None None None None None.
Definition lt_map (t : LiteralType) : LiteralType :=
  mkLiteralType None None None (Some t) None None None None None None None.
Definition lt_blob (b : BlobType) : LiteralType :=
  mkLiteralType None None None None (Some b) None None None None None None.
Definition lt_enum (vs : list string) : LiteralType :=
  mkLiteralType None None None None None (Some vs) None None None None None.
Definition lt_union (vs : list LiteralType) : LiteralType :=
  mkLiteralType None None None None None None (Some (mkUnionType vs)) None None None None.

Definition set_structure (x : LiteralType) (s : option TypeStructure) : LiteralType :=
  mkLiteralType (simple x) (schema x) (collection_type x) (map_value_type x)
    (blob x) (enum_type x) (union_type x) (structured_dataset_type x)
    (metadata x) s (annotation x).

Definition set_annotation (x : LiteralType) (a : option (list (string * string)))
  : LiteralType :=
  mkLiteralType (simple x) (schema x) (collection_type x) (map_value_type x)
    (blob x) (enum_type x) (union_type x) (structured_dataset_type x)
    (metadata x) (structure x) a.

(** [_add_tag_to_type] *)
Definition _add_tag_to_type (x : LiteralType) (tag : string) : LiteralType :=
  set_structure x (Some (mkTypeStructure tag)).

(** ** Castability *)

(** [_type_essence]: the copy through the IDL form is the identity on the
    model; the three decorations are then cleared. *)
Definition _type_essence (x : LiteralType) : LiteralType :=
  match metadata x, structure x, annotation x with
  | None, None, None => x
  | _, _, _ =>
      mkLiteralType (simple x) (schema x) (collection_type x) (map_value_type x)
        (blob x) (enum_type x) (union_type x) (structured_dataset_type x)
        None None None
  end.

(** [_are_types_castable]: structural on [upstream], and for the loop over
    the downstream variants on [downstream]. *)
Fixpoint _are_types_castable (upstream : LiteralType) : LiteralType -> bool :=
  fix down (downstream : LiteralType) : bool :=
  match collection_type upstream with
  | Some uc =>
      match collection_type downstream with
      | None => false
      | Some dc => _are_types_castable uc dc
      end
  | None =>
  match map_value_type upstream with
  | Some um =>
      match map_value_type downstream with
      | None => false
      | Some dm => _are_types_castable um dm
      end
  | None =>
  match structured_dataset_type upstream with
  | Some usdt =>
      match structured_dataset_type downstream with
      | None => false
      | Some dsdt =>
          if negb (bool_decide (sdt_format usdt = sdt_format dsdt)) then false else
          if negb (bool_decide (external_schema_type usdt = external_schema_type dsdt))
          then false else
          if negb (bool_decide (external_schema_bytes usdt = external_schema_bytes dsdt))
          then false else
          if negb (length (columns usdt) =? length (columns dsdt))%nat then false else
          (fix zipped (us ds : list (DatasetColumnOf LiteralType)) : bool :=
             match us, ds with
             | u :: us', d :: ds' =>
                 if negb (bool_decide (name u = name d)) then false else
                 if negb (_are_types_castable (literal_type u) (literal_type d))
                 then false
                 else zipped us' ds'
             | _, _ => true
             end) (columns usdt) (columns dsdt)
      end
  | None =>
  match union_type upstream with
  | Some uu =>
      (fix each (vs : list LiteralType) : bool :=
         match vs with
         | [] => true
         | v :: vs' =>
             if negb (_are_types_castable v downstream) then false else each vs'
         end) (variants uu)
  | None =>
      let some_variant :=
        match union_type downstream with
        | Some du =>
            (fix any (vs : list LiteralType) : bool :=
               match vs with
               | [] => false
               | v :: vs' => if down v then true else any vs'
               end) (variants du)
        | None => false
        end in
      if some_variant then true else
      if match enum_type upstream with
         | Some _ => bool_decide (simple downstream = Some STRING)
         | None => false
         end
      then true else
      if bool_decide (_type_essence upstream = _type_essence downstream)
      then true else false
  end end end end.

(** The rules before the union rules do not apply to [x] as upstream. *)
Definition reaches_union_rules (x : LiteralType) : Prop :=
  collection_type x = None /\ map_value_type x = None /\
  structured_dataset_type x = None.

(** [x] is a union wire type: the union field, and no other variant field,
    is populated. *)
Definition is_union_of (x : LiteralType) (vs : list LiteralType) : Prop :=
  union_type x = Some (mkUnionType vs) /\
  simple x = None /\ schema x = None /\ collection_type x = None /\
  map_value_type x = None /\ blob x = None /\ enum_type x = None /\
  structured_dataset_type x = None.

(** ** Python types *)

(** The classes and typing forms the engine mentions by name. *)
Inductive Builtin :=
  | B_object | B_type | B_int | B_float | B_bool | B_str
  | B_datetime | B_timedelta | B_NoneType
  | B_None                (* the object [None], also used as a registry key *)
  | B_list | B_dict | B_tuple | B_set
  | B_typing_Union | B_typing_Tuple | B_typing_NamedTuple | B_typing_Any
  | B_typing_TextIO | B_typing_BinaryIO
  | B_enum_Enum | B_EnumMeta | B_protobuf_Message
  | B_typing_form.        (* the class of typing's special forms and aliases *)

(** Constants that may appear as a field default or an enum member value. *)
Inductive Const :=
  | CNone | CInt (z : Z) | CBool (b : bool) | CStr (s : string).

(** Modelled from the spec: [FlyteAnnotation] and [HashMethod] are not among
    the sources; they are the "recognized annotation payload" and the
    "hash-method annotation" among the extra arguments of
    [Annotated[T, ...]]. *)
Inductive Annotation :=
  | FlyteAnnotation (data : list (string * string))
  | HashMethod (function : string)
  | OtherAnnotation (repr : string).

Record FieldOf (T : Type) := mkField {
  field_name : string;
  field_type : T;
  field_default : option Const }.
Arguments mkField {T} _ _ _.
Arguments field_name {T} _.
Arguments field_type {T} _.
Arguments field_default {T} _.

(** A user class carries what the engine reads from it: its module and
    name, its bases, its [__dataclass_fields__] attribute when it has one,
    and its enum members. *)
Record ClassOf (T : Type) := mkClass {
  module : string;
  qualname : string;
  bases : list T;
  dataclass_fields : option (list (FieldOf T));
  members : list (string * Const) }.
Arguments mkClass {T} _ _ _ _ _.
Arguments module {T} _.
Arguments qualname {T} _.
Arguments bases {T} _.
Arguments dataclass_fields {T} _.
Arguments members {T} _.

(** A native type. *)
Inductive PyType :=
  | TBuiltin (b : Builtin)
  | TGeneric (origin : PyType) (args : list PyType)
  | TAnnotated (base : PyType) (extras : list Annotation)
  | TClass (c : ClassOf PyType).

Definition Class := ClassOf PyType.
Abbreviation TClassOf m q b d e := (TClass (mkClass m q b d e)).

Definition Field := FieldOf PyType.

Definition Builtin_eq_dec : forall x y : Builtin, {x = y} + {x <> y}.
Proof. decide equality. Defined.

Definition Const_eq_dec : forall x y : Const, {x = y} + {x <> y}.
Proof. decide equality; first [apply Z.eq_dec | apply Bool.bool_dec | apply string_dec]. Defined.

Definition Annotation_eq_dec : forall x y : Annotation, {x = y} + {x <> y}.
Proof.
  decide equality; try apply string_dec.
  apply List.list_eq_dec. decide equality; apply string_dec.
Defined.

Fixpoint PyType_eq_dec (x y : PyType) {struct x} : {x = y} + {x <> y}.
Proof.
  decide equality; try apply string_dec.
  - apply Builtin_eq_dec.
  - apply List.list_eq_dec, PyType_eq_dec.
  - apply List.list_eq_dec, Annotation_eq_dec.
  - decide equality; try apply string_dec.
    + apply List.list_eq_dec.
      decide equality; first [apply Const_eq_dec | apply string_dec].
    + apply opt_eq_dec, List.list_eq_dec. decide equality.
      * apply opt_eq_dec, Const_eq_dec.
      * apply string_dec.
    + apply List.list_eq_dec, PyType_eq_dec.
Defined.

Global Instance Builtin_eqdec : EqDecision Builtin := Builtin_eq_dec.
Definition Field_eq_dec : forall x y : FieldOf PyType, {x = y} + {x <> y}.
Proof.
  decide equality;
    first [apply opt_eq_dec, Const_eq_dec | apply PyType_eq_dec | apply string_dec].
Defined.

Global Instance Field_eqdec : EqDecision (FieldOf PyType) := Field_eq_dec.
Global Instance PyType_eqdec : EqDecision PyType := PyType_eq_dec.
Global Instance Const_eqdec : EqDecision Const := Const_eq_dec.

Definition int := TBuiltin B_int.
Definition float := TBuiltin B_float.
Definition bool_ := TBuiltin B_bool.
Definition str := TBuiltin B_str.
Definition datetime_ := TBuiltin B_datetime.
Definition timedelta_ := TBuiltin B_timedelta.
Definition NoneType := TBuiltin B_NoneType.

(** [typing.List[t]], [typing.Dict[k, v]], [typing.Union[...]] as the
    engine sees them: an [__origin__] and [__args__]. *)
Definition List_ (t : PyType) : PyType := TGeneric (TBuiltin B_list) [t].
Definition Dict_ (k v : PyType) : PyType := TGeneric (TBuiltin B_dict) [k; v].
Definition Union_ (ts : list PyType) : PyType := TGeneric (TBuiltin B_typing_Union) ts.

(** [get_origin(t) is Annotated] and [get_args(t)[0]] *)
Definition is_Annotated (t : PyType) : bool :=
  match t with TAnnotated _ _ => true | _ => false end.

(** [hasattr(t, "__origin__")] *)
Definition has_origin (t : PyType) : bool :=
  match t with TGeneric _ _ | TAnnotated _ _ => true | _ => false end.

(** [get_args(t)] *)
Definition get_args (t : PyType) : list PyType :=
  match t with
  | TGeneric _ args => args
  | TAnnotated base _ => [base]
  | _ => []
  end.

(** [dataclasses.is_dataclass(t)] for a type: it has [__dataclass_fields__]. *)
Definition is_dataclass (t : PyType) : bool :=
  match t with TClassOf _ _ _ (Some _) _ => true | _ => false end.

(** [dataclasses.fields(t)] *)
Definition fields (t : PyType) : list Field :=
  match t with TClassOf _ _ _ (Some fs) _ => fs | _ => [] end.

(** [inspect.isclass(t)] *)
Definition isclass (t : PyType) : bool :=
  match t with
  | TClassOf _ _ _ _ _ => true
  | TBuiltin b =>
      match b with
      | B_None | B_typing_Union | B_typing_Tuple | B_typing_NamedTuple
      | B_typing_Any => false
      | _ => true
      end
  | _ => false
  end.

(** The direct bases of a built-in class. *)
Definition builtin_bases (b : Builtin) : list Builtin :=
  match b with
  | B_object => []
  | B_bool => [B_int]
  | B_EnumMeta => [B_type]
  | _ => [B_object]
  end.

Fixpoint builtin_subclass_fuel (n : nat) (b c : Builtin) : bool :=
  if bool_decide (b = c) then true else
  match n with
  | O => false
  | S n' => existsb (fun b' => builtin_subclass_fuel n' b' c) (builtin_bases b)
  end.

(** No chain of built-in bases is longer than three. *)
Definition builtin_subclass : Builtin -> Builtin -> bool := builtin_subclass_fuel 3.

(** [issubclass(c, base)] for classes [c] and [base]: walk the bases. *)
Fixpoint issubclass (c base : PyType) {struct c} : bool :=
  if bool_decide (c = base) then true else
  match c with
  | TBuiltin b =>
      match base with
      | TBuiltin b' => builtin_subclass b b'
      | _ => false
      end
  | TClassOf _ _ bases _ _ =>
      (fix any (bs : list PyType) : bool :=
         match bs with
         | [] => bool_decide (base = TBuiltin B_object)
         | b :: bs' => if issubclass b base then true else any bs'
         end) bases
  | _ => false
  end.

(** [type(t)] for a type object [t]. *)
Definition metatype (t : PyType) : PyType :=
  match t with
  | TBuiltin B_None => TBuiltin B_NoneType
  | TBuiltin B_typing_NamedTuple => TBuiltin B_object   (* a function *)
  | TBuiltin (B_typing_Union | B_typing_Tuple | B_typing_Any) => TBuiltin B_typing_form
  | TBuiltin B_enum_Enum => TBuiltin B_EnumMeta
  | TBuiltin _ => TBuiltin B_type
  | TGeneric _ _ | TAnnotated _ _ => TBuiltin B_typing_form
  | TClassOf _ _ _ _ _ =>
      if issubclass t (TBuiltin B_enum_Enum) then TBuiltin B_EnumMeta
      else TBuiltin B_type
  end.

(** The second argument of [isinstance]/[issubclass] must be a class;
    [typing.Tuple] stands for [tuple] there, other typing forms and the
    function [NamedTuple] raise [TypeError]. *)
Definition as_class_for_check (base : PyType) : option PyType :=
  match base with
  | TBuiltin B_typing_Tuple => Some (TBuiltin B_tuple)
  | TBuiltin _ => if isclass base then Some base else None
  | TClassOf _ _ _ _ _ => Some base
  | _ => None
  end.

(** [tag_from_type] of [flytekit.core.type_helpers]. *)
Definition builtin_name (b : Builtin) : string :=
  match b with
  | B_object => "object" | B_type => "type" | B_int => "int" | B_float => "float"
  | B_bool => "bool" | B_str => "str" | B_datetime => "datetime"
  | B_timedelta => "timedelta" | B_NoneType => "NoneType" | B_None => "None"
  | B_list => "list" | B_dict => "dict" | B_tuple => "tuple" | B_set => "set"
  | B_typing_Union => "Union" | B_typing_Tuple => "Tuple"
  | B_typing_NamedTuple => "NamedTuple" | B_typing_Any => "Any"
  | B_typing_TextIO => "TextIO" | B_typing_BinaryIO => "BinaryIO"
  | B_enum_Enum => "Enum" | B_EnumMeta => "EnumMeta"
  | B_protobuf_Message => "Message" | B_typing_form => "_SpecialForm"
  end.

(** [t.__name__] *)
Fixpoint type_name (t : PyType) : string :=
  match t with
  | TBuiltin b => builtin_name b
  | TGeneric origin _ => type_name origin
  | TAnnotated base _ => type_name base
  | TClassOf _ qualname _ _ _ => qualname
  end.

(** Modelled from the spec: [tag_from_type] is not among the sources; the
    tag is "derived from the record's fully-qualified type name". *)
Definition tag_from_type (t : PyType) : string :=
  match t with
  | TClassOf module qualname _ _ _ => module ++ "." ++ qualname
  | _ => "builtins." ++ type_name t
  end.

(** ** Python values *)

Record datetime_value := mkDatetime {
  dt_micros : Z;                (* microseconds since the epoch *)
  dt_tzoffset : option Z }.     (* [tzinfo], as an offset, when aware *)

(** A [float] is an IEEE 754 binary64 datum. *)
Definition float64 := spec_float.

Inductive PyVal :=
  | VNone
  | VInt (z : Z)
  | VFloat (f : float64)
  | VBool (b : bool)
  | VStr (s : string)
  | VDatetime (d : datetime_value)
  | VTimedelta (micros : Z)
  | VList (items : list PyVal)
  | VDict (items : list (PyVal * PyVal))
  | VObject (cls : Class) (attrs : list (string * PyVal))
  | VEnumMember (cls : Class) (member : string) (value : Const)
  | VFile (path : string) (mode : string).

(** [type(v)] *)
Definition type_of (v : PyVal) : PyType :=
  match v with
  | VNone => NoneType
  | VInt _ => int
  | VFloat _ => float
  | VBool _ => bool_
  | VStr _ => str
  | VDatetime _ => datetime_
  | VTimedelta _ => timedelta_
  | VList _ => TBuiltin B_list
  | VDict _ => TBuiltin B_dict
  | VObject cls _ => TClass cls
  | VEnumMember cls _ _ => TClass cls
  | VFile _ mode =>
      if bool_decide (mode = "rb") then TBuiltin B_typing_BinaryIO
      else TBuiltin B_typing_TextIO
  end.

(** [isinstance(v, t)]; [None] when [t] is not usable as a class. *)
Definition isinstance (v : PyVal) (t : PyType) : option bool :=
  match as_class_for_check t with
  | Some c => Some (issubclass (type_of v) c)
  | None => None
  end.

Definition of_const (c : Const) : PyVal :=
  match c with
  | CNone => VNone
  | CInt z => VInt z
  | CBool b => VBool b
  | CStr s => VStr s
  end.

(** [d[k] = v] on a dictionary kept in insertion order. *)
Fixpoint dict_set {K A} `{EqDecision K} (k : K) (a : A) (l : list (K * A))
  : list (K * A) :=
  match l with
  | [] => [(k, a)]
  | (k', a') :: l' =>
      if bool_decide (k' = k) then (k, a) :: l' else (k', a') :: dict_set k a l'
  end.

Fixpoint dict_get {K A} `{EqDecision K} (k : K) (l : list (K * A)) : option A :=
  match l with
  | [] => None
  | (k', a) :: l' => if bool_decide (k' = k) then Some a else dict_get k l'
  end.

(** [getattr(v, name)]; [None] stands for [AttributeError]. *)
Definition getattr (v : PyVal) (name : string) : option PyVal :=
  match v with
  | VObject _ attrs => dict_get name attrs
  | VEnumMember _ member value =>
      if bool_decide (name = "value") then Some (of_const value)
      else if bool_decide (name = "name") then Some (VStr member)
      else None
  | _ => None
  end.

(** ** Wire values *)

Inductive Json :=
  | JNull
  | JBool (b : bool)
  | JNumber (f : float64)
  | JString (s : string)
  | JArray (items : list Json)
  | JObject (items : list (string * Json)).

(** Modelled from the spec: [flytekit.models.literals] is not among the
    sources.  A wire value is "a variant over {scalar (primitive{int, float,
    bool, string, datetime, duration}, blob-reference, opaque-struct, none,
    union{inner WireValue, inner WireType}), collection, map}, plus an
    optional content-hash", "constructed once" and "immutable thereafter":
    each constructor stores its arguments and each attribute reads them
    back. *)
Record Primitive := mkPrimitive {
  integer : option Z;
  float_value : option float64;
  string_value : option string;
  boolean : option bool;
  datetime : option datetime_value;
  duration : option Z }.

(** [Primitive(...)] with keyword arguments *)
Definition Primitive_ : Primitive := mkPrimitive None None None None None None.

Record BlobMetadata := mkBlobMetadata { type : BlobType }.
Record Blob := mkBlob { blob_metadata : BlobMetadata; uri : string }.

Record UnionOf (L : Type) := mkUnion { value : L; stored_type : LiteralType }.
Arguments mkUnion {L} _ _.
Arguments value {L} _.
Arguments stored_type {L} _.

Record ScalarOf (L : Type) := mkScalar {
  primitive : option Primitive;
  scalar_blob : option Blob;
  union : option (UnionOf L);
  none_type : option unit;      (* [Void()] *)
  generic : option Json }.
Arguments mkScalar {L} _ _ _ _ _.
Arguments primitive {L} _.
Arguments scalar_blob {L} _.
Arguments union {L} _.
Arguments none_type {L} _.
Arguments generic {L} _.

(** The result of [annotation.calculate(python_val)], kept as the
    application it is. *)
Record Hash := mkHash { hash_function : string; hash_argument : PyVal }.

Inductive Literal := mkLiteral {
  scalar : option (ScalarOf Literal);
  collection : option (list Literal);          (* [LiteralCollection.literals] *)
  map : option (list (string * Literal));      (* [LiteralMap.literals] *)
  hash : option Hash }.

Definition Scalar := ScalarOf Literal.
Definition Union := UnionOf Literal.

Definition Scalar_ : Scalar := mkScalar None None None None None.
Definition Literal_scalar (s : Scalar) : Literal := mkLiteral (Some s) None None None.
Definition Literal_collection (l : list Literal) : Literal :=
  mkLiteral None (Some l) None None.
Definition Literal_map (m : list (string * Literal)) : Literal :=
  mkLiteral None None (Some m) None.
Definition Literal_primitive (p : Primitive) : Literal :=
  Literal_scalar (mkScalar (Some p) None None None None).
Definition set_hash (lv : Literal) (h : option Hash) : Literal :=
  mkLiteral (scalar lv) (collection lv) (map lv) h.

(** ** Exceptions and results *)

(** The exception classes the engine raises or catches, with their
    message.  [TypeTransformerFailedError] derives from [TypeError],
    [AssertionError] and [ValueError]. *)
Inductive PyErr :=
  | TypeTransformerFailedError (msg : string)
  | ValueError (msg : string)
  | TypeError (msg : string)
  | AttributeError (msg : string)
  | AssertionError (msg : string)
  | KeyError (msg : string)
  | IndexError (msg : string)
  | OverflowError (msg : string)
  | NotImplementedError (msg : string)
  | RestrictedTypeError (msg : string)
  | FileNotFoundError (msg : string)
  | ParseError (msg : string)
  | FlyteTypeException (msg : string).

Inductive ErrClass :=
  | E_TypeTransformerFailedError | E_ValueError | E_TypeError | E_AttributeError
  | E_AssertionError | E_Exception.

(** [isinstance(e, cls)] for the classes that appear in [except] clauses. *)
Definition err_isinstance (e : PyErr) (c : ErrClass) : bool :=
  match c, e with
  | E_Exception, _ => true
  | E_TypeTransformerFailedError, TypeTransformerFailedError _ => true
  | E_ValueError, (ValueError _ | TypeTransformerFailedError _) => true
  | E_TypeError, (TypeError _ | TypeTransformerFailedError _ | FlyteTypeException _) => true
  | E_AttributeError, AttributeError _ => true
  | E_AssertionError, (AssertionError _ | TypeTransformerFailedError _) => true
  | _, _ => false
  end.

(** A call returns, raises, or (in the model only) runs out of fuel. *)
Inductive Result (A : Type) :=
  | Ok (a : A)
  | Raise (e : PyErr)
  | OutOfFuel.
Arguments Ok {A} _.
Arguments Raise {A} _.
Arguments OutOfFuel {A}.

Definition rbind {A B} (r : Result A) (k : A -> Result B) : Result B :=
  match r with
  | Ok a => k a
  | Raise e => Raise e
  | OutOfFuel => OutOfFuel
  end.

(** An attribute read [o.f] on an [Optional] object [o]. *)
Definition attr {A B} (o : option A) (f : A -> B) (name : string) : Result B :=
  match o with
  | Some a => Ok (f a)
  | None => Raise (AttributeError ("'NoneType' object has no attribute '" ++ name ++ "'"))
  end.

(** ** Transformers and the registry *)

(** The transformer classes of the module.  A [SimpleTransformer] carries
    its two lambdas; a [DataclassTransformer] carries the per-field
    transformers its constructor looked up. *)
Inductive Transformer :=
  | SimpleTransformer (name : string) (t : PyType) (lt : LiteralType)
      (to_literal_transformer : PyVal -> Result Literal)
      (from_literal_transformer : Literal -> Result PyVal)
  | RestrictedTypeTransformer (name : string) (t : PyType)
  | DataclassTransformer (dataclass_type : PyType)
      (_transformers : list (Field * Transformer))
  | ProtobufTransformer
  | FlytePickleTransformer (pickled_type : PyType)
  | ListTransformer
  | UnionTransformer
  | DictTransformer
  | TextIOTransformer
  | BinaryIOTransformer
  | EnumTransformer.

(** [transformer.name] *)
Definition tr_name (tr : Transformer) : string :=
  match tr with
  | SimpleTransformer name _ _ _ _ => name
  | RestrictedTypeTransformer name _ => name
  | DataclassTransformer dataclass_type _ =>
      "Dataclass[" ++ type_name dataclass_type ++ "]"
  | ProtobufTransformer => "Protobuf-Transformer"
  | FlytePickleTransformer pickled_type => "Pickled[" ++ type_name pickled_type ++ "]"
  | ListTransformer => "Typed List"
  | UnionTransformer => "Typed Union"
  | DictTransformer => "Typed Dict"
  | TextIOTransformer => "TextIO"
  | BinaryIOTransformer => "BinaryIO"
  | EnumTransformer => "DefaultEnumTransformer"
  end.

(** [transformer.python_type] *)
Definition python_type_of (tr : Transformer) : PyType :=
  match tr with
  | SimpleTransformer _ t _ _ _ => t
  | RestrictedTypeTransformer _ t => t
  | DataclassTransformer dataclass_type _ => dataclass_type
  | ProtobufTransformer => TBuiltin B_protobuf_Message
  | FlytePickleTransformer pickled_type => pickled_type
  | ListTransformer => TBuiltin B_list
  | UnionTransformer => TBuiltin B_typing_Union
  | DictTransformer => TBuiltin B_dict
  | TextIOTransformer => TBuiltin B_typing_TextIO
  | BinaryIOTransformer => TBuiltin B_typing_BinaryIO
  | EnumTransformer => TBuiltin B_enum_Enum
  end.

(** No constructor in the module passes [enable_type_assertions=False]. *)
Definition type_assertions_enabled (tr : Transformer) : bool := true.

(** The process: the class attributes of [TypeEngine], the files that
    [ctx.file_access] reads and writes, the warnings logged, and a count of
    the calls of [TypeEngine.to_python_value] (kept for the statements about
    caching; the source has no such counter). *)
Record World := mkWorld {
  _REGISTRY : list (PyType * Transformer);
  _RESTRICTED_TYPES : list PyType;
  file_store : list (string * PyVal);
  paths_used : nat;
  warnings : list string;
  decode_calls : nat;
  modules : list (string * PyType) }.   (* what [load_type_from_tag] can import *)

Definition M (A : Type) : Type := World -> Result A * World.

Definition ret {A} (a : A) : M A := fun w => (Ok a, w).
Definition raise {A} (e : PyErr) : M A := fun w => (Raise e, w).
Definition out_of_fuel {A} : M A := fun w => (OutOfFuel, w).
Definition lift {A} (r : Result A) : M A := fun w => (r, w).
Definition bind {A B} (m : M A) (k : A -> M B) : M B :=
  fun w =>
    match m w with
    | (Ok a, w') => k a w'
    | (Raise e, w') => (Raise e, w')
    | (OutOfFuel, w') => (OutOfFuel, w')
    end.

Notation "x <- c1 ;; c2" := (bind c1 (fun x => c2))
  (at level 100, c1 at next level, right associativity).
Notation "c1 ;;; c2" := (bind c1 (fun _ => c2))
  (at level 100, right associativity).

(** [try: m except classes: handler] *)
Definition try_except {A} (m : M A) (classes : list ErrClass) (handler : PyErr -> M A)
  : M A :=
  fun w =>
    match m w with
    | (Raise e, w') =>
        if existsb (err_isinstance e) classes then handler e w' else (Raise e, w')
    | r => r
    end.

(** [for x in xs: body(x)] collecting results, as a comprehension does. *)
Fixpoint for_each {A B} (xs : list A) (body : A -> M B) : M (list B) :=
  match xs with
  | [] => ret []
  | x :: xs' => b <- body x ;; bs <- for_each xs' body ;; ret (b :: bs)
  end.

Definition get_registry : M (list (PyType * Transformer)) :=
  fun w => (Ok (_REGISTRY w), w).

Definition set_registry_entry (t : PyType) (tr : Transformer) : M unit :=
  fun w => (Ok tt, mkWorld (dict_set t tr (_REGISTRY w)) (_RESTRICTED_TYPES w)
                     (file_store w) (paths_used w) (warnings w) (decode_calls w) (modules w)).

Definition log_warning (msg : string) : M unit :=
  fun w => (Ok tt, mkWorld (_REGISTRY w) (_RESTRICTED_TYPES w) (file_store w)
                     (paths_used w) (warnings w ++ [msg]) (decode_calls w) (modules w)).

Definition append_restricted (t : PyType) : M unit :=
  fun w => (Ok tt, mkWorld (_REGISTRY w) (_RESTRICTED_TYPES w ++ [t]) (file_store w)
                     (paths_used w) (warnings w) (decode_calls w) (modules w)).

Definition count_decode : M unit :=
  fun w => (Ok tt, mkWorld (_REGISTRY w) (_RESTRICTED_TYPES w) (file_store w)
                     (paths_used w) (warnings w) (S (decode_calls w)) (modules w)).

(** [TypeEngine.register] *)
Fixpoint register_types (transformer : Transformer) (types : list PyType) : M unit :=
  match types with
  | [] => ret tt
  | t :: types' =>
      reg <- get_registry ;;
      match dict_get t reg with
      | Some existing =>
          raise (ValueError ("Transformer " ++ tr_name existing
                             ++ " is already registered. Cannot override with "
                             ++ tr_name transformer))
      | None =>
          set_registry_entry t transformer ;;;
          register_types transformer types'
      end
  end.

Definition register (transformer : Transformer) (additional_types : list PyType)
  : M unit :=
  register_types transformer (python_type_of transformer :: additional_types).

(** [TypeEngine.register_restricted_type] *)
Definition register_restricted_type (name : string) (type : PyType) : M unit :=
  append_restricted type ;;;
  register (RestrictedTypeTransformer name type) [].

(** [TypeEngine.register_additional_type] *)
Definition register_additional_type (transformer : Transformer)
    (additional_type : PyType) (override : bool) : M unit :=
  reg <- get_registry ;;
  if negb (bool_decide (is_Some (dict_get additional_type reg))) || override
  then set_registry_entry additional_type transformer
  else ret tt.

(** Step 4 of [get_transformer]: the first registered type, in insertion
    order, of which the queried type is an instance or a subclass. *)
Fixpoint inheritance_match (python_type : PyType)
    (registry : list (PyType * Transformer)) : option Transformer :=
  match registry with
  | [] => None
  | (base_type, tr) :: rest =>
      if bool_decide (base_type = TBuiltin B_None) then
        inheritance_match python_type rest
      else
        match as_class_for_check base_type with
        | None => inheritance_match python_type rest     (* [TypeError], logged *)
        | Some c =>
            if issubclass (metatype python_type) c
               || (isclass python_type && issubclass python_type c)
            then Some tr
            else inheritance_match python_type rest
        end
  end.

(** [DataclassTransformer.__init__]: the dictionary of the per-field
    transformers, each found by [get_transformer]. *)
Definition DataclassTransformer_init (get_transformer : PyType -> M Transformer)
  : list Field -> list (Field * Transformer) -> M (list (Field * Transformer)) :=
  fix per_field (fs : list Field) (acc : list (Field * Transformer)) :=
    match fs with
    | [] => ret acc
    | field :: fs' =>
        tr <- get_transformer (field_type field) ;;
        per_field fs' (dict_set field tr acc)
    end.

(** [TypeEngine.get_transformer] *)
Fixpoint get_transformer (python_type : PyType) {struct python_type} : M Transformer :=
  (* Step 1 *)
  let python_type :=
    match python_type with
    | TAnnotated base _ => base
    | _ => python_type
    end in
  reg <- get_registry ;;
  match dict_get python_type reg with
  | Some tr => ret tr
  | None =>
      match python_type with
      (* Step 2 *)
      | TAnnotated base _ => get_transformer base
      | TGeneric origin _ =>
          match dict_get origin reg with
          | Some tr => ret tr
          | None =>
              raise (ValueError ("Generic Type " ++ type_name origin
                                 ++ " not supported currently in Flytekit."))
          end
      (* Step 3; the [DataClassJsonMixin] warning asks for an instance of the
         mixin, which a type is not *)
      | TClassOf _ _ _ (Some fs) _ =>
          transformers <- DataclassTransformer_init get_transformer fs [] ;;
          set_registry_entry python_type (DataclassTransformer python_type transformers) ;;;
          ret (DataclassTransformer python_type transformers)
      | _ =>
          (* Step 4 *)
          match inheritance_match python_type reg with
          | Some tr => ret tr
          | None =>
              (* Step 5 *)
              log_warning ("No applicable TypeTransformer found. Falling back to pickling for type "
                           ++ type_name python_type) ;;;
              set_registry_entry python_type (FlytePickleTransformer python_type) ;;;
              ret (FlytePickleTransformer python_type)
          end
      end
  end.

(** ** The built-in simple transformers *)

(** [float(z)] for an [int]: round to nearest; too large an [int] raises. *)
Definition float_of_int (z : Z) : Result float64 :=
  match binary_normalize 53 1024 z 0 false with
  | S754_infinity _ => Raise (OverflowError "int too large to convert to float")
  | f => Ok f
  end.

(** The wire model's fields are typed; a lambda is only ever applied to a
    value whose type was checked, and rejects any other. *)
Definition wrong_payload {A} : Result A :=
  Raise (TypeError "value does not fit the primitive field").

Definition int_to_literal (x : PyVal) : Result Literal :=
  match x with
  | VInt z => Ok (Literal_primitive (mkPrimitive (Some z) None None None None None))
  | _ => wrong_payload
  end.
Definition float_to_literal (x : PyVal) : Result Literal :=
  match x with
  | VFloat f => Ok (Literal_primitive (mkPrimitive None (Some f) None None None None))
  | _ => wrong_payload
  end.
Definition bool_to_literal (x : PyVal) : Result Literal :=
  match x with
  | VBool b => Ok (Literal_primitive (mkPrimitive None None None (Some b) None None))
  | _ => wrong_payload
  end.
Definition str_to_literal (x : PyVal) : Result Literal :=
  match x with
  | VStr s => Ok (Literal_primitive (mkPrimitive None None (Some s) None None None))
  | _ => wrong_payload
  end.
Definition datetime_to_literal (x : PyVal) : Result Literal :=
  match x with
  | VDatetime d => Ok (Literal_primitive (mkPrimitive None None None None (Some d) None))
  | _ => wrong_payload
  end.
Definition timedelta_to_literal (x : PyVal) : Result Literal :=
  match x with
  | VTimedelta d => Ok (Literal_primitive (mkPrimitive None None None None None (Some d)))
  | _ => wrong_payload
  end.
Definition none_to_literal (x : PyVal) : Result Literal :=
  Ok (Literal_scalar (mkScalar None None None (Some tt) None)).

(** [x.scalar.primitive] *)
Definition scalar_primitive (x : Literal) : Result Primitive :=
  rbind (attr (scalar x) (fun s => s) "scalar")
        (fun s => attr (primitive s) (fun p => p) "primitive").

Definition opt_val {A} (f : A -> PyVal) (o : option A) : PyVal :=
  match o with Some a => f a | None => VNone end.

Definition int_from_literal (x : Literal) : Result PyVal :=
  rbind (scalar_primitive x) (fun p => Ok (opt_val VInt (integer p))).
Definition bool_from_literal (x : Literal) : Result PyVal :=
  rbind (scalar_primitive x) (fun p => Ok (opt_val VBool (boolean p))).
Definition str_from_literal (x : Literal) : Result PyVal :=
  rbind (scalar_primitive x) (fun p => Ok (opt_val VStr (string_value p))).
Definition datetime_from_literal (x : Literal) : Result PyVal :=
  rbind (scalar_primitive x) (fun p => Ok (opt_val VDatetime (datetime p))).
Definition timedelta_from_literal (x : Literal) : Result PyVal :=
  rbind (scalar_primitive x) (fun p => Ok (opt_val VTimedelta (duration p))).

(** [_check_and_covert_float] *)
Definition _check_and_covert_float (lv : Literal) : Result PyVal :=
  rbind (scalar_primitive lv) (fun p =>
    match float_value p with
    | Some f => Ok (VFloat f)
    | None =>
        match integer p with
        | Some z => rbind (float_of_int z) (fun f => Ok (VFloat f))
        | None => Raise (TypeTransformerFailedError "Cannot convert literal to float")
        end
    end).

(** [_check_and_convert_void] *)
Definition _check_and_convert_void (lv : Literal) : Result PyVal :=
  rbind (attr (scalar lv) (fun s => s) "scalar") (fun s =>
    match none_type s with
    | None => Raise (TypeTransformerFailedError "Cannot conver literal to None")
    | Some _ => Ok VNone
    end).

Definition int_transformer : Transformer :=
  SimpleTransformer "int" int (lt_simple INTEGER) int_to_literal int_from_literal.
Definition float_transformer : Transformer :=
  SimpleTransformer "float" float (lt_simple FLOAT) float_to_literal _check_and_covert_float.
Definition bool_transformer : Transformer :=
  SimpleTransformer "bool" bool_ (lt_simple BOOLEAN) bool_to_literal bool_from_literal.
Definition str_transformer : Transformer :=
  SimpleTransformer "str" str (lt_simple STRING) str_to_literal str_from_literal.
Definition datetime_transformer : Transformer :=
  SimpleTransformer "datetime" datetime_ (lt_simple DATETIME)
    datetime_to_literal datetime_from_literal.
Definition timedelta_transformer : Transformer :=
  SimpleTransformer "timedelta" timedelta_ (lt_simple DURATION)
    timedelta_to_literal timedelta_from_literal.
Definition none_transformer : Transformer :=
  SimpleTransformer "none" NoneType (lt_simple ST_NONE)
    none_to_literal _check_and_convert_void.

(** [_register_default_type_transformers] *)
Definition _register_default_type_transformers : M unit :=
  register int_transformer [] ;;;
  register float_transformer [] ;;;
  register bool_transformer [] ;;;
  register str_transformer [] ;;;
  register datetime_transformer [] ;;;
  register timedelta_transformer [] ;;;
  register none_transformer [TBuiltin B_None] ;;;
  register ListTransformer [] ;;;
  register UnionTransformer [] ;;;
  register DictTransformer [] ;;;
  register TextIOTransformer [] ;;;
  register BinaryIOTransformer [] ;;;
  register EnumTransformer [] ;;;
  register ProtobufTransformer [] ;;;
  register_restricted_type "non typed tuple" (TBuiltin B_tuple) ;;;
  register_restricted_type "non typed tuple" (TBuiltin B_typing_Tuple) ;;;
  register_restricted_type "named tuple" (TBuiltin B_typing_NamedTuple).

Definition empty_world : World := mkWorld [] [] [] 0 [] 0 [].

(** The process once the module is imported: its last line runs
    [_register_default_type_transformers()]. *)
Definition initial_world : World := snd (_register_default_type_transformers empty_world).

(** ** File access of the context *)

Definition path_name (prefix : string) (n : nat) : string :=
  prefix ++ NilEmpty.string_of_uint (Nat.to_uint n).

(** Modelled from the spec: [ctx.file_access] is not among the sources.
    Encoding "dumps the value ... to a blob and uploads it; decode downloads
    and deserializes": paths are fresh names, a file holds the value that
    was dumped. *)
Definition fresh_path (prefix : string) : M string :=
  fun w => (Ok (path_name prefix (paths_used w)),
            mkWorld (_REGISTRY w) (_RESTRICTED_TYPES w) (file_store w)
              (S (paths_used w)) (warnings w) (decode_calls w) (modules w)).

Definition write_file (path : string) (v : PyVal) : M unit :=
  fun w => (Ok tt, mkWorld (_REGISTRY w) (_RESTRICTED_TYPES w)
                     (dict_set path v (file_store w))
                     (paths_used w) (warnings w) (decode_calls w) (modules w)).

Definition read_file (path : string) : M PyVal :=
  fun w => match dict_get path (file_store w) with
           | Some v => (Ok v, w)
           | None => (Raise (FileNotFoundError path), w)
           end.

Definition is_remote (path : string) : bool := String.prefix "s3://" path.

(** [put_data] and [get_data]: copy a file. *)
Definition copy_file (src dst : string) : M unit :=
  v <- read_file src ;; write_file dst v.

(** ** Helpers of the generic transformers *)

(** [get_args(t)[0]] when [get_origin(t) is Annotated], else [t]. *)
Definition strip_Annotated (t : PyType) : PyType :=
  match t with TAnnotated base _ => base | _ => t end.

(** [ListTransformer.get_sub_type] *)
Fixpoint get_sub_type (t : PyType) : Result PyType :=
  match t with
  | TAnnotated base _ => get_sub_type base
  | TGeneric (TBuiltin B_list) (a :: _) => Ok a
  | TGeneric (TBuiltin B_list) [] => Raise (IndexError "tuple index out of range")
  | _ => Raise (ValueError "Only generic univariate typing.List[T] type is supported.")
  end.

(** [DictTransformer.get_dict_types]: the tuple returned, as a list. *)
Definition get_dict_types (t : PyType) : Result (list PyType) :=
  match t with
  | TAnnotated _ _ =>
      Raise (ValueError "Flytekit does not currently have support for FlyteAnnotations applied to dicts.")
  | TGeneric (TBuiltin B_dict) args => Ok args
  | _ => Ok [TBuiltin B_None; TBuiltin B_None]
  end.

(** [typing.Union[tuple(ts)]]: nested unions are flattened, duplicates
    dropped, and a union of one type is that type. *)
Definition flatten_union (ts : list PyType) : list PyType :=
  flat_map (fun t => match t with
                     | TGeneric (TBuiltin B_typing_Union) args => args
                     | _ => [t]
                     end) ts.

Fixpoint dedup_types (seen ts : list PyType) : list PyType :=
  match ts with
  | [] => []
  | t :: ts' =>
      if existsb (fun s => bool_decide (s = t)) seen then dedup_types seen ts'
      else t :: dedup_types (t :: seen) ts'
  end.

Definition typing_Union (ts : list PyType) : Result PyType :=
  match dedup_types [] (flatten_union ts) with
  | [] => Raise (TypeError "Cannot take a Union of no types.")
  | [t] => Ok t
  | ts' => Ok (Union_ ts')
  end.

(** [json.dumps] followed by the parse into a protobuf [Struct], whose
    numbers are doubles.  Only string keys are modelled. *)
Fixpoint to_struct (v : PyVal) : Result Json :=
  match v with
  | VNone => Ok JNull
  | VBool b => Ok (JBool b)
  | VInt z => rbind (float_of_int z) (fun f => Ok (JNumber f))
  | VFloat f => Ok (JNumber f)
  | VStr s => Ok (JString s)
  | VList items =>
      rbind ((fix each (l : list PyVal) : Result (list Json) :=
                match l with
                | [] => Ok []
                | x :: l' =>
                    rbind (to_struct x) (fun j => rbind (each l') (fun js => Ok (j :: js)))
                end) items)
            (fun js => Ok (JArray js))
  | VDict items =>
      rbind ((fix each (l : list (PyVal * PyVal)) : Result (list (string * Json)) :=
                match l with
                | [] => Ok []
                | (VStr k, x) :: l' =>
                    rbind (to_struct x) (fun j =>
                    rbind (each l') (fun js => Ok ((k, j) :: js)))
                | _ :: _ => Raise (TypeError "keys must be str")
                end) items)
            (fun js => Ok (JObject js))
  | _ => Raise (TypeError "Object is not JSON serializable")
  end.

(** [json.loads(MessageToJson(struct))] *)
Fixpoint of_struct (j : Json) : PyVal :=
  match j with
  | JNull => VNone
  | JBool b => VBool b
  | JNumber f => VFloat f
  | JString s => VStr s
  | JArray items => VList (List.map of_struct items)
  | JObject items =>
      VDict ((fix each (l : list (string * Json)) : list (PyVal * PyVal) :=
                match l with
                | [] => []
                | (k, x) :: l' => (VStr k, of_struct x) :: each l'
                end) items)
  end.

(** [DictTransformer.dict_to_generic_literal] *)
Definition dict_to_generic_literal (v : PyVal) : Result Literal :=
  rbind (to_struct v) (fun j => Ok (Literal_scalar (mkScalar None None None None (Some j)))).

(** The constructor call of a dataclass [cls]: every field takes its keyword
    argument, else its default; a field with neither raises [TypeError]. *)
Fixpoint init_fields (fs : list Field) (kwargs : list (string * PyVal))
  : Result (list (string * PyVal)) :=
  match fs with
  | [] => Ok []
  | f :: fs' =>
      match dict_get (field_name f) kwargs, field_default f with
      | Some v, _ =>
          rbind (init_fields fs' kwargs) (fun r => Ok ((field_name f, v) :: r))
      | None, Some c =>
          rbind (init_fields fs' kwargs) (fun r => Ok ((field_name f, of_const c) :: r))
      | None, None =>
          Raise (TypeError ("__init__() missing 1 required positional argument: '"
                            ++ field_name f ++ "'"))
      end
  end.

Definition construct (cls : PyType) (kwargs : list (string * PyVal)) : Result PyVal :=
  match strip_Annotated cls with
  | TClass c =>
      match dataclass_fields c with
      | None => Raise (TypeError "takes no keyword arguments")
      | Some fs =>
      match List.find (fun kv => negb (existsb (fun f => bool_decide (field_name f = fst kv)) fs))
                      kwargs with
      | Some kv =>
          Raise (TypeError ("__init__() got an unexpected keyword argument '" ++ fst kv ++ "'"))
      | None => rbind (init_fields fs kwargs) (fun attrs => Ok (VObject c attrs))
      end
      end
  | _ => Raise (TypeError "takes no keyword arguments")
  end.

Definition to_const (v : PyVal) : option Const :=
  match v with
  | VNone => Some CNone
  | VInt z => Some (CInt z)
  | VBool b => Some (CBool b)
  | VStr s => Some (CStr s)
  | _ => None
  end.

(** [cls(value)] for an enum class: the member with that value. *)
Definition enum_lookup (cls : PyType) (value : PyVal) : Result PyVal :=
  match strip_Annotated cls with
  | TClass c =>
      match List.find (fun m => bool_decide (Some (snd m) = to_const value)) (members c) with
      | Some m => Ok (VEnumMember c (fst m) (snd m))
      | None => Raise (ValueError "is not a valid enum value")
      end
  | _ => Raise (TypeError "takes no arguments")
  end.

(** ** [assert_type] *)

(** [TypeTransformer.assert_type], with the overrides of the dataclass and
    pickle transformers. *)
Fixpoint assert_type (tr : Transformer) (t : PyType) (v : PyVal) {struct tr}
  : Result unit :=
  match tr with
  | FlytePickleTransformer _ => Ok tt
  | DataclassTransformer _ _transformers =>
      if negb (is_dataclass (type_of v)) then
        Raise (TypeTransformerFailedError "Object must be a dataclass")
      else
        (fix each (l : list (Field * Transformer)) : Result unit :=
           match l with
           | [] => Ok tt
           | (field, transformer) :: l' =>
               match getattr v (field_name field) with
               | None => Raise (AttributeError (field_name field))
               | Some sub_val =>
                   rbind (assert_type transformer (field_type field) sub_val)
                         (fun _ => each l')
               end
           end) _transformers
  | _ =>
      if has_origin t then Ok tt else
      match isinstance v t with
      | None => Raise (TypeError "isinstance() arg 2 must be a type")
      | Some true => Ok tt
      | Some false =>
          Raise (TypeTransformerFailedError "Type of Val is not an instance of the type")
      end
  end.

(** ** The conversion methods *)

(** The engine's entry points and the transformers' methods call one
    another; [Engine] is the table of those calls, and the methods below
    are written against a table [self].  [engine] closes the loop. *)
Record Engine := mkEngine {
  to_literal_type_ : PyType -> M LiteralType;
  to_literal_ : PyVal -> PyType -> option LiteralType -> M Literal;
  to_python_value_ : Literal -> PyType -> M PyVal;
  guess_python_type_ : LiteralType -> M PyType;
  get_literal_type_ : Transformer -> PyType -> M LiteralType;
  transformer_to_literal_ :
    Transformer -> PyVal -> PyType -> option LiteralType -> M Literal;
  transformer_to_python_value_ : Transformer -> Literal -> PyType -> M PyVal;
  transformer_guess_python_type_ : Transformer -> LiteralType -> M PyType }.

Definition ambiguous_union : PyErr :=
  TypeError "Ambiguous choice of variant for union type".

Definition union_encode_errors : list ErrClass :=
  [E_TypeTransformerFailedError; E_AttributeError; E_ValueError; E_AssertionError].

Definition union_decode_errors : list ErrClass :=
  [E_TypeTransformerFailedError; E_AttributeError].

Section Methods.

Variable self : Engine.

(** *** [get_literal_type] *)

Fixpoint flyte_annotation_data (extras : list Annotation)
    (data : option (list (string * string)))
  : Result (option (list (string * string))) :=
  match extras with
  | [] => Ok data
  | FlyteAnnotation d :: extras' =>
      match data with
      | Some _ =>
          Raise (ValueError "More than one FlyteAnnotation used within typehint. Flytekit requires a max of one.")
      | None => flyte_annotation_data extras' (Some d)
      end
  | _ :: extras' => flyte_annotation_data extras' data
  end.

(** [TypeEngine.to_literal_type] *)
Definition TypeEngine_to_literal_type (python_type : PyType) : M LiteralType :=
  transformer <- get_transformer python_type ;;
  res <- get_literal_type_ self transformer python_type ;;
  data <- lift (match python_type with
                | TAnnotated _ extras => flyte_annotation_data extras None
                | _ => Ok None
                end) ;;
  match data with
  | Some d => ret (set_annotation res (Some d))
  | None => ret res
  end.

(** [DataclassTransformer.get_literal_type] *)
Fixpoint Dataclass_subtypes (_transformers : list (Field * Transformer))
    (subtypes : list (string * MetaValue)) : M (list (string * MetaValue)) :=
  match _transformers with
  | [] => ret subtypes
  | (field, transformer) :: rest =>
      lt <- get_literal_type_ self transformer (field_type field) ;;
      Dataclass_subtypes rest (dict_set (field_name field) (MetaType lt) subtypes)
  end.

Definition Dataclass_get_literal_type (_transformers : list (Field * Transformer))
    (t : PyType) : M LiteralType :=
  subtypes <- Dataclass_subtypes _transformers [] ;;
  ret (mkLiteralType None None None (Some LiteralType_) None None None None
         (Some subtypes) (Some (mkTypeStructure (tag_from_type t))) None).

Definition PB_FIELD_KEY : string := "pb_type".

(** [ProtobufTransformer.get_literal_type] *)
Definition Protobuf_get_literal_type (t : PyType) : M LiteralType :=
  ret (mkLiteralType (Some STRUCT) None None None None None None None
         (Some [(PB_FIELD_KEY, MetaStr (tag_from_type t))]) None None).

Definition PYTHON_PICKLE_FORMAT : string := "PythonPickle".

(** [FlytePickleTransformer.get_literal_type] *)
Definition FlytePickle_get_literal_type (t : PyType) : M LiteralType :=
  ret (lt_blob (mkBlobType PYTHON_PICKLE_FORMAT SINGLE)).

(** [ListTransformer.get_literal_type] *)
Definition List_get_literal_type (t : PyType) : M LiteralType :=
  try_except
    (sub <- lift (get_sub_type t) ;;
     sub_type <- to_literal_type_ self sub ;;
     ret (lt_collection sub_type))
    [E_Exception]
    (fun e => raise (ValueError "Type of Generic List type is not supported")).

(** [UnionTransformer.get_literal_type] *)
Definition Union_get_literal_type (t : PyType) : M LiteralType :=
  let t := strip_Annotated t in
  try_except
    (trans <- for_each (get_args t)
                (fun x => tr <- get_transformer x ;; ret (tr, x)) ;;
     variants <- for_each trans
                   (fun tx => lt <- to_literal_type_ self (snd tx) ;;
                              ret (_add_tag_to_type lt (tr_name (fst tx)))) ;;
     ret (lt_union variants))
    [E_Exception]
    (fun e => raise (ValueError "Type of Generic Union type is not supported")).

(** [DictTransformer.get_literal_type] *)
Definition Dict_get_literal_type (t : PyType) : M LiteralType :=
  tp <- lift (get_dict_types t) ;;
  match tp with
  | k :: rest =>
      if bool_decide (k = str) then
        try_except
          (v <- lift (match rest with
                      | v :: _ => Ok v
                      | [] => Raise (IndexError "tuple index out of range")
                      end) ;;
           sub_type <- to_literal_type_ self v ;;
           ret (lt_map sub_type))
          [E_Exception]
          (fun e => raise (ValueError "Type of Generic List type is not supported"))
      else ret (lt_simple STRUCT)
  | [] => ret (lt_simple STRUCT)
  end.

(** [EnumTransformer.get_literal_type]; the values of an [EnumType] are
    strings, a later value that is not one is refused. *)
Fixpoint enum_values (members : list (string * Const)) : Result (list string) :=
  match members with
  | [] => Ok []
  | (_, CStr s) :: rest => rbind (enum_values rest) (fun vs => Ok (s :: vs))
  | _ :: _ => Raise (TypeError "enum value has type other than str")
  end.

Definition Enum_get_literal_type (t : PyType) : M LiteralType :=
  match t with
  | TAnnotated _ _ =>
      raise (ValueError "Flytekit does not currently have support for FlyteAnnotations applied to enums.")
  | TClassOf _ _ _ _ members =>
      if negb (bool_decide (metatype t = TBuiltin B_EnumMeta)) then
        raise (TypeError "'type' object is not iterable")
      else
        match members with
        | [] => raise (IndexError "list index out of range")
        | (_, CStr _) :: _ =>
            values <- lift (enum_values members) ;; ret (lt_enum values)
        | _ :: _ =>
            raise (TypeTransformerFailedError
                     "Only EnumTypes with value of string are supported")
        end
  | TBuiltin B_enum_Enum => raise (IndexError "list index out of range")
  | _ => raise (TypeError "object is not iterable")
  end.

(** [transformer.get_literal_type(t)] *)
Definition Transformer_get_literal_type (tr : Transformer) (t : PyType)
  : M LiteralType :=
  match tr with
  | SimpleTransformer _ _ lt _ _ => ret lt
  | RestrictedTypeTransformer _ _ =>
      raise (RestrictedTypeError "Transformer for type is restricted currently")
  | DataclassTransformer _ _transformers => Dataclass_get_literal_type _transformers t
  | ProtobufTransformer => Protobuf_get_literal_type t
  | FlytePickleTransformer _ => FlytePickle_get_literal_type t
  | ListTransformer => List_get_literal_type t
  | UnionTransformer => Union_get_literal_type t
  | DictTransformer => Dict_get_literal_type t
  | TextIOTransformer => ret (lt_blob (mkBlobType "text/plain" SINGLE))
  | BinaryIOTransformer => ret (lt_blob (mkBlobType "application/octet-stream" SINGLE))
  | EnumTransformer => Enum_get_literal_type t
  end.

(** *** [to_literal] *)

(** [SimpleTransformer.to_literal] *)
Definition Simple_to_literal (_type : PyType)
    (_to_literal_transformer : PyVal -> Result Literal)
    (python_val : PyVal) (python_type : PyType) (expected : option LiteralType)
  : M Literal :=
  if negb (bool_decide (type_of python_val = _type)) then
    raise (TypeTransformerFailedError "Expected value of the transformer's type")
  else lift (_to_literal_transformer python_val).

(** [DataclassTransformer.to_literal] *)
Fixpoint Dataclass_parse_subtypes (items : list (string * MetaValue))
    (subtypes : list (string * LiteralType)) : Result (list (string * LiteralType)) :=
  match items with
  | [] => Ok subtypes
  | (k, MetaType lt) :: rest => Dataclass_parse_subtypes rest (dict_set k lt subtypes)
  | (k, MetaStr _) :: _ => Raise (ParseError "Failed to parse LiteralType")
  end.

Fixpoint Dataclass_literals (_transformers : list (Field * Transformer))
    (python_val : PyVal) (subtypes : list (string * LiteralType))
    (literals : list (string * Literal)) : M (list (string * Literal)) :=
  match _transformers with
  | [] => ret literals
  | (field, transformer) :: rest =>
      sub_val <- lift (match getattr python_val (field_name field) with
                       | Some v => Ok v
                       | None => Raise (AttributeError (field_name field))
                       end) ;;
      subtype <- lift (match dict_get (field_name field) subtypes with
                       | Some st => Ok st
                       | None => Raise (KeyError (field_name field))
                       end) ;;
      literal <- transformer_to_literal_ self transformer sub_val (field_type field)
                   (Some subtype) ;;
      Dataclass_literals rest python_val subtypes
        (dict_set (field_name field) literal literals)
  end.

Definition Dataclass_to_literal (_transformers : list (Field * Transformer))
    (python_val : PyVal) (python_type : PyType) (expected : option LiteralType)
  : M Literal :=
  md <- lift (rbind (attr expected metadata "metadata")
                    (fun md => attr md (fun items => items) "items")) ;;
  subtypes <- lift (Dataclass_parse_subtypes md []) ;;
  literals <- Dataclass_literals _transformers python_val subtypes [] ;;
  ret (Literal_map literals).

(** [ProtobufTransformer.to_literal]; a message is an instance of a
    subclass of [Message], its fields are its attributes. *)
Definition Protobuf_to_literal (python_val : PyVal) : M Literal :=
  match python_val with
  | VObject cls attrs =>
      if issubclass (TClass cls) (TBuiltin B_protobuf_Message) then
        match to_struct (VDict (List.map (fun kv => (VStr (fst kv), snd kv)) attrs)) with
        | Ok j => ret (Literal_scalar (mkScalar None None None None (Some j)))
        | Raise _ =>
            raise (TypeTransformerFailedError "Failed to convert to generic protobuf struct")
        | OutOfFuel => out_of_fuel
        end
      else raise (TypeTransformerFailedError "Failed to convert to generic protobuf struct")
  | _ => raise (TypeTransformerFailedError "Failed to convert to generic protobuf struct")
  end.

(** [FlytePickleTransformer.to_literal] *)
Definition FlytePickle_to_literal (python_val : PyVal) : M Literal :=
  local_dir <- fresh_path "/tmp/flyte/dir" ;;
  local_path <- fresh_path "/tmp/flyte/local" ;;
  let uri := local_path in          (* [os.path.join] with an absolute path *)
  write_file uri python_val ;;;
  remote_path <- fresh_path "s3://flyte/" ;;
  copy_file uri remote_path ;;;
  ret (Literal_scalar
         (mkScalar None
            (Some (mkBlob (mkBlobMetadata (mkBlobType PYTHON_PICKLE_FORMAT SINGLE))
                          remote_path))
            None None None)).

(** [ListTransformer.to_literal] *)
Definition List_to_literal (python_val : PyVal) (python_type : PyType)
    (expected : option LiteralType) : M Literal :=
  match python_val with
  | VList items =>
      t <- lift (get_sub_type python_type) ;;
      lit_list <- for_each items
                    (fun x =>
                       ct <- lift (attr expected collection_type "collection_type") ;;
                       to_literal_ self x t ct) ;;
      ret (Literal_collection lit_list)
  | _ => raise (TypeTransformerFailedError "Expected a list")
  end.

(** [UnionTransformer.to_literal]: the loop over the variants.  [found]
    holds [res] and [res_type] once [found_res] is set. *)
Fixpoint Union_to_literal_loop (variants : list PyType) (python_val : PyVal)
    (expected : option LiteralType) (found : option (Literal * LiteralType))
  : M (option (Literal * LiteralType)) :=
  match variants with
  | [] => ret found
  | t :: rest =>
      attempt <-
        try_except
          (trans <- get_transformer t ;;
           res <- transformer_to_literal_ self trans python_val t expected ;;
           ret (Some (trans, res)))
          union_encode_errors
          (fun e => ret None) ;;
      match attempt with
      | None => Union_to_literal_loop rest python_val expected found
      | Some (trans, res) =>
          typed <-
            try_except
              (lt <- get_literal_type_ self trans t ;;
               ret (Some (_add_tag_to_type lt (tr_name trans))))
              union_encode_errors
              (fun e => ret None) ;;
          match typed with
          | None =>
              (* [res] was assigned, [res_type] and [found_res] were not *)
              Union_to_literal_loop rest python_val expected
                (match found with
                 | Some (_, res_type) => Some (res, res_type)
                 | None => None
                 end)
          | Some res_type =>
              match found with
              | Some _ => raise ambiguous_union
              | None =>
                  Union_to_literal_loop rest python_val expected (Some (res, res_type))
              end
          end
      end
  end.

Definition Union_to_literal (python_val : PyVal) (python_type : PyType)
    (expected : option LiteralType) : M Literal :=
  let python_type := strip_Annotated python_type in
  found <- Union_to_literal_loop (get_args python_type) python_val expected None ;;
  match found with
  | Some (res, res_type) =>
      ret (Literal_scalar (mkScalar None None (Some (mkUnion res res_type)) None None))
  | None => raise (TypeTransformerFailedError "Cannot convert from value to union type")
  end.

(** [DictTransformer.to_literal] *)
Fixpoint Dict_to_literal_loop (items : list (PyVal * PyVal)) (python_type : PyType)
    (expected : option LiteralType) (lit_map : list (string * Literal))
  : M (list (string * Literal)) :=
  match items with
  | [] => ret lit_map
  | (VStr k, v) :: rest =>
      tp <- lift (get_dict_types python_type) ;;
      match tp with
      | [k_type; v_type] =>
          mvt <- lift (attr expected map_value_type "map_value_type") ;;
          lit <- to_literal_ self v v_type mvt ;;
          Dict_to_literal_loop rest python_type expected (dict_set k lit lit_map)
      | _ => raise (ValueError "not enough values to unpack (expected 2)")
      end
  | _ :: _ => raise (ValueError "Flyte MapType expects all keys to be strings")
  end.

Definition Dict_to_literal (python_val : PyVal) (python_type : PyType)
    (expected : option LiteralType) : M Literal :=
  match python_val with
  | VDict items =>
      if match expected with
         | Some e => bool_decide (simple e = Some STRUCT)
         | None => false
         end
      then lift (dict_to_generic_literal python_val)
      else
        lit_map <- Dict_to_literal_loop items python_type expected [] ;;
        ret (Literal_map lit_map)
  | _ => raise (TypeTransformerFailedError "Expected a dict")
  end.

(** [EnumTransformer.to_literal] *)
Definition Enum_to_literal (python_val : PyVal) : M Literal :=
  if negb (bool_decide (metatype (type_of python_val) = TBuiltin B_EnumMeta)) then
    raise (TypeTransformerFailedError "Expected an enum")
  else
    match getattr python_val "value" with
    | None => raise (AttributeError "value")
    | Some (VStr s) =>
        ret (Literal_primitive (mkPrimitive None None (Some s) None None None))
    | Some _ =>
        raise (TypeTransformerFailedError "Only string-valued enums are supportedd")
    end.

(** [transformer.to_literal(ctx, python_val, python_type, expected)] *)
Definition Transformer_to_literal (tr : Transformer) (python_val : PyVal)
    (python_type : PyType) (expected : option LiteralType) : M Literal :=
  match tr with
  | SimpleTransformer _ t _ to_lit _ =>
      Simple_to_literal t to_lit python_val python_type expected
  | RestrictedTypeTransformer _ _ =>
      raise (RestrictedTypeError "Transformer for type is restricted currently")
  | DataclassTransformer _ _transformers =>
      Dataclass_to_literal _transformers python_val python_type expected
  | ProtobufTransformer => Protobuf_to_literal python_val
  | FlytePickleTransformer _ => FlytePickle_to_literal python_val
  | ListTransformer => List_to_literal python_val python_type expected
  | UnionTransformer => Union_to_literal python_val python_type expected
  | DictTransformer => Dict_to_literal python_val python_type expected
  | TextIOTransformer | BinaryIOTransformer =>
      raise (NotImplementedError "Implement handle for TextIO")
  | EnumTransformer => Enum_to_literal python_val
  end.

(** [TypeEngine.to_literal] *)
Fixpoint first_hash_method (extras : list Annotation) (python_val : PyVal)
  : option Hash :=
  match extras with
  | [] => None
  | HashMethod fn :: _ => Some (mkHash fn python_val)
  | _ :: extras' => first_hash_method extras' python_val
  end.

Definition TypeEngine_to_literal (python_val : PyVal) (python_type : PyType)
    (expected : option LiteralType) : M Literal :=
  none_refused <-
    lift (match python_val with
          | VNone => attr expected (fun e => bool_decide (union_type e = None)) "union_type"
          | _ => Ok false
          end) ;;
  if (none_refused : bool) then
    raise (TypeTransformerFailedError "Python value cannot be None")
  else
    transformer <- get_transformer python_type ;;
    (if type_assertions_enabled transformer
     then lift (assert_type transformer python_type python_val)
     else ret tt) ;;;
    let hash :=
      match python_type with
      | TAnnotated _ extras => first_hash_method extras python_val
      | _ => None
      end in
    lv <- transformer_to_literal_ self transformer python_val python_type expected ;;
    match hash with
    | Some h => ret (set_hash lv (Some h))
    | None => ret lv
    end.

End Methods.

Section Decoding.

Variable self : Engine.

(** *** [to_python_value] *)

(** [SimpleTransformer.to_python_value] *)
Definition Simple_to_python_value (_type : PyType)
    (_from_literal_transformer : Literal -> Result PyVal)
    (lv : Literal) (expected_python_type : PyType) : M PyVal :=
  let expected_python_type := strip_Annotated expected_python_type in
  if negb (bool_decide (expected_python_type = _type)) then
    raise (TypeTransformerFailedError "Cannot convert to type, only the transformer's type is supported")
  else
    try_except
      (res <- lift (_from_literal_transformer lv) ;;
       if negb (bool_decide (type_of res = _type)) then
         raise (TypeTransformerFailedError "Cannot convert literal to the transformer's type")
       else ret res)
      [E_AttributeError]
      (fun e => raise (TypeTransformerFailedError "Cannot convert literal")).

(** [DataclassTransformer.to_python_value] *)
Fixpoint Dataclass_fields (_transformers : list (Field * Transformer)) (lv : Literal)
    (fields : list (string * PyVal)) : M (list (string * PyVal)) :=
  match _transformers with
  | [] => ret fields
  | (field, transformer) :: rest =>
      literals <- lift (attr (map lv) (fun m => m) "literals") ;;
      match dict_get (field_name field) literals with
      | Some sub =>
          v <- transformer_to_python_value_ self transformer sub (field_type field) ;;
          Dataclass_fields rest lv (dict_set (field_name field) v fields)
      | None => Dataclass_fields rest lv fields
      end
  end.

Definition Dataclass_to_python_value (_transformers : list (Field * Transformer))
    (lv : Literal) (expected_python_type : PyType) : M PyVal :=
  fields <- Dataclass_fields _transformers lv [] ;;
  lift (construct expected_python_type fields).

(** [ProtobufTransformer.to_python_value] *)
Definition Protobuf_to_python_value (lv : Literal) (expected_python_type : PyType)
  : M PyVal :=
  match scalar lv with
  | Some s =>
      match generic s with
      | Some (JObject items) =>
          match strip_Annotated expected_python_type with
          | TClass c =>
              ret (VObject c (List.map (fun kv => (fst kv, of_struct (snd kv))) items))
          | _ => raise (TypeError "not a message class")
          end
      | Some _ => raise (ParseError "Failed to parse message")
      | None =>
          raise (TypeTransformerFailedError "Can only convert a generic literal to a Protobuf")
      end
  | None =>
      raise (TypeTransformerFailedError "Can only convert a generic literal to a Protobuf")
  end.

(** [lv.scalar.blob.uri] *)
Definition scalar_blob_uri (lv : Literal) : Result string :=
  rbind (attr (scalar lv) (fun s => s) "scalar") (fun s =>
  attr (scalar_blob s) uri "blob").

(** [FlytePickleTransformer.to_python_value] *)
Definition FlytePickle_to_python_value (lv : Literal) : M PyVal :=
  uri <- lift (scalar_blob_uri lv) ;;
  if is_remote uri then
    local_path <- fresh_path "/tmp/flyte/local" ;;
    copy_file uri local_path ;;;
    read_file local_path
  else read_file uri.

(** [ListTransformer.to_python_value] *)
Definition List_to_python_value (lv : Literal) (expected_python_type : PyType)
  : M PyVal :=
  match collection lv with
  | None => raise (TypeTransformerFailedError EmptyString)
  | Some lits =>
      st <- lift (get_sub_type expected_python_type) ;;
      vs <- for_each lits (fun x => to_python_value_ self x st) ;;
      ret (VList vs)
  end.

(** [UnionTransformer.to_python_value]: the loop over the variants;
    [found] holds [res] once [found_res] is set. *)
Fixpoint Union_to_python_value_loop (variants : list PyType) (lv : Literal)
    (union_type : option LiteralType) (union_tag : option string)
    (found : option PyVal) : M (option PyVal) :=
  match variants with
  | [] => ret found
  | v :: rest =>
      (* [None]: the variant was skipped or failed; [Some res]: it decoded. *)
      outcome <-
        try_except
          (trans <- get_transformer v ;;
           match union_tag, union_type with
           | Some tag, Some ut =>
               if negb (bool_decide (tr_name trans = tag)) && negb (is_dataclass v)
               then ret None
               else
                 expected_literal_type <- to_literal_type_ self v ;;
                 if negb (_are_types_castable ut expected_literal_type)
                 then ret None
                 else
                   inner <- lift (rbind (attr (scalar lv) (fun s => s) "scalar")
                                   (fun s => attr (union s) value "union")) ;;
                   res <- transformer_to_python_value_ self trans inner v ;;
                   match found with
                   | Some _ => raise ambiguous_union
                   | None => ret (Some res)
                   end
           | _, _ =>
               res <- transformer_to_python_value_ self trans lv v ;;
               match found with
               | Some _ => raise ambiguous_union
               | None => ret (Some res)
               end
           end)
          union_decode_errors
          (fun e => ret None) ;;
      match outcome with
      | Some res => Union_to_python_value_loop rest lv union_type union_tag (Some res)
      | None => Union_to_python_value_loop rest lv union_type union_tag found
      end
  end.

(** The stored type and the tag read off a union literal. *)
Definition stored_union_type (lv : Literal) : option LiteralType :=
  match scalar lv with
  | Some s => match union s with
              | Some u => Some (stored_type u)
              | None => None
              end
  | None => None
  end.

Definition stored_union_tag (lv : Literal) : option string :=
  match stored_union_type lv with
  | Some ut => match structure ut with
               | Some st => Some (tag st)
               | None => None
               end
  | None => None
  end.

Definition Union_to_python_value (lv : Literal) (expected_python_type : PyType)
  : M PyVal :=
  let expected_python_type := strip_Annotated expected_python_type in
  let union_type := stored_union_type lv in
  let union_tag := stored_union_tag lv in
  found <- Union_to_python_value_loop (get_args expected_python_type) lv
             union_type union_tag None ;;
  match found with
  | Some res => ret res
  | None => raise (TypeError "Cannot convert from literal to union type (using tag)")
  end.

(** [DictTransformer.to_python_value] *)
Fixpoint Dict_to_python_value_loop (literals : list (string * Literal))
    (tp : list PyType) (py_map : list (string * PyVal)) : M (list (string * PyVal)) :=
  match literals with
  | [] => ret py_map
  | (k, v) :: rest =>
      vt <- lift (match tp with
                  | _ :: vt :: _ => Ok vt
                  | _ => Raise (IndexError "tuple index out of range")
                  end) ;;
      x <- to_python_value_ self v vt ;;
      Dict_to_python_value_loop rest tp (dict_set k x py_map)
  end.

Definition Dict_to_python_value (lv : Literal) (expected_python_type : PyType)
  : M PyVal :=
  match map lv with
  | Some literals =>
      tp <- lift (get_dict_types expected_python_type) ;;
      match tp with
      | [] => raise (IndexError "tuple index out of range")
      | k :: _ =>
          if bool_decide (k = TBuiltin B_None) then
            raise (TypeError "TypeMismatch: Cannot convert to python dictionary from Flyte Literal Dictionary")
          else if negb (bool_decide (k = str)) then
            raise (TypeError "TypeMismatch. Destination dictionary does not accept 'str' key")
          else
            py_map <- Dict_to_python_value_loop literals tp [] ;;
            ret (VDict (List.map (fun kv => (VStr (fst kv), snd kv)) py_map))
      end
  | None =>
      match scalar lv with
      | Some s =>
          match generic s with
          | Some j => ret (of_struct j)
          | None => raise (TypeTransformerFailedError "Cannot convert from literal to dict")
          end
      | None => raise (TypeTransformerFailedError "Cannot convert from literal to dict")
      end
  end.

(** [TextIOTransformer.to_python_value] and [BinaryIOTransformer]'s *)
Definition IO_to_python_value (mode : string) (lv : Literal) : M PyVal :=
  local_path <- fresh_path "/tmp/flyte/local" ;;
  uri <- lift (scalar_blob_uri lv) ;;
  copy_file uri local_path ;;;
  ret (VFile local_path mode).

(** [EnumTransformer.to_python_value] *)
Definition Enum_to_python_value (lv : Literal) (expected_python_type : PyType)
  : M PyVal :=
  p <- lift (scalar_primitive lv) ;;
  lift (enum_lookup expected_python_type (opt_val VStr (string_value p))).

(** [transformer.to_python_value(ctx, lv, expected_python_type)] *)
Definition Transformer_to_python_value (tr : Transformer) (lv : Literal)
    (expected_python_type : PyType) : M PyVal :=
  match tr with
  | SimpleTransformer _ t _ _ from_lit =>
      Simple_to_python_value t from_lit lv expected_python_type
  | RestrictedTypeTransformer _ _ =>
      raise (RestrictedTypeError "Transformer for type is restricted currently")
  | DataclassTransformer _ _transformers =>
      Dataclass_to_python_value _transformers lv expected_python_type
  | ProtobufTransformer => Protobuf_to_python_value lv expected_python_type
  | FlytePickleTransformer _ => FlytePickle_to_python_value lv
  | ListTransformer => List_to_python_value lv expected_python_type
  | UnionTransformer => Union_to_python_value lv expected_python_type
  | DictTransformer => Dict_to_python_value lv expected_python_type
  | TextIOTransformer => IO_to_python_value "r" lv
  | BinaryIOTransformer => IO_to_python_value "rb" lv
  | EnumTransformer => Enum_to_python_value lv expected_python_type
  end.

(** [TypeEngine.to_python_value] *)
Definition TypeEngine_to_python_value (lv : Literal) (expected_python_type : PyType)
  : M PyVal :=
  count_decode ;;;
  transformer <- get_transformer expected_python_type ;;
  transformer_to_python_value_ self transformer lv expected_python_type.

(** *** [guess_python_type] *)

Definition cannot_reverse {A} : M A :=
  raise (ValueError "Transformer cannot reverse the literal type").

(** Modelled from the spec: [load_type_from_tag] is not among the
    sources; "decode requires that tag to reconstruct the correct message
    type".  The types that can be imported are listed in [modules]. *)
Definition load_type_from_tag (tag : string) : M PyType :=
  fun w => match dict_get tag (modules w) with
           | Some t => (Ok t, w)
           | None => (Raise (ValueError "Could not load type for tag"), w)
           end.

(** [transformer.guess_python_type(literal_type)] *)
Definition Transformer_guess_python_type (tr : Transformer) (literal_type : LiteralType)
  : M PyType :=
  match tr with
  | SimpleTransformer _ t lt _ _ =>
      match simple literal_type with
      | Some s => if bool_decide (Some s = simple lt) then ret t else cannot_reverse
      | None => cannot_reverse
      end
  | DataclassTransformer dataclass_type _ =>
      st <- lift (attr (structure literal_type) (fun s => s) "tag") ;;
      if bool_decide (tag st = tag_from_type dataclass_type) then ret dataclass_type
      else raise (ValueError "Type tag does not match import path of dataclass")
  | ProtobufTransformer =>
      if bool_decide (simple literal_type = Some STRUCT) then
        match metadata literal_type with
        | Some md =>
            match dict_get PB_FIELD_KEY md with
            | Some (MetaStr tag) =>
                if bool_decide (tag = EmptyString) then cannot_reverse else load_type_from_tag tag
            | Some (MetaType _) => raise (AttributeError "rsplit")
            | None => cannot_reverse
            end
        | None => cannot_reverse
        end
      else cannot_reverse
  | FlytePickleTransformer pickled_type =>
      match blob literal_type with
      | Some b =>
          if bool_decide (dimensionality b = SINGLE)
             && bool_decide (blob_format b = PYTHON_PICKLE_FORMAT)
          then ret pickled_type else cannot_reverse
      | None => cannot_reverse
      end
  | ListTransformer =>
      match collection_type literal_type with
      | Some ct_lt => ct <- guess_python_type_ self ct_lt ;; ret (List_ ct)
      | None => cannot_reverse
      end
  | UnionTransformer =>
      match union_type literal_type with
      | Some u =>
          ts <- for_each (variants u) (guess_python_type_ self) ;;
          lift (typing_Union ts)
      | None => cannot_reverse
      end
  | DictTransformer =>
      match map_value_type literal_type with
      | Some mvt => mt <- guess_python_type_ self mvt ;; ret (Dict_ str mt)
      | None =>
          if bool_decide (simple literal_type = Some STRUCT) then
            match metadata literal_type with
            | None => ret (TBuiltin B_dict)
            | Some _ => cannot_reverse
            end
          else cannot_reverse
      end
  | RestrictedTypeTransformer _ _ | TextIOTransformer | BinaryIOTransformer
  | EnumTransformer =>
      raise (ValueError "By default, transformers do not translate from Flyte types back to Python types")
  end.

(** [TypeEngine.guess_python_type] *)
Fixpoint guess_loop (registry : list (PyType * Transformer)) (flyte_type : LiteralType)
  : M PyType :=
  match registry with
  | [] => raise (ValueError "No type found for the literal type")
  | (_, transformer) :: rest =>
      try_except
        (transformer_guess_python_type_ self transformer flyte_type)
        [E_ValueError]
        (fun e => guess_loop rest flyte_type)
  end.

Definition TypeEngine_guess_python_type (flyte_type : LiteralType) : M PyType :=
  reg <- get_registry ;;
  guess_loop reg flyte_type.

End Decoding.

(** ** The engine *)

Definition no_fuel : Engine :=
  mkEngine (fun _ => out_of_fuel) (fun _ _ _ => out_of_fuel) (fun _ _ => out_of_fuel)
    (fun _ => out_of_fuel) (fun _ _ => out_of_fuel) (fun _ _ _ _ => out_of_fuel)
    (fun _ _ _ => out_of_fuel) (fun _ _ => out_of_fuel).

(** Each call made through the table uses one unit of [fuel]; the depth of
    the calls is bounded by the nesting of the native type. *)
Fixpoint engine (fuel : nat) : Engine :=
  match fuel with
  | O => no_fuel
  | S n =>
      mkEngine
        (TypeEngine_to_literal_type (engine n))
        (TypeEngine_to_literal (engine n))
        (TypeEngine_to_python_value (engine n))
        (TypeEngine_guess_python_type (engine n))
        (Transformer_get_literal_type (engine n))
        (Transformer_to_literal (engine n))
        (Transformer_to_python_value (engine n))
        (Transformer_guess_python_type (engine n))
  end.

(** The static entry points of [TypeEngine]. *)
Definition to_literal_type (fuel : nat) := to_literal_type_ (engine fuel).
Definition to_literal (fuel : nat) := to_literal_ (engine fuel).
Definition to_python_value (fuel : nat) := to_python_value_ (engine fuel).
Definition guess_python_type (fuel : nat) := guess_python_type_ (engine fuel).

(** ** [LiteralsResolver] *)

(** [flytekit.models.interface.Variable] *)
Record Variable_ := mkVariable { var_type : LiteralType; description : string }.

Record LiteralsResolver := mkLiteralsResolver {
  _literals : gmap string Literal;
  _variable_map : option (gmap string Variable_);
  _native_values : gmap string PyVal;
  _type_hints : gmap string PyType }.

(** [LiteralsResolver.__init__] *)
Definition LiteralsResolver_init (literals : option (gmap string Literal))
    (variable_map : option (gmap string Variable_)) : Result LiteralsResolver :=
  match literals with
  | None => Raise (ValueError "Cannot instantiate LiteralsResolver without a map of Literals.")
  | Some l => Ok (mkLiteralsResolver l variable_map ∅ ∅)
  end.


(** [LiteralsResolver.get_literal] *)
Definition get_literal (self : LiteralsResolver) (key : string) : Result Literal :=
  match _literals self !! key with
  | None => Raise (ValueError "Key is not in the literal map")
  | Some lv => Ok lv
  end.

(** The type [get] settles on before it decodes; [None] is Python's
    [None], which the source then passes on as the type. *)
Definition resolve_as_type (fuel : nat) (self : LiteralsResolver) (attr : string)
    (as_type : option PyType) : M (option PyType) :=
  match as_type with
  | Some t => ret (Some t)
  | None =>
      match _type_hints self !! attr with
      | Some hint => ret (Some hint)
      | None =>
          match _variable_map self with
          | Some vm =>
              match vm !! attr with
              | Some var =>
                  try_except
                    (t <- guess_python_type fuel (var_type var) ;; ret (Some t))
                    [E_ValueError]
                    (fun e => raise e)       (* logged, then raised again *)
              | None => ret None             (* the [ValueError] is built, not raised *)
              end
          | None => ret None
          end
      end
  end.

(** [LiteralsResolver.get]: the value, and the resolver with its cache
    updated.  Nothing of the resolver changes when the call raises. *)
Definition LiteralsResolver_get (fuel : nat) (self : LiteralsResolver) (attr : string)
    (as_type : option PyType) : M (PyVal * LiteralsResolver) :=
  match _literals self !! attr with
  | None => raise (AttributeError "Attribute not found")
  | Some lv =>
      match _native_values self !! attr with
      | Some cached => ret (cached, self)
      | None =>
          as_type <- resolve_as_type fuel self attr as_type ;;
          val <- to_python_value fuel lv
                   (match as_type with Some t => t | None => TBuiltin B_None end) ;;
          ret (val, mkLiteralsResolver (_literals self) (_variable_map self)
                      (<[attr := val]> (_native_values self)) (_type_hints self))
      end
  end.

(** [LiteralsResolver.__getitem__] *)
Definition LiteralsResolver_getitem (fuel : nat) (self : LiteralsResolver) (key : string)
  : M (PyVal * LiteralsResolver) :=
  match _literals self !! key with
  | None => raise (ValueError "Key is not in the literal map")
  | Some _ =>
      match _native_values self !! key with
      | Some cached => ret (cached, self)
      | None => LiteralsResolver_get fuel self key None
      end
  end.

(** ** Round trip through the engine *)

(** [to_python_value(ctx, to_literal(ctx, v, T, to_literal_type(T)), T)] *)
Definition round_trip (fuel : nat) (v : PyVal) (T : PyType) : M PyVal :=
  lt <- to_literal_type fuel T ;;
  lv <- to_literal fuel v T (Some lt) ;;
  to_python_value fuel lv T.

(** The built-in simple scalar types. *)
Definition simple_scalar_types : list PyType :=
  [int; float; bool_; str; datetime_; timedelta_].

(** The registry still maps [T] to what the module registered for it. *)
Definition registered_as_builtin (w : World) (T : PyType) : Prop :=
  dict_get T (_REGISTRY w) = dict_get T (_REGISTRY initial_world).

(** ** Predicates used in the statements *)

(** Every registered type of [w] is still registered in [w']. *)
Definition keys_preserved (w w' : World) : Prop :=
  forall k, is_Some (dict_get k (_REGISTRY w)) -> is_Some (dict_get k (_REGISTRY w')).

Definition registered (reg : list (PyType * Transformer)) (t : PyType) : bool :=
  match dict_get t reg with Some _ => true | None => false end.


(** Induction on native types, through the arguments of a generic, the
    bases of a class and the types of its fields. *)
Section PyType_induction.

Variable P : PyType -> Prop.
Hypothesis Hb : forall b, P (TBuiltin b).
Hypothesis Hg : forall origin args, P origin -> Forall P args -> P (TGeneric origin args).
Hypothesis Ha : forall base extras, P base -> P (TAnnotated base extras).
Hypothesis Hc : forall c,
  Forall P (bases c) ->
  (forall fs, dataclass_fields c = Some fs -> Forall (fun f => P (field_type f)) fs) ->
  P (TClass c).

Fixpoint PyType_nested_ind (t : PyType) : P t :=
  match t with
  | TBuiltin b => Hb b
  | TGeneric origin args =>
      Hg origin args (PyType_nested_ind origin)
        ((fix all (l : list PyType) : Forall P l :=
            match l with
            | [] => List.Forall_nil P
            | x :: l' => @List.Forall_cons _ _ x _ (PyType_nested_ind x) (all l')
            end) args)
  | TAnnotated base extras => Ha base extras (PyType_nested_ind base)
  | TClass c =>
      Hc c
        ((fix all (l : list PyType) : Forall P l :=
            match l with
            | [] => List.Forall_nil P
            | x :: l' => @List.Forall_cons _ _ x _ (PyType_nested_ind x) (all l')
            end) (bases c))
        (match dataclass_fields c as o
               return forall fs, o = Some fs -> Forall (fun f => P (field_type f)) fs with
         | Some fs0 => fun fs E =>
             match E in _ = y
                   return match y with
                          | Some fs' => Forall (fun f => P (field_type f)) fs'
                          | None => True
                          end with
             | eq_refl =>
               (fix all (l : list Field) : Forall (fun f => P (field_type f)) l :=
                  match l with
                  | [] => List.Forall_nil _
                  | x :: l' =>
                      @List.Forall_cons _ _ x _ (PyType_nested_ind (field_type x)) (all l')
                  end) fs0
             end
         | None => fun fs E => match E with end
         end)
  end.

End PyType_induction.



(** *** The variants of a union, one by one *)

Section UnionVariants.

Variable self : Engine.
Variable python_val : PyVal.
Variable expected : option LiteralType.

(** The body of the [try] in [UnionTransformer.to_literal] completes for
  the variant [t]: its transformer [trans] encodes the value as [res], and
  [res_type] is the transformer's literal type tagged with its name. *)
Definition variant_encodes (t : PyType) (w : World)
  (trans : Transformer) (res : Literal) (res_type : LiteralType) (w' : World) : Prop :=
exists w1 w2 lt,
  get_transformer t w = (Ok trans, w1) /\
  transformer_to_literal_ self trans python_val t expected w1 = (Ok res, w2) /\
  get_literal_type_ self trans t w2 = (Ok lt, w') /\
  res_type = _add_tag_to_type lt (tr_name trans).

(** The variant [t] does not encode the value: the lookup of its
  transformer, or the transformer's [to_literal], raises one of the
  exceptions that the loop catches. *)
Definition variant_fails (t : PyType) (w w' : World) : Prop :=
exists e,
  existsb (err_isinstance e) union_encode_errors = true /\
  (get_transformer t w = (Raise e, w') \/
   exists trans w1,
     get_transformer t w = (Ok trans, w1) /\
     transformer_to_literal_ self trans python_val t expected w1 = (Raise e, w')).


End UnionVariants.

(** [Literal(scalar=Scalar(union=Union(value=res, stored_type=res_type)))] *)
Definition Literal_union (res : Literal) (res_type : LiteralType) : Literal :=
  Literal_scalar (mkScalar None None (Some (mkUnion res res_type)) None None).

Section UnionDecoding.

Variable self : Engine.
Variable lv : Literal.
Variable union_type : LiteralType.
Variable union_tag : string.

(** With a tag in the stored type, the variant [v] is passed over without
  being decoded: its transformer has another name and [v] is not a
  dataclass. *)
Definition variant_skipped_by_tag (v : PyType) (w w' : World) : Prop :=
exists trans,
  get_transformer v w = (Ok trans, w') /\
  tr_name trans <> union_tag /\ is_dataclass v = false.


(** With a tag in the stored type, the variant [v] is decoded, to [res]:
  its transformer's name is the tag or [v] is a dataclass, the stored
  type is castable to the literal type of [v], and the transformer
  decodes the value inside the union literal. *)
Definition variant_decodes_tagged (v : PyType) (w : World) (res : PyVal) (w' : World)
: Prop :=
exists trans w1 w2 expected_literal_type s u,
  get_transformer v w = (Ok trans, w1) /\
  (tr_name trans = union_tag \/ is_dataclass v = true) /\
  to_literal_type_ self v w1 = (Ok expected_literal_type, w2) /\
  _are_types_castable union_type expected_literal_type = true /\
  scalar lv = Some s /\ union s = Some u /\
  transformer_to_python_value_ self trans (value u) v w2 = (Ok res, w').

End UnionDecoding.

(** ** Examples used in the statements *)

(** Two dataclasses with the same single field. *)
Definition PointA : PyType := TClassOf "app" "PointA" [] (Some [mkField "a" int None]) [].

Definition int_literal (z : Z) : Literal :=
  Literal_primitive (mkPrimitive (Some z) None None None None None).
Definition str_literal (s : string) : Literal :=
  Literal_primitive (mkPrimitive None None (Some s) None None None).






(** A resolver over the one literal [x = 1], with no variable map and no
    hints. *)
Definition resolver_x : LiteralsResolver :=
  mkLiteralsResolver {[ "x" := int_literal 1 ]} None ∅ ∅.

(** ** More predicates on wire types *)

(** [x] with its metadata, structure and annotation replaced. *)
Definition with_decorations (x : LiteralType)
    (md : option (list (string * MetaValue))) (st : option TypeStructure)
    (an : option (list (string * string))) : LiteralType :=
  mkLiteralType (simple x) (schema x) (collection_type x) (map_value_type x)
    (blob x) (enum_type x) (union_type x) (structured_dataset_type x) md st an.

(** The loop of [_are_types_castable] over the zipped columns of two
    structured datasets. *)
Fixpoint columns_castable (us ds : list (DatasetColumnOf LiteralType)) : bool :=
  match us, ds with
  | u :: us', d :: ds' =>
      if negb (bool_decide (name u = name d)) then false else
      if negb (_are_types_castable (literal_type u) (literal_type d)) then false
      else columns_castable us' ds'
  | _, _ => true
  end.

(** None of the collection, map, structured-dataset and union fields is
    set. *)
Definition is_plain (x : LiteralType) : bool :=
  match collection_type x, map_value_type x, structured_dataset_type x, union_type x with
  | None, None, None, None => true
  | _, _, _, _ => false
  end.

(** The unions met in [x] (below collections, maps and dataset columns)
    have plain variants only. *)
Fixpoint unions_are_flat (x : LiteralType) : bool :=
  match collection_type x with
  | Some c => unions_are_flat c
  | None =>
  match map_value_type x with
  | Some m => unions_are_flat m
  | None =>
  match structured_dataset_type x with
  | Some sd => forallb (fun c => unions_are_flat (literal_type c)) (columns sd)
  | None =>
  match union_type x with
  | Some u => forallb is_plain (variants u)
  | None => true
  end end end end.

(** Induction on wire types, through element and value types, union
    variants and dataset columns. *)
Section LiteralType_induction.

Variable P : LiteralType -> Prop.
Hypothesis Hstep : forall x,
  (forall c, collection_type x = Some c -> P c) ->
  (forall m, map_value_type x = Some m -> P m) ->
  (forall u, union_type x = Some u -> Forall P (variants u)) ->
  (forall sd, structured_dataset_type x = Some sd ->
     Forall (fun c => P (literal_type c)) (columns sd)) ->
  P x.

Fixpoint LiteralType_nested_ind (x : LiteralType) : P x :=
  Hstep x
    (match x as x0 return forall c, collection_type x0 = Some c -> P c with
     | mkLiteralType _ _ (Some c0) _ _ _ _ _ _ _ _ => fun c E =>
         match E in _ = y return match y with Some c' => P c' | None => True end with
         | eq_refl => LiteralType_nested_ind c0
         end
     | mkLiteralType _ _ None _ _ _ _ _ _ _ _ => fun c E =>
         match E in _ = y return match y with Some _ => P c | None => True end with
         | eq_refl => I
         end
     end)
    (match x as x0 return forall m, map_value_type x0 = Some m -> P m with
     | mkLiteralType _ _ _ (Some m0) _ _ _ _ _ _ _ => fun m E =>
         match E in _ = y return match y with Some m' => P m' | None => True end with
         | eq_refl => LiteralType_nested_ind m0
         end
     | mkLiteralType _ _ _ None _ _ _ _ _ _ _ => fun m E =>
         match E in _ = y return match y with Some _ => P m | None => True end with
         | eq_refl => I
         end
     end)
    (match x as x0 return forall u, union_type x0 = Some u -> Forall P (variants u) with
     | mkLiteralType _ _ _ _ _ _ (Some (mkUnionType vs)) _ _ _ _ => fun u E =>
         match E in _ = y
               return match y with Some u' => Forall P (variants u') | None => True end with
         | eq_refl =>
             (fix all (l : list LiteralType) : Forall P l :=
                match l with
                | [] => List.Forall_nil P
                | v :: l' => @List.Forall_cons _ _ v _ (LiteralType_nested_ind v) (all l')
                end) vs
         end
     | mkLiteralType _ _ _ _ _ _ None _ _ _ _ => fun u E =>
         match E in _ = y
               return match y with Some _ => Forall P (variants u) | None => True end with
         | eq_refl => I
         end
     end)
    (match x as x0
           return forall sd, structured_dataset_type x0 = Some sd ->
                             Forall (fun c => P (literal_type c)) (columns sd) with
     | mkLiteralType _ _ _ _ _ _ _ (Some (mkStructuredDatasetType cs _ _ _)) _ _ _ =>
         fun sd E =>
         match E in _ = y
               return match y with
                      | Some sd' => Forall (fun c => P (literal_type c)) (columns sd')
                      | None => True
                      end with
         | eq_refl =>
             (fix all (l : list (DatasetColumnOf LiteralType))
                : Forall (fun c => P (literal_type c)) l :=
                match l with
                | [] => List.Forall_nil _
                | c :: l' =>
                    match c as c0 return P (literal_type c0) ->
                                         Forall (fun c => P (literal_type c)) (c0 :: l') with
                    | mkDatasetColumn n lt => fun H => @List.Forall_cons _ _ _ _ H (all l')
                    end
                      (match c as c0 return P (literal_type c0) with
                       | mkDatasetColumn n lt => LiteralType_nested_ind lt
                       end)
                end) cs
         end
     | mkLiteralType _ _ _ _ _ _ _ None _ _ _ => fun sd E =>
         match E in _ = y
               return match y with
                      | Some _ => Forall (fun c => P (literal_type c)) (columns sd)
                      | None => True
                      end with
         | eq_refl => I
         end
     end).

End LiteralType_induction.

(** ** The built-in scalars *)

(** [NoneType] and the six simple scalar types. *)
Definition all_scalar_types : list PyType := NoneType :: simple_scalar_types.

(** The transformer that [_register_default_type_transformers] registers
    for a scalar type. *)
Definition scalar_transformer (T : PyType) : option Transformer :=
  match T with
  | TBuiltin B_int => Some int_transformer
  | TBuiltin B_float => Some float_transformer
  | TBuiltin B_bool => Some bool_transformer
  | TBuiltin B_str => Some str_transformer
  | TBuiltin B_datetime => Some datetime_transformer
  | TBuiltin B_timedelta => Some timedelta_transformer
  | TBuiltin B_NoneType => Some none_transformer
  | _ => None
  end.

(** The literal that the lambda of its transformer builds for a scalar
    value. *)
Definition scalar_literal (v : PyVal) : option Literal :=
  match v with
  | VNone => Some (Literal_scalar (mkScalar None None None (Some tt) None))
  | VInt z => Some (Literal_primitive (mkPrimitive (Some z) None None None None None))
  | VFloat f => Some (Literal_primitive (mkPrimitive None (Some f) None None None None))
  | VBool b => Some (Literal_primitive (mkPrimitive None None None (Some b) None None))
  | VStr s => Some (Literal_primitive (mkPrimitive None None (Some s) None None None))
  | VDatetime d => Some (Literal_primitive (mkPrimitive None None None None (Some d) None))
  | VTimedelta d => Some (Literal_primitive (mkPrimitive None None None None None (Some d)))
  | _ => None
  end.

(** A registry as the engine leaves it: the built-in entries first, then
    whatever was registered on first encounter, and no parameterized generic
    as a key. *)
Definition builtin_registry (reg : list (PyType * Transformer)) : Prop :=
  (exists extra, reg = (_REGISTRY initial_world ++ extra)%list)
  /\ (forall origin args, dict_get (TGeneric origin args) reg = None).

(** The name and the literal type of the transformer of a scalar type. *)
Definition scalar_name (T : PyType) : string :=
  match scalar_transformer T with
  | Some tr => tr_name tr
  | None => EmptyString
  end.

Definition scalar_literal_type (T : PyType) : LiteralType :=
  match scalar_transformer T with
  | Some (SimpleTransformer _ _ lt _ _) => lt
  | _ => LiteralType_
  end.

(** The literal type of a union of scalar types: each variant's literal
    type, tagged with the name of its transformer. *)
Definition scalar_union_literal_type (ts : list PyType) : LiteralType :=
  lt_union (List.map (fun T => _add_tag_to_type (scalar_literal_type T) (scalar_name T)) ts).

(** ** Nested container types *)

(** The world after [k] more calls of [TypeEngine.to_python_value]. *)
Definition bump (k : nat) (w : World) : World :=
  mkWorld (_REGISTRY w) (_RESTRICTED_TYPES w) (file_store w) (paths_used w)
    (warnings w) (k + decode_calls w) (modules w).

(** The keys of a dictionary that are strings. *)
Definition str_keys (items : list (PyVal * PyVal)) : list string :=
  omap (fun kv => match fst kv with VStr k => Some k | _ => None end) items.

(** The types built from the simple scalars with [typing.List],
    [typing.Dict] with [str] keys, and, at the leaves, [typing.Union] of
    scalars ([typing.Optional] included), no variant twice. *)
Fixpoint nested_type (T : PyType) : bool :=
  match T with
  | TGeneric (TBuiltin B_list) [a] => nested_type a
  | TGeneric (TBuiltin B_dict) [k; a] => bool_decide (k = str) && nested_type a
  | TGeneric (TBuiltin B_typing_Union) ts =>
      forallb (fun t => bool_decide (t ∈ all_scalar_types)) ts && bool_decide (NoDup ts)
  | _ => bool_decide (T ∈ simple_scalar_types)
  end.

(** [v] is a value of such a type [T]; a dictionary has no key twice. *)
Fixpoint value_of_type (T : PyType) (v : PyVal) {struct T} : bool :=
  match T with
  | TGeneric (TBuiltin B_list) [a] =>
      match v with
      | VList items => forallb (value_of_type a) items
      | _ => false
      end
  | TGeneric (TBuiltin B_dict) [k; a] =>
      match v with
      | VDict items =>
          bool_decide (NoDup (str_keys items)) &&
          forallb (fun kv => match fst kv with
                             | VStr _ => value_of_type a (snd kv)
                             | _ => false
                             end) items
      | _ => false
      end
  | TGeneric (TBuiltin B_typing_Union) ts => bool_decide (type_of v ∈ ts)
  | _ => bool_decide (type_of v = T)
  end.

(** The calls through the engine's table that a conversion at [T] nests. *)
Fixpoint fuel_for (T : PyType) : nat :=
  match T with
  | TGeneric (TBuiltin B_list) [a] => 2 + fuel_for a
  | TGeneric (TBuiltin B_dict) [_; a] => 2 + fuel_for a
  | TGeneric (TBuiltin B_typing_Union) _ => 4
  | _ => 2
  end.

(** The literal type that [to_literal_type] computes for such a type. *)
Fixpoint nested_literal_type (T : PyType) : LiteralType :=
  match T with
  | TGeneric (TBuiltin B_list) [a] => lt_collection (nested_literal_type a)
  | TGeneric (TBuiltin B_dict) [_; a] => lt_map (nested_literal_type a)
  | TGeneric (TBuiltin B_typing_Union) ts => scalar_union_literal_type ts
  | _ => scalar_literal_type T
  end.

(** [lv] is what [v] encodes to at [T], and [lv] decodes to [v], in every
    process with the built-in registrations. *)
Definition codec (fuel : nat) (T : PyType) (lt : LiteralType) (v : PyVal) (lv : Literal)
  : Prop :=
  forall w, builtin_registry (_REGISTRY w) ->
    to_literal fuel v T (Some lt) w = (Ok lv, w)
    /\ exists k, to_python_value fuel lv T w = (Ok v, bump k w).

(** An item of a dictionary and the entry of the literal map for it. *)
Definition dict_entry (fuel : nat) (T : PyType) (lt : LiteralType)
    (kv : PyVal * PyVal) (klv : string * Literal) : Prop :=
  fst kv = VStr (fst klv) /\ codec fuel T lt (snd kv) (snd klv).

(** The literal type stored in the union literal of a scalar value: the
    literal type of its type, tagged with the name of the transformer. *)
Definition scalar_stored_type (v : PyVal) : LiteralType :=
  _add_tag_to_type (scalar_literal_type (type_of v)) (scalar_name (type_of v)).

(** What the conversions do at a nested type [T]: [to_literal_type]
    returns [nested_literal_type T], and every value of [T] has a literal
    that it encodes to and that decodes to it. *)
Definition nested_ok (T : PyType) : Prop :=
  forall n,
    (forall w, builtin_registry (_REGISTRY w) ->
       to_literal_type (fuel_for T + n) T w = (Ok (nested_literal_type T), w))
    /\ (forall v, value_of_type T v = true ->
          exists lv, codec (fuel_for T + n) T (nested_literal_type T) v lv).

(** Every union in [T] has two variants or more, as the unions that
    [typing.Union] builds have. *)
Fixpoint proper_unions (T : PyType) : bool :=
  match T with
  | TGeneric (TBuiltin B_list) [a] => proper_unions a
  | TGeneric (TBuiltin B_dict) [_; a] => proper_unions a
  | TGeneric (TBuiltin B_typing_Union) ts => Nat.leb 2 (List.length ts)
  | _ => true
  end.

(** ** Maps of named values *)

(** [d[k]] *)
Definition getitem {A} (d : list (string * A)) (k : string) : Result A :=
  match dict_get k d with
  | Some a => Ok a
  | None => Raise (KeyError k)
  end.

(** [TypeEngine.literal_map_to_kwargs]: the comprehension over
    [lm.literals.items()]. *)
Fixpoint literal_map_to_kwargs_loop (fuel : nat) (literals items : list (string * Literal))
    (python_types : list (string * PyType)) (kwargs : list (string * PyVal))
  : M (list (string * PyVal)) :=
  match items with
  | [] => ret kwargs
  | (k, _) :: rest =>
      lv <- lift (getitem literals k) ;;
      t <- lift (getitem python_types k) ;;
      v <- to_python_value fuel lv t ;;
      literal_map_to_kwargs_loop fuel literals rest python_types (dict_set k v kwargs)
  end.

Definition literal_map_to_kwargs (fuel : nat) (lm : list (string * Literal))
    (python_types : list (string * PyType)) : M (list (string * PyVal)) :=
  if Nat.ltb (List.length python_types) (List.length lm) then
    raise (ValueError "Received more input values than allowed by the input spec")
  else literal_map_to_kwargs_loop fuel lm lm python_types [].

(** [TypeEngine.dict_to_literal_map]; the text of the
    [FlyteTypeException] is not modelled. *)
Fixpoint dict_to_literal_map_loop (fuel : nat) (items : list (string * PyVal))
    (type_hints : list (string * PyType)) (literal_map : list (string * Literal))
  : M (list (string * Literal)) :=
  match items with
  | [] => ret literal_map
  | (k, v) :: rest =>
      let python_type :=
        match dict_get k type_hints with
        | Some t => t
        | None => type_of v
        end in
      lv <- try_except
              (expected <- to_literal_type fuel python_type ;;
               to_literal fuel v python_type (Some expected))
              [E_TypeError]
              (fun e => raise (FlyteTypeException "Type error!")) ;;
      dict_to_literal_map_loop fuel rest type_hints (dict_set k lv literal_map)
  end.

Definition dict_to_literal_map (fuel : nat) (d : list (string * PyVal))
    (type_hints : option (list (string * PyType))) : M (list (string * Literal)) :=
  let type_hints := match type_hints with Some h => h | None => [] end in
  dict_to_literal_map_loop fuel d type_hints [].

(** [TypeEngine.guess_python_types] *)
Fixpoint guess_python_types_loop (fuel : nat) (items : list (string * Variable_))
    (python_types : list (string * PyType)) : M (list (string * PyType)) :=
  match items with
  | [] => ret python_types
  | (k, v) :: rest =>
      t <- guess_python_type fuel (var_type v) ;;
      guess_python_types_loop fuel rest (dict_set k t python_types)
  end.

Definition guess_python_types (fuel : nat) (flyte_variable_dict : list (string * Variable_))
  : M (list (string * PyType)) :=
  guess_python_types_loop fuel flyte_variable_dict [].

(** [TypeEngine.named_tuple_to_variable_map], on [t.__annotations__]. *)
Fixpoint named_tuple_to_variable_map_loop (fuel : nat) (idx : nat)
    (annotations : list (string * PyType)) (variables : list (string * Variable_))
  : M (list (string * Variable_)) :=
  match annotations with
  | [] => ret variables
  | (var_name, var_type) :: rest =>
      literal_type <- to_literal_type fuel var_type ;;
      named_tuple_to_variable_map_loop fuel (S idx) rest
        (dict_set var_name
           (mkVariable literal_type (NilEmpty.string_of_uint (Nat.to_uint idx)))
           variables)
  end.

Definition named_tuple_to_variable_map (fuel : nat) (annotations : list (string * PyType))
  : M (list (string * Variable_)) :=
  named_tuple_to_variable_map_loop fuel 0 annotations [].

(** An entry of a map of values has a hint that its value is a value of,
    and [fuel] covers the nesting of the hint. *)
Definition hinted (fuel : nat) (type_hints : list (string * PyType))
    (kv : string * PyVal) : Prop :=
  exists T, dict_get (fst kv) type_hints = Some T
            /\ nested_type T = true /\ value_of_type T (snd kv) = true
            /\ fuel_for T <= fuel.

(** An entry of a map of values and the entry of the literal map for it. *)
Definition entry_codec (fuel : nat) (type_hints : list (string * PyType))
    (kv : string * PyVal) (klv : string * Literal) : Prop :=
  fst klv = fst kv
  /\ exists T, dict_get (fst kv) type_hints = Some T
               /\ (forall w, builtin_registry (_REGISTRY w) ->
                     to_literal_type fuel T w = (Ok (nested_literal_type T), w))
               /\ codec fuel T (nested_literal_type T) (snd kv) (snd klv).

(** The registry of [w'] is the registry of [w] followed by entries for
    classes and built-in types: no entry has changed or gone, and no
    parameterized generic has become a key. *)
Definition registry_extended (w w' : World) : Prop :=
  exists extra, _REGISTRY w' = (_REGISTRY w ++ extra)%list
                /\ Forall (fun kv => has_origin (fst kv) = false) extra.

(** A computation only appends to the registry. *)
Definition keeps {A} (m : M A) : Prop :=
  forall w, registry_extended w (snd (m w)).

(** All the calls of a table only append to the registry. *)
Definition engine_keeps (self : Engine) : Prop :=
  (forall t, keeps (to_literal_type_ self t))
  /\ (forall v t e, keeps (to_literal_ self v t e))
  /\ (forall lv t, keeps (to_python_value_ self lv t))
  /\ (forall lt, keeps (guess_python_type_ self lt))
  /\ (forall tr t, keeps (get_literal_type_ self tr t))
  /\ (forall tr v t e, keeps (transformer_to_literal_ self tr v t e))
  /\ (forall tr lv t, keeps (transformer_to_python_value_ self tr lv t))
  /\ (forall tr lt, keeps (transformer_guess_python_type_ self tr lt)).

(** ** Enumerations *)

(** A plain enumeration: a class whose only base is [enum.Enum]. *)
Definition enum_class (m q : string) (ms : list (string * Const)) : ClassOf PyType :=
  mkClass m q [TBuiltin B_enum_Enum] None ms.

(** Every member's value is a string. *)
Definition string_valued (ms : list (string * Const)) : bool :=
  forallb (fun m => match snd m with CStr _ => true | _ => false end) ms.

(** The values of string-valued members. *)
Definition member_strings (ms : list (string * Const)) : list string :=
  omap (fun m => match snd m with CStr s => Some s | _ => None end) ms.

(** The variables of annotations of nested types, numbered from [idx]. *)
Fixpoint variables_from (idx : nat) (annotations : list (string * PyType))
  : list (string * Variable_) :=
  match annotations with
  | [] => []
  | (var_name, var_type) :: rest =>
      (var_name, mkVariable (nested_literal_type var_type)
                   (NilEmpty.string_of_uint (Nat.to_uint idx)))
      :: variables_from (S idx) rest
  end.

(** A field of a named tuple is annotated with a nested type that [fuel]
    covers. *)
Definition annotated_nested (fuel : nat) (kt : string * PyType) : Prop :=
  nested_type (snd kt) = true /\ proper_unions (snd kt) = true
  /\ fuel_for (snd kt) <= fuel.

(** The payloads of the [FlyteAnnotation]s among the extra arguments of an
    [Annotated] type. *)
Definition flyte_annotations (extras : list Annotation) : list (list (string * string)) :=
  omap (fun a => match a with FlyteAnnotation d => Some d | _ => None end) extras.

(** ** Dataclasses of scalar fields *)






(** * Theorems *)

(** ** Castability *)

Section Castability.

Implicit Types upstream downstream u d v : LiteralType.

Lemma castable_union_upstream u d uu :
  reaches_union_rules u -> union_type u = Some uu ->
  _are_types_castable u d = forallb (fun v => _are_types_castable v d) (variants uu).
Proof.
  intros (Hc & Hm & Hs) Hu. destruct u; simpl in *; subst.
  destruct d; simpl. destruct uu as [vs]; simpl.
  induction vs as [|v vs IH]; simpl; [reflexivity|].
  rewrite <- IH. destruct (_are_types_castable v _); reflexivity.
Qed.

Lemma essence_union_type u : union_type (_type_essence u) = union_type u.
Proof. unfold _type_essence. destruct (metadata u), (structure u), (annotation u); reflexivity. Qed.

Lemma essence_simple u : simple (_type_essence u) = simple u.
Proof. unfold _type_essence. destruct (metadata u), (structure u), (annotation u); reflexivity. Qed.

(** What is left of [_are_types_castable] once the collection, map,
    structured-dataset and upstream-union rules are passed. *)
Lemma castable_tail u d :
  reaches_union_rules u -> union_type u = None ->
  _are_types_castable u d =
    existsb (_are_types_castable u)
            (match union_type d with Some du => variants du | None => [] end)
    || match enum_type u with
       | Some _ => bool_decide (simple d = Some STRING)
       | None => false
       end
    || bool_decide (_type_essence u = _type_essence d).
Proof.
  intros (Hc & Hm & Hs) Hu.
  destruct u as [us usch uc um ub ue uun usd umd ust uan]; simpl in *; subst.
  destruct d as [ds dsch dc dm db de [[dvs]|] dsd dmd dst dan]; simpl.
  - match goal with |- (if ?a then _ else _) = ?b || _ || _ =>
      assert (Hab : a = b); [|rewrite Hab; destruct b; simpl] end.
    + induction dvs as [|v vs IH]; simpl; [reflexivity|].
      rewrite <- IH.
      match goal with |- (if ?c then _ else _) = ?c' || _ =>
        change c' with c; destruct c; reflexivity end.
    + reflexivity.
    + destruct ue; simpl.
      * destruct (bool_decide (ds = Some STRING)); simpl; [reflexivity|].
        destruct (bool_decide _); reflexivity.
      * destruct (bool_decide _); reflexivity.
  - destruct ue; simpl.
    + destruct (bool_decide (ds = Some STRING)); simpl; [reflexivity|].
      destruct (bool_decide _); reflexivity.
    + destruct (bool_decide _); reflexivity.
Qed.

Lemma is_union_reaches u vs : is_union_of u vs -> reaches_union_rules u.
Proof. unfold is_union_of, reaches_union_rules. tauto. Qed.

Lemma essence_of_union_differs u d vs :
  union_type u = None -> is_union_of d vs ->
  bool_decide (_type_essence u = _type_essence d) = false.
Proof.
  intros Hu Hd. apply bool_decide_eq_false. intros E.
  apply (f_equal union_type) in E. rewrite !essence_union_type in E.
  destruct Hd as (Hd & _). congruence.
Qed.

End Castability.

(** C5 (amended).  An upstream union is castable exactly when every one of
    its variants is castable to the downstream type.  A downstream union
    accepts an upstream type exactly when one of its variants does, provided
    the upstream type is none of collection, map, structured dataset or
    union: for those the earlier rules decide (and reject a downstream
    union).  The two examples of the specification evaluate as stated. *)
Theorem castable_unions_directional :
  (forall u d vs, is_union_of u vs ->
     (_are_types_castable u d = true <->
      forall v, In v vs -> _are_types_castable v d = true))
  /\ (forall u d vs,
        reaches_union_rules u -> union_type u = None -> is_union_of d vs ->
        (_are_types_castable u d = true <->
         exists v, In v vs /\ _are_types_castable u v = true))
  /\ _are_types_castable (lt_union [lt_simple INTEGER; lt_simple STRING])
       (lt_simple INTEGER) = false
  /\ _are_types_castable (lt_simple INTEGER)
       (lt_union [lt_simple INTEGER; lt_simple STRING]) = true.
Proof.
  split; [|split; [|split; reflexivity]].
  - intros u d vs Hu.
    rewrite (castable_union_upstream u d (mkUnionType vs)
               (is_union_reaches _ _ Hu) (proj1 Hu)).
    simpl. rewrite forallb_forall. reflexivity.
  - intros u d vs Hr Hu Hd.
    rewrite (castable_tail u d Hr Hu), (essence_of_union_differs u d vs Hu Hd).
    destruct Hd as (Hd & Hs & _). rewrite Hd, Hs. cbn [variants].
    destruct (enum_type u); [rewrite bool_decide_eq_false_2 by discriminate|];
      rewrite !orb_false_r, existsb_exists; reflexivity.
Qed.

Lemma castable_unions_directional_witness :
  _are_types_castable (lt_simple INTEGER) (lt_union [lt_simple STRING; lt_simple INTEGER])
    = true.
Proof.
  apply (proj1 (proj2 castable_unions_directional)
           (lt_simple INTEGER) (lt_union [lt_simple STRING; lt_simple INTEGER])
           [lt_simple STRING; lt_simple INTEGER]).
  - repeat split.
  - reflexivity.
  - repeat split.
  - exists (lt_simple INTEGER). split; [right; left; reflexivity | reflexivity].
Defined.

(** C5 as stated fails: a collection upstream is rejected by a downstream
    union although a variant of the union accepts it. *)
Lemma castable_downstream_union_counterexample :
  let u := lt_collection (lt_simple INTEGER) in
  let d := lt_union [lt_collection (lt_simple INTEGER)] in
  union_type u = None /\ is_union_of d [lt_collection (lt_simple INTEGER)] /\
  ~ (_are_types_castable u d = true <->
     exists v, In v [lt_collection (lt_simple INTEGER)] /\ _are_types_castable u v = true).
Proof.
  simpl. split; [reflexivity|]. split; [repeat split|].
  intros [_ H].
  assert (F : _are_types_castable (lt_collection (lt_simple INTEGER))
                (lt_union [lt_collection (lt_simple INTEGER)]) = true).
  { apply H. exists (lt_collection (lt_simple INTEGER)). split; [left|]; reflexivity. }
  vm_compute in F. discriminate F.
Qed.

(** C6.  Past the collection, map, structured-dataset and union rules, an
    enum upstream is castable to a downstream whose simple kind is STRING,
    and any other pair is castable exactly when the essences are equal,
    where the essence keeps every field but metadata, structure (tag) and
    annotation, which it clears. *)
Theorem castable_enum_and_essence :
  (forall u d vs,
     reaches_union_rules u -> union_type u = None ->
     enum_type u = Some vs -> simple d = Some STRING ->
     _are_types_castable u d = true)
  /\ (forall u d,
        reaches_union_rules u -> union_type u = None -> union_type d = None ->
        ~ (enum_type u <> None /\ simple d = Some STRING) ->
        (_are_types_castable u d = true <-> _type_essence u = _type_essence d))
  /\ (forall x,
        _type_essence x =
        mkLiteralType (simple x) (schema x) (collection_type x) (map_value_type x)
          (blob x) (enum_type x) (union_type x) (structured_dataset_type x)
          None None None).
Proof.
  split; [|split].
  - intros u d vs Hr Hu He Hs.
    rewrite (castable_tail u d Hr Hu), He, Hs.
    rewrite bool_decide_eq_true_2 by reflexivity.
    rewrite orb_true_r. reflexivity.
  - intros u d Hr Hu Hd Hne.
    rewrite (castable_tail u d Hr Hu), Hd. simpl.
    assert (E : match enum_type u with
                | Some _ => bool_decide (simple d = Some STRING)
                | None => false end = false).
    { destruct (enum_type u) eqn:He; [|reflexivity].
      apply bool_decide_eq_false. intros Hs. apply Hne. split; congruence. }
    rewrite E. simpl. apply bool_decide_eq_true.
  - intros [s sc c m b e u sd [md|] [st|] [an|]]; reflexivity.
Qed.

Lemma castable_enum_and_essence_witness :
  _are_types_castable (lt_enum ["A"; "B"]) (lt_simple STRING) = true
  /\ (_are_types_castable (_add_tag_to_type (lt_simple INTEGER) "int") (lt_simple INTEGER)
       = true).
Proof.
  split.
  - apply (proj1 castable_enum_and_essence (lt_enum ["A"; "B"]) (lt_simple STRING)
             ["A"; "B"]); [repeat split | reflexivity | reflexivity | reflexivity].
  - apply (proj1 (proj2 castable_enum_and_essence)
             (_add_tag_to_type (lt_simple INTEGER) "int") (lt_simple INTEGER)).
    + repeat split.
    + reflexivity.
    + reflexivity.
    + intros [H _]. apply H. reflexivity.
    + reflexivity.
Defined.

(** ** Evaluating the engine *)

Lemma get_transformer_registered t w tr :
  dict_get t (_REGISTRY w) = Some tr -> is_Annotated t = false ->
  get_transformer t w = (Ok tr, w).
Proof.
  intros Hr Ha. destruct t; try discriminate Ha.
  all: cbn [get_transformer]; unfold bind, get_registry; rewrite Hr; reflexivity.
Qed.

Lemma builtin_entries :
  dict_get int (_REGISTRY initial_world) = Some int_transformer /\
  dict_get float (_REGISTRY initial_world) = Some float_transformer /\
  dict_get bool_ (_REGISTRY initial_world) = Some bool_transformer /\
  dict_get str (_REGISTRY initial_world) = Some str_transformer /\
  dict_get datetime_ (_REGISTRY initial_world) = Some datetime_transformer /\
  dict_get timedelta_ (_REGISTRY initial_world) = Some timedelta_transformer.
Proof. repeat split; vm_compute; reflexivity. Qed.

Create HintDb engine.
#[local] Hint Unfold bind ret lift raise try_except count_decode
  TypeEngine_to_literal_type TypeEngine_to_literal TypeEngine_to_python_value
  Transformer_get_literal_type Transformer_to_literal Transformer_to_python_value
  Simple_to_literal Simple_to_python_value : engine.

Ltac decide_bools :=
  repeat match goal with
    | |- context [bool_decide ?P] =>
        first [ rewrite (bool_decide_eq_true_2 P) by reflexivity
              | rewrite (bool_decide_eq_false_2 P) by (discriminate || congruence) ]
    end.

Ltac lookup_registered H :=
  repeat match goal with
    | |- context [get_transformer ?t ?w'] =>
        rewrite (get_transformer_registered t w' _ H eq_refl)
    end.

Ltac run_engine H :=
  repeat (progress (autounfold with engine;
            cbn [engine to_literal_type_ to_literal_ to_python_value_ get_literal_type_
                 transformer_to_literal_ transformer_to_python_value_];
            cbn -[get_transformer engine];
            decide_bools; lookup_registered H)).

(** ** Simple transformers *)



(** C10.  A simple transformer refuses to encode any value whose type is
    not exactly its own type, whatever lambdas it holds; so encoding [True]
    as an [int] fails, although [bool] is a subclass of [int] and the
    instance check of [assert_type] lets it through. *)
Theorem simple_to_literal_exact_type :
  (forall self name t lt to_lit from_lit v python_type expected w,
     type_of v <> t ->
     Transformer_to_literal self (SimpleTransformer name t lt to_lit from_lit)
       v python_type expected w
     = (Raise (TypeTransformerFailedError "Expected value of the transformer's type"), w))
  /\ (forall fuel w expected,
        registered_as_builtin w int ->
        to_literal (S (S fuel)) (VBool true) int expected w
        = (Raise (TypeTransformerFailedError "Expected value of the transformer's type"), w))
  /\ issubclass bool_ int = true
  /\ assert_type int_transformer int (VBool true) = Ok tt.
Proof.
  split; [|split; [|split; reflexivity]].
  - intros self name t lt to_lit from_lit v python_type expected w Hne.
    unfold Transformer_to_literal, Simple_to_literal.
    rewrite bool_decide_eq_false_2 by exact Hne. reflexivity.
  - intros fuel w expected Hreg. unfold registered_as_builtin in Hreg.
    rewrite (proj1 builtin_entries) in Hreg.
    unfold int in *. unfold to_literal.
    run_engine Hreg. reflexivity.
Qed.

Lemma simple_to_literal_exact_type_witness :
  to_literal 2 (VBool true) int (Some (lt_simple INTEGER)) initial_world
  = (Raise (TypeTransformerFailedError "Expected value of the transformer's type"),
     initial_world).
Proof.
  apply (proj1 (proj2 simple_to_literal_exact_type) 0 initial_world
           (Some (lt_simple INTEGER))).
  reflexivity.
Defined.

(** ** The registry lookup *)

Lemma dict_get_set_same {K A} `{EqDecision K} (k : K) (a : A) l :
  dict_get k (dict_set k a l) = Some a.
Proof.
  induction l as [|[k' a'] l IH]; simpl.
  - rewrite bool_decide_eq_true_2 by reflexivity. reflexivity.
  - destruct (bool_decide (k' = k)) eqn:E; simpl.
    + rewrite bool_decide_eq_true_2 by reflexivity. reflexivity.
    + rewrite E. exact IH.
Qed.

Lemma dict_get_set_other {K A} `{EqDecision K} (k k0 : K) (a : A) l :
  k <> k0 -> dict_get k0 (dict_set k a l) = dict_get k0 l.
Proof.
  intros Hne. induction l as [|[k' a'] l IH]; simpl.
  - rewrite bool_decide_eq_false_2 by exact Hne. reflexivity.
  - destruct (bool_decide (k' = k)) eqn:E; simpl.
    + apply bool_decide_eq_true_1 in E. subst k'.
      rewrite !bool_decide_eq_false_2 by exact Hne. reflexivity.
    + destruct (bool_decide (k' = k0)); [reflexivity | exact IH].
Qed.

Lemma dict_set_keeps_keys {K A} `{EqDecision K} (k k0 : K) (a : A) l :
  is_Some (dict_get k0 l) -> is_Some (dict_get k0 (dict_set k a l)).
Proof.
  intros Hs. destruct (decide (k = k0)) as [->|Hne].
  - rewrite dict_get_set_same. eexists; reflexivity.
  - rewrite dict_get_set_other by exact Hne. exact Hs.
Qed.





Lemma get_transformer_Annotated base extras w :
  is_Annotated base = false ->
  get_transformer (TAnnotated base extras) w = get_transformer base w.
Proof. intros H. destruct base; try discriminate H; reflexivity. Qed.

Lemma set_entry_keys_preserved t tr w :
  keys_preserved w (snd (set_registry_entry t tr w)).
Proof. intros k H. simpl. apply dict_set_keeps_keys, H. Qed.



Lemma get_transformer_dataclass m q bs fs ms w :
  let t := TClassOf m q bs (Some fs) ms in
  get_transformer t w =
  match dict_get t (_REGISTRY w) with
  | Some tr => (Ok tr, w)
  | None =>
      (transformers <- DataclassTransformer_init get_transformer fs [] ;;
       set_registry_entry t (DataclassTransformer t transformers) ;;;
       ret (DataclassTransformer t transformers)) w
  end.
Proof.
  cbv zeta. cbn [get_transformer]. unfold bind at 1, get_registry.
  destruct (dict_get _ _); reflexivity.
Qed.





(** ** Unions: encoding *)

Section UnionEncoding.

Variable self : Engine.
Variable python_val : PyVal.
Variable expected : option LiteralType.

Lemma union_loop_skips t rest found w w' :
variant_fails self python_val expected t w w' ->
Union_to_literal_loop self (t :: rest) python_val expected found w
= Union_to_literal_loop self rest python_val expected found w'.
Proof.
intros (e & He & [Hg | (trans & w1 & Hg & Ht)]).
- cbn [Union_to_literal_loop]. unfold bind, try_except, ret.
  rewrite Hg, He. reflexivity.
- cbn [Union_to_literal_loop]. unfold bind, try_except, ret.
  rewrite Hg, Ht, He. reflexivity.
Qed.


Lemma union_loop_encodes t rest found w trans res res_type w' :
variant_encodes self python_val expected t w trans res res_type w' ->
Union_to_literal_loop self (t :: rest) python_val expected found w
= match found with
  | Some _ => (Raise ambiguous_union, w')
  | None => Union_to_literal_loop self rest python_val expected (Some (res, res_type)) w'
  end.
Proof.
intros (w1 & w2 & lt & Hg & Ht & Hl & ->).
cbn [Union_to_literal_loop]. unfold bind, try_except, ret.
rewrite Hg, Ht, Hl.
destruct found as [[? ?]|]; reflexivity.
Qed.


Lemma union_to_literal_unfold python_type w :
Union_to_literal self python_val python_type expected w
= match Union_to_literal_loop self (get_args (strip_Annotated python_type))
          python_val expected None w with
  | (Ok (Some (res, res_type)), w') => (Ok (Literal_union res res_type), w')
  | (Ok None, w') =>
      (Raise (TypeTransformerFailedError "Cannot convert from value to union type"), w')
  | (Raise e, w') => (Raise e, w')
  | (OutOfFuel, w') => (OutOfFuel, w')
  end.
Proof.
unfold Union_to_literal, bind.
destruct (Union_to_literal_loop _ _ _ _ _ _) as [[[[res ty]|]|e|] w']; reflexivity.
Qed.

End UnionEncoding.



(** ** Unions: decoding *)

Section UnionDecoding.

Variable self : Engine.
Variable lv : Literal.
Variable union_type : LiteralType.
Variable union_tag : string.

Lemma union_decode_skips v rest found w w' :
variant_skipped_by_tag union_tag v w w' ->
Union_to_python_value_loop self (v :: rest) lv (Some union_type) (Some union_tag) found w
= Union_to_python_value_loop self rest lv (Some union_type) (Some union_tag) found w'.
Proof.
intros (trans & Hg & Hn & Hd).
cbn [Union_to_python_value_loop]. unfold bind, try_except, ret.
rewrite Hg, Hd. rewrite bool_decide_eq_false_2 by exact Hn. reflexivity.
Qed.


Lemma union_decode_tagged v rest found w res w' :
variant_decodes_tagged self lv union_type union_tag v w res w' ->
Union_to_python_value_loop self (v :: rest) lv (Some union_type) (Some union_tag) found w
= match found with
  | Some _ => (Raise ambiguous_union, w')
  | None =>
      Union_to_python_value_loop self rest lv (Some union_type) (Some union_tag)
        (Some res) w'
  end.
Proof.
intros (trans & w1 & w2 & elt & s & u & Hg & Hn & Hl & Hc & Hs & Hu & Hv).
cbn [Union_to_python_value_loop]. unfold bind, try_except, ret, lift, attr, rbind.
rewrite Hg.
assert (Hskip : negb (bool_decide (tr_name trans = union_tag)) && negb (is_dataclass v)
                = false).
{ destruct Hn as [Hn|Hn].
  - rewrite bool_decide_eq_true_2 by exact Hn. reflexivity.
  - rewrite Hn. apply andb_false_r. }
rewrite Hskip, Hl, Hc, Hs, Hu. cbn [negb]. rewrite Hv.
destruct found; reflexivity.
Qed.

Lemma union_to_python_value_unfold expected_python_type w :
Union_to_python_value self lv expected_python_type w
= match Union_to_python_value_loop self (get_args (strip_Annotated expected_python_type))
          lv (stored_union_type lv) (stored_union_tag lv) None w with
  | (Ok (Some res), w') => (Ok res, w')
  | (Ok None, w') =>
      (Raise (TypeError "Cannot convert from literal to union type (using tag)"), w')
  | (Raise e, w') => (Raise e, w')
  | (OutOfFuel, w') => (OutOfFuel, w')
  end.
Proof.
unfold Union_to_python_value, bind.
destruct (Union_to_python_value_loop _ _ _ _ _ _ _) as [[[res|]|e|] w']; reflexivity.
Qed.


End UnionDecoding.




(** ** Dataclasses *)







(** ** The literals resolver *)

Lemma resolver_get_miss fuel self attr as_type lv w :
  _literals self !! attr = Some lv -> _native_values self !! attr = None ->
  LiteralsResolver_get fuel self attr as_type w
  = (as_type <- resolve_as_type fuel self attr as_type ;;
     val <- to_python_value fuel lv
              (match as_type with Some t => t | None => TBuiltin B_None end) ;;
     ret (val, mkLiteralsResolver (_literals self) (_variable_map self)
                 (<[attr := val]> (_native_values self)) (_type_hints self))) w.
Proof. intros Hl Hn. unfold LiteralsResolver_get. rewrite Hl, Hn. reflexivity. Qed.

Lemma resolver_get_hit fuel self attr as_type lv cached w :
  _literals self !! attr = Some lv -> _native_values self !! attr = Some cached ->
  LiteralsResolver_get fuel self attr as_type w = (Ok (cached, self), w)
  /\ LiteralsResolver_getitem fuel self attr w = (Ok (cached, self), w).
Proof.
  intros Hl Hn. unfold LiteralsResolver_getitem, LiteralsResolver_get.
  rewrite Hl, Hn. split; reflexivity.
Qed.

(** A successful [get] leaves the value in the cache. *)
Lemma resolver_get_caches fuel self attr as_type w v self' w' :
  LiteralsResolver_get fuel self attr as_type w = (Ok (v, self'), w') ->
  is_Some (_literals self' !! attr) /\ _native_values self' !! attr = Some v.
Proof.
  unfold LiteralsResolver_get.
  destruct (_literals self !! attr) as [lv|] eqn:Hl; [|discriminate].
  destruct (_native_values self !! attr) as [cached|] eqn:Hn.
  - intros H. injection H as <- <- _. split; [eexists; exact Hl | exact Hn].
  - unfold bind, ret.
    destruct (resolve_as_type fuel self attr as_type w) as [[t| |] w1]; try discriminate.
    destruct (to_python_value fuel lv _ w1) as [[val| |] w2]; try discriminate.
    intros H. injection H as <- <- _. cbn.
    split; [eexists; exact Hl | apply lookup_insert_eq].
Qed.

(** C9.  After a successful [get] for a key, every later [get], with
    whatever [as_type], and every index access for that key returns the
    cached value and leaves the resolver and the process as they are: the
    engine is not called, so the count of decodes does not move. *)
Theorem resolver_get_is_cached fuel self attr as_type w v self' w' :
  LiteralsResolver_get fuel self attr as_type w = (Ok (v, self'), w') ->
  forall fuel' as_type' w'',
    LiteralsResolver_get fuel' self' attr as_type' w'' = (Ok (v, self'), w'')
    /\ LiteralsResolver_getitem fuel' self' attr w'' = (Ok (v, self'), w'')
    /\ decode_calls (snd (LiteralsResolver_get fuel' self' attr as_type' w''))
       = decode_calls w''.
Proof.
  intros Hget fuel' as_type' w''.
  destruct (resolver_get_caches _ _ _ _ _ _ _ _ Hget) as [[lv Hl] Hn].
  destruct (resolver_get_hit fuel' self' attr as_type' lv v w'' Hl Hn) as [H1 H2].
  rewrite H1. repeat split; assumption.
Qed.

Lemma resolver_get_is_cached_witness :
  let self' := mkLiteralsResolver (_literals resolver_x) None (<["x" := VInt 1]> ∅) ∅ in
  let w' := snd (count_decode initial_world) in
  LiteralsResolver_get 2 resolver_x "x" (Some int) initial_world = (Ok (VInt 1, self'), w')
  /\ LiteralsResolver_get 0 self' "x" (Some str) w' = (Ok (VInt 1, self'), w').
Proof.
  cbv zeta. split; [reflexivity|].
  refine (proj1 (resolver_get_is_cached 2 resolver_x "x" (Some int) initial_world
                   _ _ _ _ 0 (Some str) _)).
  reflexivity.
Defined.

(** The type [get] decodes into: the argument, else the hint, else the
    guess from the variable map. *)
Lemma resolver_type_priority fuel self attr w :
  (forall t, resolve_as_type fuel self attr (Some t) w = (Ok (Some t), w))
  /\ (forall hint,
        _type_hints self !! attr = Some hint ->
        resolve_as_type fuel self attr None w = (Ok (Some hint), w))
  /\ (forall vm var,
        _type_hints self !! attr = None ->
        _variable_map self = Some vm -> vm !! attr = Some var ->
        resolve_as_type fuel self attr None w
        = match guess_python_type fuel (var_type var) w with
          | (Ok t, w') => (Ok (Some t), w')
          | (Raise e, w') => (Raise e, w')
          | (OutOfFuel, w') => (OutOfFuel, w')
          end).
Proof.
  split; [|split].
  - reflexivity.
  - intros hint Hh. unfold resolve_as_type. rewrite Hh. reflexivity.
  - intros vm var Hh Hvm Hv. unfold resolve_as_type, try_except, bind, ret, raise.
    rewrite Hh, Hvm, Hv.
    destruct (guess_python_type fuel (var_type var) w) as [[t|e|] w']; try reflexivity.
    destruct (existsb (err_isinstance e) [E_ValueError]); reflexivity.
Qed.

(** C8, evaluated where it fails.  With no [as_type], no hint and no
    variable map, [get] settles on no type, raises nothing, and calls the
    engine with [None] as the type; the call counts as a decode and fails
    in the transformer registered for [None], with a
    [TypeTransformerFailedError] and not with the [ValueError] that the
    source builds. *)
Theorem resolver_get_without_type_proceeds :
  forall fuel,
    resolve_as_type fuel resolver_x "x" None initial_world = (Ok None, initial_world)
    /\ LiteralsResolver_get (2 + fuel) resolver_x "x" None initial_world
       = (Raise (TypeTransformerFailedError
                   "Cannot convert to type, only the transformer's type is supported"),
          snd (count_decode initial_world))
    /\ decode_calls (snd (LiteralsResolver_get (2 + fuel) resolver_x "x" None initial_world))
       = S (decode_calls initial_world).
Proof.
  intros fuel. split; [reflexivity|]. split; reflexivity.
Qed.

(** ** Registration *)

Lemma register_types_keeps tr types : forall w k tr0,
  dict_get k (_REGISTRY w) = Some tr0 ->
  dict_get k (_REGISTRY (snd (register_types tr types w))) = Some tr0.
Proof.
  induction types as [|t types IH]; intros w k tr0 Hk; [exact Hk|].
  cbn [register_types]. unfold bind, get_registry.
  destruct (dict_get t (_REGISTRY w)) as [existing|] eqn:Ht; [exact Hk|].
  cbn. apply IH. cbn. rewrite dict_get_set_other; [exact Hk|].
  intros ->. congruence.
Qed.

Lemma register_types_duplicate tr types : forall w,
  Exists (fun t => registered (_REGISTRY w) t = true) types \/ ~ NoDup types ->
  exists msg, fst (register_types tr types w) = Raise (ValueError msg).
Proof.
  induction types as [|t types IH]; intros w H.
  - destruct H as [H|H]; [inversion H | exfalso; apply H; constructor].
  - cbn [register_types]. unfold bind, get_registry.
    destruct (dict_get t (_REGISTRY w)) as [existing|] eqn:Ht; [eexists; reflexivity|].
    cbn. apply IH. cbn.
    destruct H as [H|H].
    + left. inversion H as [? ? Hr|? ? Hr]; subst.
      * unfold registered in Hr. rewrite Ht in Hr. discriminate.
      * eapply Exists_impl; [exact Hr|]. intros x Hx. cbn in Hx. unfold registered in *.
        destruct (dict_get x (_REGISTRY w)) eqn:E; [|discriminate].
        destruct (dict_set_keeps_keys t x tr (_REGISTRY w)) as [y Hy]; [eexists; exact E|].
        rewrite Hy. reflexivity.
    + destruct (decide (t ∈ types)) as [Hin|Hnin].
      * left. apply Exists_exists. exists t. split; [exact Hin|].
        unfold registered. rewrite dict_get_set_same. reflexivity.
      * right. intros Hnd. apply H. apply NoDup_cons. split; assumption.
Qed.

Lemma register_types_fresh tr types : forall w,
  NoDup types -> Forall (fun t => registered (_REGISTRY w) t = false) types ->
  fst (register_types tr types w) = Ok tt
  /\ (forall t, t ∈ types ->
        dict_get t (_REGISTRY (snd (register_types tr types w))) = Some tr)
  /\ (forall k, k ∉ types ->
        dict_get k (_REGISTRY (snd (register_types tr types w))) = dict_get k (_REGISTRY w)).
Proof.
  induction types as [|t types IH]; intros w Hnd Hfresh.
  - cbn. split; [reflexivity|]. split; [intros t Ht; inversion Ht | reflexivity].
  - apply NoDup_cons in Hnd as [Hnin Hnd].
    apply Forall_cons in Hfresh as [Ht Hfresh].
    unfold registered in Ht.
    cbn [register_types]. unfold bind, get_registry.
    destruct (dict_get t (_REGISTRY w)) as [existing|] eqn:E; [discriminate|].
    cbn -[register_types].
    set (w1 := mkWorld (dict_set t tr (_REGISTRY w)) _ _ _ _ _ _).
    assert (Hfresh1 : Forall (fun t0 => registered (_REGISTRY w1) t0 = false) types).
    { rewrite Forall_forall in *. intros x Hx. unfold registered. cbn.
      rewrite dict_get_set_other; [apply Hfresh, Hx|]. intros ->. contradiction. }
    destruct (IH w1 Hnd Hfresh1) as (Hok & Hin & Hout).
    split; [exact Hok|]. split.
    + intros x Hx. apply elem_of_cons in Hx as [->|Hx]; [|apply Hin, Hx].
      rewrite (Hout t Hnin). cbn. apply dict_get_set_same.
    + intros k Hk. apply not_elem_of_cons in Hk as [Hne Hk].
      rewrite (Hout k Hk). cbn. apply dict_get_set_other. congruence.
Qed.

(** X1.  [register] refuses a transformer when one of its types (the
    primary one or an additional one) is already registered, and whatever
    it does it leaves every transformer that was registered in place. *)
Theorem register_duplicate_rejected transformer additional_types w :
  Exists (fun t => registered (_REGISTRY w) t = true)
         (python_type_of transformer :: additional_types) ->
  (exists msg, fst (register transformer additional_types w) = Raise (ValueError msg))
  /\ (forall k tr0,
        dict_get k (_REGISTRY w) = Some tr0 ->
        dict_get k (_REGISTRY (snd (register transformer additional_types w))) = Some tr0).
Proof.
  intros H. split.
  - apply register_types_duplicate. left. exact H.
  - intros k tr0. apply register_types_keeps.
Qed.

Lemma register_duplicate_rejected_witness :
  (exists msg, fst (register (FlytePickleTransformer int) [] initial_world)
               = Raise (ValueError msg))
  /\ dict_get int (_REGISTRY (snd (register (FlytePickleTransformer int) [] initial_world)))
     = Some int_transformer.
Proof.
  destruct (register_duplicate_rejected (FlytePickleTransformer int) [] initial_world)
    as [H1 H2].
  - constructor. reflexivity.
  - split; [exact H1|]. apply H2. reflexivity.
Defined.

(** X2.  [register] of a transformer whose types are distinct and not yet
    registered succeeds; afterwards each of those types is mapped to the
    transformer and every other key is as before. *)
Theorem register_fresh_types transformer additional_types w :
  NoDup (python_type_of transformer :: additional_types) ->
  Forall (fun t => registered (_REGISTRY w) t = false)
         (python_type_of transformer :: additional_types) ->
  fst (register transformer additional_types w) = Ok tt
  /\ (forall t, t ∈ python_type_of transformer :: additional_types ->
        dict_get t (_REGISTRY (snd (register transformer additional_types w)))
        = Some transformer)
  /\ (forall k, k ∉ python_type_of transformer :: additional_types ->
        dict_get k (_REGISTRY (snd (register transformer additional_types w)))
        = dict_get k (_REGISTRY w)).
Proof. intros Hnd Hf. apply register_types_fresh; assumption. Qed.

Lemma register_fresh_types_witness :
  fst (register none_transformer [TBuiltin B_None] empty_world) = Ok tt
  /\ dict_get (TBuiltin B_None)
       (_REGISTRY (snd (register none_transformer [TBuiltin B_None] empty_world)))
     = Some none_transformer.
Proof.
  destruct (register_fresh_types none_transformer [TBuiltin B_None] empty_world)
    as (H1 & H2 & _).
  - apply NoDup_cons. split; [|apply NoDup_cons; split; [|constructor]].
    + intros H. apply list_elem_of_singleton in H. discriminate H.
    + intros H. inversion H.
  - repeat constructor.
  - split; [exact H1|]. apply H2. right. left.
Defined.

(** X3.  Once [register_restricted_type] has registered a type, the type is
    listed as restricted and every conversion on it fails: its literal type
    and any decoding raise [RestrictedTypeError], and no encoding returns. *)
Theorem restricted_type_never_converts name t w :
  is_Annotated t = false -> registered (_REGISTRY w) t = false ->
  let w1 := snd (register_restricted_type name t w) in
  fst (register_restricted_type name t w) = Ok tt
  /\ In t (_RESTRICTED_TYPES w1)
  /\ (forall fuel,
        to_literal_type (2 + fuel) t w1
        = (Raise (RestrictedTypeError "Transformer for type is restricted currently"), w1))
  /\ (forall fuel lv,
        fst (to_python_value (2 + fuel) lv t w1)
        = Raise (RestrictedTypeError "Transformer for type is restricted currently"))
  /\ (forall fuel v expected,
        exists e, to_literal (2 + fuel) v t expected w1 = (Raise e, w1)).
Proof.
  intros Ha Hr. cbv zeta.
  unfold registered in Hr. destruct (dict_get t (_REGISTRY w)) eqn:E; [discriminate|].
  assert (Hrun : register_restricted_type name t w
                 = (Ok tt, mkWorld (dict_set t (RestrictedTypeTransformer name t) (_REGISTRY w))
                             (_RESTRICTED_TYPES w ++ [t]) (file_store w) (paths_used w)
                             (warnings w) (decode_calls w) (modules w))).
  { unfold register_restricted_type, register, append_restricted, bind.
    cbn [python_type_of register_types]. unfold bind, get_registry. cbn.
    rewrite E. reflexivity. }
  rewrite Hrun. cbn [fst snd].
  set (w1 := mkWorld _ _ _ _ _ _ _).
  assert (Hg : forall w2, _REGISTRY w2 = _REGISTRY w1 ->
                 get_transformer t w2 = (Ok (RestrictedTypeTransformer name t), w2)).
  { intros w2 Hw2. apply get_transformer_registered; [|exact Ha].
    rewrite Hw2. cbn. apply dict_get_set_same. }
  split; [reflexivity|]. split; [cbn; apply in_or_app; right; left; reflexivity|].
  split; [|split].
  - intros fuel. unfold to_literal_type. cbn [Nat.add engine to_literal_type_].
    unfold TypeEngine_to_literal_type, bind. rewrite (Hg w1 eq_refl).
    reflexivity.
  - intros fuel lv. unfold to_python_value. cbn [Nat.add engine to_python_value_].
    unfold TypeEngine_to_python_value, bind, count_decode.
    rewrite Hg by reflexivity. reflexivity.
  - intros fuel v expected. unfold to_literal. cbn [Nat.add engine to_literal_].
    unfold TypeEngine_to_literal, bind, lift.
    destruct (match v with
              | VNone => attr expected (fun e => bool_decide (union_type e = None)) "union_type"
              | _ => Ok false
              end) as [[|]|e|] eqn:Hn.
    + eexists; reflexivity.
    + rewrite (Hg w1 eq_refl). cbn [type_assertions_enabled].
      destruct (assert_type (RestrictedTypeTransformer name t) t v) as [[]|e|] eqn:Has.
      * cbn [engine transformer_to_literal_ Transformer_to_literal].
        destruct t; try discriminate Ha; eexists; reflexivity.
      * eexists; reflexivity.
      * exfalso. cbn in Has. destruct (has_origin t); [discriminate|].
        destruct (isinstance v t) as [[|]|]; discriminate.
    + eexists; reflexivity.
    + exfalso. destruct v; try discriminate Hn. destruct expected; discriminate Hn.
Qed.

Lemma restricted_type_never_converts_witness :
  to_literal_type 2 (TBuiltin B_set)
    (snd (register_restricted_type "sets" (TBuiltin B_set) initial_world))
  = (Raise (RestrictedTypeError "Transformer for type is restricted currently"),
     snd (register_restricted_type "sets" (TBuiltin B_set) initial_world)).
Proof.
  exact (proj1 (proj2 (proj2 (restricted_type_never_converts "sets" (TBuiltin B_set)
                                initial_world eq_refl eq_refl))) 0).
Defined.

(** X4.  A lookup that returned a transformer returns the same transformer
    when repeated, and the repeated lookup changes nothing: a dataclass or a
    fallback type is registered once, on first encounter. *)
Theorem get_transformer_reuses t w tr w' :
  is_Annotated (strip_Annotated t) = false ->
  get_transformer t w = (Ok tr, w') ->
  get_transformer t w' = (Ok tr, w').
Proof.
  assert (Hcore : forall t0, is_Annotated t0 = false ->
            get_transformer t0 w = (Ok tr, w') -> get_transformer t0 w' = (Ok tr, w')).
  { intros t0 Ha Hrun.
    destruct t0 as [b|origin args|base extras|[m q bs [fs|] ms]]; try discriminate Ha.
    - cbn [get_transformer] in Hrun. unfold bind, get_registry in Hrun.
      destruct (dict_get (TBuiltin b) (_REGISTRY w)) as [tr1|] eqn:E.
      + injection Hrun as <- <-. apply get_transformer_registered; [exact E|reflexivity].
      + destruct (inheritance_match (TBuiltin b) (_REGISTRY w)) as [tr1|] eqn:Ei.
        * injection Hrun as <- <-. cbn [get_transformer]. unfold bind, get_registry.
          rewrite E, Ei. reflexivity.
        * cbn in Hrun. injection Hrun as <- <-.
          apply get_transformer_registered; [|reflexivity]. cbn. apply dict_get_set_same.
    - cbn [get_transformer] in Hrun. unfold bind, get_registry in Hrun.
      destruct (dict_get (TGeneric origin args) (_REGISTRY w)) as [tr1|] eqn:E.
      + injection Hrun as <- <-. apply get_transformer_registered; [exact E|reflexivity].
      + destruct (dict_get origin (_REGISTRY w)) as [tr1|] eqn:Eo; [|discriminate].
        injection Hrun as <- <-. cbn [get_transformer]. unfold bind, get_registry.
        rewrite E, Eo. reflexivity.
    - rewrite get_transformer_dataclass in Hrun. cbv zeta in Hrun.
      destruct (dict_get (TClassOf m q bs (Some fs) ms) (_REGISTRY w)) as [tr1|] eqn:E.
      + injection Hrun as <- <-. apply get_transformer_registered; [exact E|reflexivity].
      + unfold bind in Hrun.
        destruct (DataclassTransformer_init get_transformer fs [] w) as [[trs| |] w1];
          try discriminate Hrun.
        cbn in Hrun. injection Hrun as <- <-.
        apply get_transformer_registered; [|reflexivity]. cbn. apply dict_get_set_same.
    - cbn [get_transformer] in Hrun. unfold bind, get_registry in Hrun.
      destruct (dict_get (TClassOf m q bs None ms) (_REGISTRY w)) as [tr1|] eqn:E.
      + injection Hrun as <- <-. apply get_transformer_registered; [exact E|reflexivity].
      + destruct (inheritance_match (TClassOf m q bs None ms) (_REGISTRY w)) as [tr1|] eqn:Ei.
        * injection Hrun as <- <-. cbn [get_transformer]. unfold bind, get_registry.
          rewrite E, Ei. reflexivity.
        * cbn in Hrun. injection Hrun as <- <-.
          apply get_transformer_registered; [|reflexivity]. cbn. apply dict_get_set_same. }
  intros Ha Hrun. destruct (is_Annotated t) eqn:Ht.
  - destruct t as [| |base extras|]; try discriminate Ht. cbn in Ha.
    rewrite get_transformer_Annotated in * by exact Ha. apply Hcore; assumption.
  - apply Hcore; [exact Ht | exact Hrun].
Qed.

Lemma get_transformer_reuses_witness :
  let C := TClassOf "app" "Custom" [] None [] in
  let w' := snd (get_transformer C initial_world) in
  get_transformer C w' = (Ok (FlytePickleTransformer C), w').
Proof.
  cbv zeta.
  apply (get_transformer_reuses (TClassOf "app" "Custom" [] None []) initial_world);
    reflexivity.
Defined.

(** ** Castability: equations and structure *)

Lemma castable_collection u d uc :
  collection_type u = Some uc ->
  _are_types_castable u d
  = match collection_type d with
    | None => false
    | Some dc => _are_types_castable uc dc
    end.
Proof. intros H. destruct u; simpl in *; subst. destruct d; reflexivity. Qed.

Lemma castable_map u d um :
  collection_type u = None -> map_value_type u = Some um ->
  _are_types_castable u d
  = match map_value_type d with
    | None => false
    | Some dm => _are_types_castable um dm
    end.
Proof. intros Hc H. destruct u; simpl in *; subst. destruct d; reflexivity. Qed.

Lemma castable_dataset u d usdt :
  collection_type u = None -> map_value_type u = None ->
  structured_dataset_type u = Some usdt ->
  _are_types_castable u d
  = match structured_dataset_type d with
    | None => false
    | Some dsdt =>
        bool_decide (sdt_format usdt = sdt_format dsdt)
        && bool_decide (external_schema_type usdt = external_schema_type dsdt)
        && bool_decide (external_schema_bytes usdt = external_schema_bytes dsdt)
        && (length (columns usdt) =? length (columns dsdt))%nat
        && columns_castable (columns usdt) (columns dsdt)
    end.
Proof.
  intros Hc Hm H. destruct u; simpl in *; subst.
  destruct d as [ds dsc dc dm db de du [dsdt|] dmd dst dan]; simpl; [|reflexivity].
  destruct (bool_decide (sdt_format usdt = sdt_format dsdt)); [|reflexivity].
  destruct (bool_decide (external_schema_type usdt = external_schema_type dsdt));
    [|reflexivity].
  destruct (bool_decide (external_schema_bytes usdt = external_schema_bytes dsdt));
    [|reflexivity].
  destruct (length (columns usdt) =? length (columns dsdt))%nat; [|reflexivity].
  reflexivity.
Qed.

Lemma essence_is_cleared x : _type_essence x = with_decorations x None None None.
Proof. destruct x as [s sc c m b e u sd [md|] [st|] [an|]]; reflexivity. Qed.

Lemma essence_with_decorations x md st an :
  _type_essence (with_decorations x md st an) = _type_essence x.
Proof. rewrite !essence_is_cleared. reflexivity. Qed.

Lemma castable_downstream_decorations u : forall d md st an,
  _are_types_castable u (with_decorations d md st an) = _are_types_castable u d.
Proof.
  induction u as [u IHc IHm IHu IHsd] using LiteralType_nested_ind.
  intros d md st an.
  destruct (collection_type u) as [uc|] eqn:Ec.
  { rewrite !(castable_collection u _ uc Ec). reflexivity. }
  destruct (map_value_type u) as [um|] eqn:Em.
  { rewrite !(castable_map u _ um Ec Em). reflexivity. }
  destruct (structured_dataset_type u) as [usdt|] eqn:Es.
  { rewrite !(castable_dataset u _ usdt Ec Em Es). reflexivity. }
  assert (Hr : reaches_union_rules u) by (repeat split; assumption).
  destruct (union_type u) as [uu|] eqn:Eu.
  { rewrite !(castable_union_upstream u _ uu Hr Eu).
    specialize (IHu uu eq_refl). induction IHu as [|v vs Hv _ IH]; [reflexivity|].
    cbn [forallb]. rewrite Hv, IH. reflexivity. }
  rewrite !(castable_tail u _ Hr Eu). rewrite essence_with_decorations. reflexivity.
Qed.

Lemma castable_upstream_decorations u md st an : forall d,
  _are_types_castable (with_decorations u md st an) d = _are_types_castable u d.
Proof.
  intros d.
  destruct (collection_type u) as [uc|] eqn:Ec.
  { rewrite (castable_collection u _ uc Ec).
    rewrite (castable_collection (with_decorations u md st an) _ uc Ec). reflexivity. }
  destruct (map_value_type u) as [um|] eqn:Em.
  { rewrite (castable_map u _ um Ec Em).
    rewrite (castable_map (with_decorations u md st an) _ um Ec Em). reflexivity. }
  destruct (structured_dataset_type u) as [usdt|] eqn:Es.
  { rewrite (castable_dataset u _ usdt Ec Em Es).
    rewrite (castable_dataset (with_decorations u md st an) _ usdt Ec Em Es). reflexivity. }
  assert (Hr : reaches_union_rules u) by (repeat split; assumption).
  assert (Hr' : reaches_union_rules (with_decorations u md st an))
    by (repeat split; assumption).
  destruct (union_type u) as [uu|] eqn:Eu.
  { rewrite (castable_union_upstream u _ uu Hr Eu).
    rewrite (castable_union_upstream (with_decorations u md st an) _ uu Hr' Eu).
    reflexivity. }
  induction d as [d _ _ IHu _] using LiteralType_nested_ind.
  rewrite (castable_tail u d Hr Eu).
  rewrite (castable_tail (with_decorations u md st an) d Hr' Eu).
  rewrite essence_with_decorations.
  cbn [with_decorations enum_type].
  destruct (union_type d) as [du|]; [|reflexivity].
  specialize (IHu du eq_refl).
  assert (Hany : existsb (_are_types_castable (with_decorations u md st an)) (variants du)
                 = existsb (_are_types_castable u) (variants du)).
  { induction IHu as [|v vs Hv _ IH]; [reflexivity|].
    cbn [existsb]. rewrite Hv, IH. reflexivity. }
  rewrite Hany. reflexivity.
Qed.

(** X5.  Castability does not look at tags, metadata or annotations:
    replacing them on either side, as [_add_tag_to_type] does, leaves the
    answer as it is. *)
Theorem castable_ignores_decorations u d md st an md' st' an' tag :
  _are_types_castable (with_decorations u md st an) (with_decorations d md' st' an')
  = _are_types_castable u d
  /\ _are_types_castable (_add_tag_to_type u tag) d = _are_types_castable u d
  /\ _are_types_castable u (_add_tag_to_type d tag) = _are_types_castable u d.
Proof.
  split; [|split].
  - rewrite castable_upstream_decorations. apply castable_downstream_decorations.
  - apply (castable_upstream_decorations u (metadata u) (Some (mkTypeStructure tag))
             (annotation u)).
  - apply (castable_downstream_decorations u d (metadata d) (Some (mkTypeStructure tag))
             (annotation d)).
Qed.

Lemma castable_plain_refl v : is_plain v = true -> _are_types_castable v v = true.
Proof.
  unfold is_plain. intros H.
  destruct (collection_type v) eqn:Ec; [discriminate|].
  destruct (map_value_type v) eqn:Em; [discriminate|].
  destruct (structured_dataset_type v) eqn:Es; [discriminate|].
  destruct (union_type v) eqn:Eu; [discriminate|].
  rewrite (castable_tail v v) by (repeat split; assumption).
  rewrite (bool_decide_eq_true_2 _ eq_refl). apply orb_true_r.
Qed.

Lemma unions_are_flat_eq x :
  unions_are_flat x
  = match collection_type x with
    | Some c => unions_are_flat c
    | None =>
    match map_value_type x with
    | Some m => unions_are_flat m
    | None =>
    match structured_dataset_type x with
    | Some sd => forallb (fun c => unions_are_flat (literal_type c)) (columns sd)
    | None =>
    match union_type x with
    | Some u => forallb is_plain (variants u)
    | None => true
    end end end end.
Proof. destruct x; reflexivity. Qed.

(** X6.  A wire type is castable to itself when the unions met in it
    (below collections, maps and dataset columns) have plain variants only:
    simple, enum, blob or schema types. *)
Theorem castable_reflexive x :
  unions_are_flat x = true -> _are_types_castable x x = true.
Proof.
  induction x as [x IHc IHm IHu IHsd] using LiteralType_nested_ind. intros Hflat.
  rewrite unions_are_flat_eq in Hflat.
  destruct (collection_type x) as [c|] eqn:Ec.
  { rewrite (castable_collection x x c Ec), Ec. apply (IHc c eq_refl), Hflat. }
  destruct (map_value_type x) as [m|] eqn:Em.
  { rewrite (castable_map x x m Ec Em), Em. apply (IHm m eq_refl), Hflat. }
  destruct (structured_dataset_type x) as [sd|] eqn:Es.
  { rewrite (castable_dataset x x sd Ec Em Es), Es.
    rewrite !(bool_decide_eq_true_2 _ eq_refl), Nat.eqb_refl. cbn [andb].
    specialize (IHsd sd eq_refl).
    induction IHsd as [|col cols Hcol _ IH]; [reflexivity|].
    cbn [forallb] in Hflat. apply andb_prop in Hflat as [H1 H2].
    cbn [columns_castable].
    rewrite (bool_decide_eq_true_2 _ eq_refl), (Hcol H1). cbn [negb].
    apply IH, H2. }
  destruct (union_type x) as [u|] eqn:Eu.
  { rewrite (castable_union_upstream x x u) by (repeat split; assumption).
    rewrite forallb_forall in *. intros v Hv.
    assert (Hp : is_plain v = true) by (apply Hflat, Hv).
    pose proof (castable_plain_refl v Hp) as Hvv.
    unfold is_plain in Hp.
    destruct (collection_type v) eqn:Ecv; [discriminate|].
    destruct (map_value_type v) eqn:Emv; [discriminate|].
    destruct (structured_dataset_type v) eqn:Esv; [discriminate|].
    destruct (union_type v) eqn:Euv; [discriminate|].
    rewrite (castable_tail v x) by (repeat split; assumption).
    assert (Hex : existsb (_are_types_castable v) (variants u) = true).
    { apply existsb_exists. exists v. split; [exact Hv | exact Hvv]. }
    rewrite Eu, Hex. reflexivity. }
  apply castable_plain_refl. unfold is_plain. rewrite Ec, Em, Es, Eu. reflexivity.
Qed.

Lemma castable_reflexive_witness :
  let x := lt_collection (lt_union [lt_simple INTEGER; lt_enum ["A"; "B"]]) in
  _are_types_castable x x = true.
Proof.
  cbv zeta.
  apply (castable_reflexive
           (lt_collection (lt_union [lt_simple INTEGER; lt_enum ["A"; "B"]]))).
  reflexivity.
Defined.

(** X7.  A union type one of whose variants is a collection, a map or a
    structured dataset is not castable to itself: that variant is rejected
    by the rule for its kind, since the downstream union is not of that
    kind. *)
Theorem castable_union_of_collection_not_reflexive x vs v :
  is_union_of x vs -> In v vs ->
  collection_type v <> None \/ map_value_type v <> None
  \/ structured_dataset_type v <> None ->
  _are_types_castable x x = false.
Proof.
  intros Hx Hv Hkind.
  destruct Hx as (Hu & Hs & Hsc & Hc & Hm & Hb & He & Hsd).
  rewrite (castable_union_upstream x x (mkUnionType vs)) by (repeat split; assumption).
  cbn [variants]. apply not_true_is_false. intros Hall.
  rewrite forallb_forall in Hall. specialize (Hall v Hv).
  destruct (collection_type v) as [c|] eqn:Ec.
  { rewrite (castable_collection v x c Ec), Hc in Hall. discriminate. }
  destruct (map_value_type v) as [m|] eqn:Em.
  { rewrite (castable_map v x m Ec Em), Hm in Hall. discriminate. }
  destruct (structured_dataset_type v) as [sd|] eqn:Es.
  { rewrite (castable_dataset v x sd Ec Em Es), Hsd in Hall. discriminate. }
  destruct Hkind as [H|[H|H]]; apply H; reflexivity.
Qed.

Lemma castable_union_of_collection_not_reflexive_witness :
  let x := lt_union [lt_collection (lt_simple INTEGER); lt_simple STRING] in
  _are_types_castable x x = false.
Proof.
  cbv zeta.
  apply (castable_union_of_collection_not_reflexive
           (lt_union [lt_collection (lt_simple INTEGER); lt_simple STRING])
           [lt_collection (lt_simple INTEGER); lt_simple STRING]
           (lt_collection (lt_simple INTEGER))).
  - repeat split.
  - left. reflexivity.
  - left. discriminate.
Defined.

(** ** Scalars in any registry that starts with the built-ins *)

Lemma dict_get_app {K A} `{EqDecision K} (k : K) (l e : list (K * A)) a :
  dict_get k l = Some a -> dict_get k (l ++ e)%list = Some a.
Proof.
  induction l as [|[k' a'] l IH]; [discriminate|]. simpl.
  destruct (bool_decide (k' = k)); [trivial | exact IH].
Qed.

Lemma scalar_registered reg T :
  builtin_registry reg -> In T all_scalar_types ->
  exists tr, scalar_transformer T = Some tr /\ dict_get T reg = Some tr.
Proof.
  intros [[extra ->] _] HT. simpl in HT.
  repeat (destruct HT as [<- | HT];
          [eexists; split; [reflexivity | apply dict_get_app; reflexivity]|]).
  contradiction.
Qed.

Lemma scalar_lookup w T :
  builtin_registry (_REGISTRY w) -> In T all_scalar_types ->
  exists tr, scalar_transformer T = Some tr /\ get_transformer T w = (Ok tr, w).
Proof.
  intros Hb HT. destruct (scalar_registered _ T Hb HT) as (tr & Hs & Hr).
  exists tr. split; [exact Hs|]. apply get_transformer_registered; [exact Hr|].
  simpl in HT. repeat (destruct HT as [<- | HT]; [reflexivity|]). contradiction.
Qed.

Lemma scalar_value_literal T v :
  In T all_scalar_types -> type_of v = T -> exists lv, scalar_literal v = Some lv.
Proof.
  intros HT Hv. simpl in HT.
  repeat (destruct HT as [<- | HT]; [|]); try contradiction.
  all: destruct v; try discriminate Hv; try (eexists; reflexivity).
  all: simpl in Hv; destruct (bool_decide _); discriminate Hv.
Qed.

(** What the transformer of a scalar type does with a value of the type. *)
Lemma scalar_codec T v tr :
  In T all_scalar_types -> scalar_transformer T = Some tr -> type_of v = T ->
  exists name k enc dec lv,
    tr = SimpleTransformer name T (lt_simple k) enc dec /\
    scalar_literal v = Some lv /\ enc v = Ok lv /\ dec lv = Ok v.
Proof.
  intros HT Htr Hv. simpl in HT.
  repeat (destruct HT as [<- | HT]; [|]); try contradiction.
  all: injection Htr as <-.
  all: destruct v; try discriminate Hv;
       try (simpl in Hv; destruct (bool_decide _); discriminate Hv).
  all: eexists _, _, _, _, _; repeat split; reflexivity.
Qed.

Lemma scalar_names_differ T1 T2 tr1 tr2 :
  In T1 all_scalar_types -> In T2 all_scalar_types ->
  scalar_transformer T1 = Some tr1 -> scalar_transformer T2 = Some tr2 ->
  tr_name tr1 = tr_name tr2 -> T1 = T2.
Proof.
  intros H1 H2 E1 E2 Hn. simpl in H1, H2.
  repeat (destruct H1 as [<- | H1]; [|]); try contradiction.
  all: repeat (destruct H2 as [<- | H2]; [|]); try contradiction.
  all: injection E1 as <-; injection E2 as <-.
  all: first [reflexivity | discriminate Hn].
Qed.

Lemma to_python_value_scalar fuel w T tr lv :
  builtin_registry (_REGISTRY w) -> In T all_scalar_types ->
  scalar_transformer T = Some tr ->
  to_python_value (2 + fuel) lv T w
  = Transformer_to_python_value (engine fuel) tr lv T (snd (count_decode w)).
Proof.
  intros Hb HT Htr.
  destruct (scalar_lookup (snd (count_decode w)) T Hb HT) as (tr' & Htr' & Hg).
  rewrite Htr in Htr'. injection Htr' as <-.
  unfold to_python_value. cbn [Nat.add engine to_python_value_].
  unfold TypeEngine_to_python_value, bind. unfold count_decode in *. cbn [snd] in *.
  rewrite Hg. reflexivity.
Qed.

(** X8.  Decoding a scalar literal as a scalar type of another kind fails
    with [TypeTransformerFailedError]: nothing is coerced, the one
    exception being an integer literal read as a [float]. *)
Theorem scalar_decode_rejects_other_kinds fuel w T v lv :
  builtin_registry (_REGISTRY w) -> In T all_scalar_types ->
  scalar_literal v = Some lv -> type_of v <> T ->
  ~ (T = float /\ type_of v = int) ->
  exists msg, fst (to_python_value (2 + fuel) lv T w) = Raise (TypeTransformerFailedError msg).
Proof.
  intros Hb HT Hlv Hne Hfloat.
  destruct (scalar_registered _ T Hb HT) as (tr & Htr & _).
  rewrite (to_python_value_scalar fuel w T tr lv Hb HT Htr).
  simpl in HT.
  repeat (destruct HT as [<- | HT]; [|]); try contradiction.
  all: injection Htr as <-.
  all: destruct v; try discriminate Hlv; injection Hlv as <-.
  all: try (exfalso; apply Hne; reflexivity).
  all: try (exfalso; apply Hfloat; split; reflexivity).
  all: eexists; reflexivity.
Qed.

Lemma scalar_decode_rejects_other_kinds_witness :
  exists msg,
    fst (to_python_value 2 (str_literal "1") int initial_world)
    = Raise (TypeTransformerFailedError msg).
Proof.
  refine (scalar_decode_rejects_other_kinds 0 initial_world int (VStr "1") _ _ _ eq_refl _ _).
  - split; [exists []; symmetry; apply app_nil_r | reflexivity].
  - right. left. reflexivity.
  - discriminate.
  - intros [H _]. discriminate H.
Defined.

(** X9.  An integer literal decodes as a [float]: the value is the integer
    converted, and an integer too large for a float raises
    [OverflowError]. *)
Theorem int_literal_decodes_as_float fuel w z :
  builtin_registry (_REGISTRY w) ->
  fst (to_python_value (2 + fuel) (int_literal z) float w)
  = match float_of_int z with
    | Ok f => Ok (VFloat f)
    | Raise e => Raise e
    | OutOfFuel => OutOfFuel
    end.
Proof.
  intros Hb.
  rewrite (to_python_value_scalar fuel w float float_transformer (int_literal z) Hb);
    [|right; right; left; reflexivity | reflexivity].
  cbn [Transformer_to_python_value float_transformer].
  unfold Simple_to_python_value, try_except, bind, lift.
  cbn [strip_Annotated float]. rewrite (bool_decide_eq_true_2 _ eq_refl). cbn [negb].
  cbn [_check_and_covert_float int_literal Literal_primitive Literal_scalar scalar_primitive
       rbind attr scalar primitive float_value integer].
  destruct (float_of_int z) as [f|e|] eqn:E; cbn.
  - reflexivity.
  - unfold float_of_int in E.
    destruct (binary_normalize 53 1024 z 0 false); try discriminate E.
    injection E as <-. reflexivity.
  - reflexivity.
Qed.

Lemma int_literal_decodes_as_float_witness :
  fst (to_python_value 2 (int_literal 3) float initial_world)
  = Ok (VFloat (S754_finite false 6755399441055744 (-51))).
Proof.
  refine (eq_trans (int_literal_decodes_as_float 0 initial_world 3 _) _).
  - split; [exists []; symmetry; apply app_nil_r | reflexivity].
  - reflexivity.
Defined.

(** ** Conversions of nested container types *)

Lemma bump_registry k w : _REGISTRY (bump k w) = _REGISTRY w.
Proof. reflexivity. Qed.

Lemma bump_bump j k w : bump j (bump k w) = bump (j + k) w.
Proof. unfold bump. cbn. f_equal. lia. Qed.

Lemma bump_0 w : bump 0 w = w.
Proof. destruct w; reflexivity. Qed.

Lemma to_literal_type_step n t tr w w' :
  get_transformer t w = (Ok tr, w') -> is_Annotated t = false ->
  to_literal_type (2 + n) t w = Transformer_get_literal_type (engine n) tr t w'.
Proof.
  intros Hg Ha. unfold to_literal_type.
  cbn [Nat.add engine to_literal_type_]. unfold TypeEngine_to_literal_type.
  unfold bind at 1. rewrite Hg. cbn [get_literal_type_].
  unfold bind, lift, ret.
  destruct (Transformer_get_literal_type (engine n) tr t w') as [[lt| |] w''];
    try reflexivity.
  destruct t; try reflexivity. discriminate Ha.
Qed.

Lemma to_literal_step n v t e tr w w' :
  match v with VNone => union_type e <> None | _ => True end ->
  get_transformer t w = (Ok tr, w') -> is_Annotated t = false ->
  assert_type tr t v = Ok tt ->
  to_literal (2 + n) v t (Some e) w = Transformer_to_literal (engine n) tr v t (Some e) w'.
Proof.
  intros Hn Hg Ha Hat. unfold to_literal.
  cbn [Nat.add engine to_literal_]. unfold TypeEngine_to_literal.
  assert (Hr : (match v with
                | VNone => attr (Some e) (fun e => bool_decide (union_type e = None)) "union_type"
                | _ => Ok false
                end) = Ok false).
  { destruct v; try reflexivity. cbn [attr]. f_equal.
    apply bool_decide_eq_false. exact Hn. }
  unfold bind at 1. unfold lift at 1. rewrite Hr.
  unfold bind at 1. rewrite Hg. unfold type_assertions_enabled.
  unfold bind at 1. unfold lift at 1. rewrite Hat.
  cbn [transformer_to_literal_].
  unfold bind, ret.
  destruct (Transformer_to_literal (engine n) tr v t (Some e) w') as [[lv| |] w''];
    try reflexivity.
  destruct t; try reflexivity. discriminate Ha.
Qed.

Lemma to_python_value_step n lv t tr w w' :
  get_transformer t (bump 1 w) = (Ok tr, w') ->
  to_python_value (2 + n) lv t w = Transformer_to_python_value (engine n) tr lv t w'.
Proof.
  intros Hg. unfold to_python_value. cbn [Nat.add engine to_python_value_].
  unfold TypeEngine_to_python_value, bind, count_decode.
  unfold bump in Hg. cbn [Nat.add] in Hg. rewrite Hg. reflexivity.
Qed.

Lemma get_transformer_generic w origin args tr :
  builtin_registry (_REGISTRY w) ->
  dict_get origin (_REGISTRY initial_world) = Some tr ->
  get_transformer (TGeneric origin args) w = (Ok tr, w).
Proof.
  intros [[extra He] Hg] Hr. cbn [get_transformer]. unfold bind, get_registry.
  rewrite (Hg _ _), He, (dict_get_app origin _ extra tr Hr). reflexivity.
Qed.

Lemma simple_scalar_is_scalar T : In T simple_scalar_types -> In T all_scalar_types.
Proof. intros H. right. exact H. Qed.

Lemma scalar_type_codec n T v :
  In T simple_scalar_types -> type_of v = T ->
  exists lv, scalar_literal v = Some lv /\ codec (2 + n) T (scalar_literal_type T) v lv.
Proof.
  intros HT Hv. pose proof (simple_scalar_is_scalar T HT) as HT'.
  destruct (scalar_registered (_REGISTRY initial_world) T) as (tr & Htr & _);
    [split; [exists []; symmetry; apply app_nil_r | reflexivity] | exact HT' |].
  destruct (scalar_codec T v tr HT' Htr Hv) as (name & k & enc & dec & lv & -> & Hl & He & Hd).
  exists lv. split; [exact Hl|]. intros w Hb.
  destruct (scalar_lookup w T Hb HT') as (tr' & Htr' & Hg).
  rewrite Htr in Htr'. injection Htr' as <-.
  assert (Hlt : scalar_literal_type T = lt_simple k).
  { unfold scalar_literal_type. rewrite Htr. reflexivity. }
  split.
  - erewrite (to_literal_step n v T); [| | exact Hg | |].
    + cbn [Transformer_to_literal]. unfold Simple_to_literal.
      rewrite Hv. rewrite bool_decide_eq_true_2 by reflexivity. cbn [negb].
      unfold lift. rewrite He. reflexivity.
    + destruct v; try exact I. simpl in Hv. subst T. simpl in HT.
      repeat (destruct HT as [HT | HT]; [discriminate HT|]). contradiction.
    + simpl in HT. repeat (destruct HT as [<- | HT]; [reflexivity|]). contradiction.
    + simpl in HT. repeat (destruct HT as [<- | HT]; [|]); try contradiction.
      all: destruct v; try discriminate Hv; try reflexivity.
      all: simpl in Hv; destruct (bool_decide _); discriminate Hv.
  - exists 1.
    destruct (scalar_lookup (bump 1 w) T Hb HT') as (tr' & Htr' & Hg').
    rewrite Htr in Htr'. injection Htr' as <-.
    rewrite (to_python_value_step n lv T _ w (bump 1 w) Hg').
    cbn [Transformer_to_python_value]. unfold Simple_to_python_value.
    assert (Hs : strip_Annotated T = T).
    { simpl in HT. repeat (destruct HT as [<- | HT]; [reflexivity|]). contradiction. }
    cbv zeta. rewrite Hs. rewrite bool_decide_eq_true_2 by reflexivity. cbn [negb].
    unfold try_except, bind, lift. rewrite Hd. rewrite Hv.
    rewrite bool_decide_eq_true_2 by reflexivity. reflexivity.
Qed.

Lemma for_each_cons_ok {A B} (x : A) xs (body : A -> M B) b bs w w1 w2 :
  body x w = (Ok b, w1) -> for_each xs body w1 = (Ok bs, w2) ->
  for_each (x :: xs) body w = (Ok (b :: bs), w2).
Proof.
  intros Hx Hxs. cbn [for_each]. unfold bind, ret. rewrite Hx, Hxs. reflexivity.
Qed.

(** *** Lists *)

Lemma list_to_literal_type n a lt w :
  builtin_registry (_REGISTRY w) ->
  to_literal_type n a w = (Ok lt, w) ->
  to_literal_type (2 + n) (List_ a) w = (Ok (lt_collection lt), w).
Proof.
  intros Hb Ha.
  rewrite (to_literal_type_step n (List_ a) ListTransformer w w);
    [| apply get_transformer_generic; [exact Hb | reflexivity] | reflexivity].
  cbn [Transformer_get_literal_type]. unfold List_get_literal_type, try_except, bind, lift.
  cbn [List_ get_sub_type]. unfold to_literal_type in Ha. rewrite Ha. reflexivity.
Qed.

Lemma list_encode_each n a lt items lvs w :
  builtin_registry (_REGISTRY w) ->
  Forall2 (codec n a lt) items lvs ->
  for_each items
    (fun x => ct <- lift (attr (Some (lt_collection lt)) collection_type "collection_type") ;;
              to_literal_ (engine n) x a ct) w
  = (Ok lvs, w).
Proof.
  intros Hb. induction 1 as [|v lv items lvs Hc _ IH]; [reflexivity|].
  destruct (Hc w Hb) as [He _].
  apply (for_each_cons_ok _ _ _ _ _ w w w); [exact He | exact IH].
Qed.

Lemma list_decode_each n a lt items lvs :
  Forall2 (codec n a lt) items lvs ->
  forall w, builtin_registry (_REGISTRY w) ->
  exists k, for_each lvs (fun x => to_python_value_ (engine n) x a) w = (Ok items, bump k w).
Proof.
  induction 1 as [|v lv items lvs Hc _ IH]; intros w Hb.
  - exists 0. rewrite bump_0. reflexivity.
  - destruct (Hc w Hb) as [_ [k Hd]]. unfold to_python_value in Hd.
    destruct (IH (bump k w) Hb) as [j Hj]. exists (j + k).
    rewrite <- bump_bump.
    apply (for_each_cons_ok _ _ _ _ _ w (bump k w)); [exact Hd | exact Hj].
Qed.

Lemma list_codec n a lt items lvs :
  Forall2 (codec n a lt) items lvs ->
  codec (2 + n) (List_ a) (lt_collection lt) (VList items) (Literal_collection lvs).
Proof.
  intros Hf w Hb. split.
  - rewrite (to_literal_step n _ (List_ a) _ ListTransformer w w);
      [| exact I | apply get_transformer_generic; [exact Hb | reflexivity]
       | reflexivity | reflexivity].
    cbn [Transformer_to_literal]. unfold List_to_literal.
    unfold bind at 1. cbn [List_ get_sub_type lift].
    unfold bind at 1. rewrite (list_encode_each n a lt items lvs w Hb Hf). reflexivity.
  - destruct (list_decode_each n a lt items lvs Hf (bump 1 w) Hb) as [k Hk].
    exists (k + 1).
    rewrite (to_python_value_step n _ (List_ a) ListTransformer w (bump 1 w));
      [| apply get_transformer_generic; [exact Hb | reflexivity]].
    cbn [Transformer_to_python_value]. unfold List_to_python_value.
    cbn [collection Literal_collection]. unfold bind at 1. cbn [List_ get_sub_type lift].
    unfold bind at 1. rewrite Hk, bump_bump. reflexivity.
Qed.

(** *** Dictionaries *)

Lemma dict_set_fresh {A} (k : string) (a : A) l :
  ~ In k (List.map fst l) -> dict_set k a l = (l ++ [(k, a)])%list.
Proof.
  induction l as [|[k' a'] l IH]; intros Hk; [reflexivity|].
  cbn [dict_set app]. rewrite bool_decide_eq_false_2.
  - f_equal. apply IH. intros Hin. apply Hk. right. exact Hin.
  - intros ->. apply Hk. left. reflexivity.
Qed.

Lemma NoDup_app_fresh (k : string) ks1 ks2 :
  List.NoDup (ks1 ++ k :: ks2) -> ~ In k ks1 /\ List.NoDup ((ks1 ++ [k]) ++ ks2).
Proof.
  intros H. split.
  - intros Hin. apply List.NoDup_remove_2 in H. apply H. apply in_or_app. left. exact Hin.
  - rewrite <- app_assoc. exact H.
Qed.

Section DictLoops.

Variables (n : nat) (a : PyType) (lt : LiteralType).

Lemma dict_encode_loop items lits w :
builtin_registry (_REGISTRY w) ->
Forall2 (dict_entry n a lt) items lits ->
forall acc, List.NoDup (List.map fst acc ++ List.map fst lits) ->
Dict_to_literal_loop (engine n) items (Dict_ str a) (Some (lt_map lt)) acc w
= (Ok (acc ++ lits)%list, w).
Proof.
intros Hb. induction 1 as [|[key v] [k lv] items lits [Hk Hc] _ IH]; intros acc Hnd.
- cbn [Dict_to_literal_loop]. rewrite app_nil_r. reflexivity.
- cbn [fst snd] in Hk, Hc. subst key. destruct (Hc w Hb) as [He _].
  cbn [List.map fst] in Hnd. destruct (NoDup_app_fresh _ _ _ Hnd) as [Hfresh Hnd'].
  cbn [Dict_to_literal_loop]. unfold bind at 1. cbn [Dict_ get_dict_types lift].
  unfold bind at 1. cbn [attr lift map_value_type lt_map].
  unfold bind at 1. unfold to_literal in He. rewrite He.
  rewrite (dict_set_fresh k lv acc Hfresh).
  rewrite IH.
  + rewrite <- app_assoc. reflexivity.
  + rewrite List.map_app. exact Hnd'.
Qed.

Lemma dict_decode_loop items lits :
Forall2 (dict_entry n a lt) items lits ->
forall acc w, builtin_registry (_REGISTRY w) ->
List.NoDup (List.map fst acc ++ List.map fst lits) ->
exists j,
  Dict_to_python_value_loop (engine n) lits [str; a] acc w
  = (Ok (acc ++ combine (List.map fst lits) (List.map snd items))%list, bump j w).
Proof.
induction 1 as [|[key v] [k lv] items lits [Hk Hc] _ IH]; intros acc w Hb Hnd.
- exists 0. cbn [Dict_to_python_value_loop List.map combine].
  rewrite app_nil_r, bump_0. reflexivity.
- cbn [fst snd] in Hk, Hc. subst key. destruct (Hc w Hb) as [_ [j Hd]].
  cbn [List.map fst] in Hnd. destruct (NoDup_app_fresh _ _ _ Hnd) as [Hfresh Hnd'].
  destruct (IH (acc ++ [(k, v)])%list (bump j w) Hb) as [i Hi].
  { rewrite List.map_app. exact Hnd'. }
  exists (i + j).
  cbn [Dict_to_python_value_loop]. unfold bind at 1. cbn [lift].
  unfold bind at 1. unfold to_python_value in Hd. rewrite Hd.
  rewrite (dict_set_fresh k v acc Hfresh), Hi, bump_bump.
  cbn [List.map fst snd combine]. rewrite <- app_assoc. reflexivity.
Qed.

Lemma dict_entries_items items lits :
Forall2 (dict_entry n a lt) items lits ->
List.map (fun kv => (VStr (fst kv), snd kv))
  (combine (List.map fst lits) (List.map snd items)) = items.
Proof.
induction 1 as [|[key v] [k lv] items lits [Hk _] _ IH]; [reflexivity|].
cbn [fst snd] in Hk. subst key. cbn [List.map fst snd combine]. rewrite IH. reflexivity.
Qed.

Lemma dict_codec items lits :
Forall2 (dict_entry n a lt) items lits -> List.NoDup (List.map fst lits) ->
codec (2 + n) (Dict_ str a) (lt_map lt) (VDict items) (Literal_map lits).
Proof.
intros Hf Hnd w Hb. split.
- rewrite (to_literal_step n _ (Dict_ str a) _ DictTransformer w w);
    [| exact I | apply get_transformer_generic; [exact Hb | reflexivity]
     | reflexivity | reflexivity].
  cbn [Transformer_to_literal]. unfold Dict_to_literal.
  cbn [simple lt_map]. rewrite bool_decide_eq_false_2 by discriminate.
  unfold bind. rewrite (dict_encode_loop items lits w Hb Hf []); [reflexivity | exact Hnd].
- destruct (dict_decode_loop items lits Hf [] (bump 1 w) Hb Hnd) as [j Hj].
  exists (j + 1).
  rewrite (to_python_value_step n _ (Dict_ str a) DictTransformer w (bump 1 w));
    [| apply get_transformer_generic; [exact Hb | reflexivity]].
  cbn [Transformer_to_python_value]. unfold Dict_to_python_value.
  cbn [map Literal_map]. unfold bind at 1. cbn [Dict_ get_dict_types lift].
  rewrite bool_decide_eq_false_2 by discriminate.
  rewrite bool_decide_eq_true_2 by reflexivity. cbn [negb].
  unfold bind. rewrite Hj. cbn [app]. unfold ret.
  rewrite (dict_entries_items items lits Hf), bump_bump. reflexivity.
Qed.

Lemma dict_to_literal_type w :
builtin_registry (_REGISTRY w) ->
to_literal_type n a w = (Ok lt, w) ->
to_literal_type (2 + n) (Dict_ str a) w = (Ok (lt_map lt), w).
Proof.
intros Hb Ha.
rewrite (to_literal_type_step n (Dict_ str a) DictTransformer w w);
  [| apply get_transformer_generic; [exact Hb | reflexivity] | reflexivity].
cbn [Transformer_get_literal_type]. unfold Dict_get_literal_type.
unfold bind at 1. cbn [Dict_ get_dict_types lift].
rewrite bool_decide_eq_true_2 by reflexivity.
unfold try_except, bind, lift. unfold to_literal_type in Ha. rewrite Ha. reflexivity.
Qed.

End DictLoops.

(** *** Unions of scalars *)

Lemma scalar_transformer_shape T tr :
  In T all_scalar_types -> scalar_transformer T = Some tr ->
  exists name k enc dec, tr = SimpleTransformer name T (lt_simple k) enc dec.
Proof.
  intros HT Htr. simpl in HT.
  repeat (destruct HT as [<- | HT]; [|]); try contradiction.
  all: injection Htr as <-; eexists _, _, _, _; reflexivity.
Qed.

Section ScalarUnions.

Variable w : World.
Hypothesis Hb : builtin_registry (_REGISTRY w).

Lemma scalar_to_literal_type n T :
In T all_scalar_types ->
to_literal_type (2 + n) T w = (Ok (scalar_literal_type T), w).
Proof.
intros HT. destruct (scalar_lookup w T Hb HT) as (tr & Htr & Hg).
rewrite (to_literal_type_step n T tr w w Hg).
- unfold scalar_literal_type. rewrite Htr. simpl in HT.
  repeat (destruct HT as [<- | HT]; [|]); try contradiction.
  all: injection Htr as <-; reflexivity.
- simpl in HT. repeat (destruct HT as [<- | HT]; [reflexivity|]). contradiction.
Qed.

Lemma union_for_each_transformers ts :
Forall (fun T => In T all_scalar_types) ts ->
for_each ts (fun x => tr <- get_transformer x ;; ret (tr, x)) w
= (Ok (List.map (fun T => (match scalar_transformer T with
                            | Some tr => tr
                            | None => UnionTransformer
                            end, T)) ts), w).
Proof.
induction 1 as [|T ts HT _ IH]; [reflexivity|].
cbn [List.map]. apply (for_each_cons_ok _ _ _ _ _ w w w); [|exact IH].
destruct (scalar_lookup w T Hb HT) as (tr & Htr & Hg).
unfold bind. rewrite Hg, Htr. reflexivity.
Qed.

Lemma union_for_each_variants n ts :
Forall (fun T => In T all_scalar_types) ts ->
for_each (List.map (fun T => (match scalar_transformer T with
                              | Some tr => tr
                              | None => UnionTransformer
                              end, T)) ts)
  (fun tx => lt <- to_literal_type_ (engine (2 + n)) (snd tx) ;;
             ret (_add_tag_to_type lt (tr_name (fst tx)))) w
= (Ok (List.map (fun T => _add_tag_to_type (scalar_literal_type T) (scalar_name T)) ts), w).
Proof.
induction 1 as [|T ts HT _ IH]; [reflexivity|].
cbn [List.map]. apply (for_each_cons_ok _ _ _ _ _ w w w); [|exact IH].
pose proof (scalar_to_literal_type n T HT) as Hl. unfold to_literal_type in Hl.
unfold bind. cbn [fst snd]. rewrite Hl. unfold scalar_name.
destruct (scalar_lookup w T Hb HT) as (tr & Htr & _). rewrite Htr. reflexivity.
Qed.

Lemma scalar_union_to_literal_type n ts :
Forall (fun T => In T all_scalar_types) ts ->
to_literal_type (4 + n) (Union_ ts) w = (Ok (scalar_union_literal_type ts), w).
Proof.
intros Hts. change (4 + n) with (2 + (2 + n)).
rewrite (to_literal_type_step (2 + n) (Union_ ts) UnionTransformer w w);
  [| apply get_transformer_generic; [exact Hb | reflexivity] | reflexivity].
cbn [Transformer_get_literal_type]. unfold Union_get_literal_type, try_except.
cbn [strip_Annotated Union_ get_args].
unfold bind at 1. rewrite (union_for_each_transformers ts Hts).
unfold bind at 1. rewrite (union_for_each_variants n ts Hts). reflexivity.
Qed.

Variable v : PyVal.
Variable lv : Literal.
Hypothesis Hlv : scalar_literal v = Some lv.


Lemma scalar_variant_fails m e t :
In t all_scalar_types -> type_of v <> t ->
variant_fails (engine (S m)) v e t w w.
Proof.
intros Ht Hne. destruct (scalar_lookup w t Hb Ht) as (tr & Htr & Hg).
exists (TypeTransformerFailedError "Expected value of the transformer's type").
split; [reflexivity|]. right. exists tr, w. split; [exact Hg|].
destruct (scalar_transformer_shape t tr Ht Htr) as (name & k & enc & dec & ->).
cbn [engine transformer_to_literal_ Transformer_to_literal]. unfold Simple_to_literal.
rewrite bool_decide_eq_false_2 by exact Hne. reflexivity.
Qed.

Lemma scalar_variant_encodes m e :
In (type_of v) all_scalar_types ->
exists tr, variant_encodes (engine (S m)) v e (type_of v) w tr lv (scalar_stored_type v) w.
Proof.
intros Ht. destruct (scalar_lookup w _ Hb Ht) as (tr & Htr & Hg).
destruct (scalar_codec _ v tr Ht Htr eq_refl)
  as (name & k & enc & dec & lv' & -> & Hl & He & Hd).
rewrite Hlv in Hl. injection Hl as <-.
eexists. exists w, w, (lt_simple k). split; [exact Hg|].
cbn [engine transformer_to_literal_ get_literal_type_
     Transformer_to_literal Transformer_get_literal_type].
unfold Simple_to_literal. rewrite bool_decide_eq_true_2 by reflexivity.
cbn [negb]. unfold lift. rewrite He. split; [reflexivity|]. split; [reflexivity|].
unfold scalar_stored_type, scalar_literal_type, scalar_name. rewrite Htr. reflexivity.
Qed.

Lemma union_encode_none m e ts found :
Forall (fun T => In T all_scalar_types) ts -> ~ In (type_of v) ts ->
Union_to_literal_loop (engine (S m)) ts v e found w = (Ok found, w).
Proof.
induction 1 as [|t ts Ht _ IH]; intros Hn; [reflexivity|].
rewrite (union_loop_skips _ _ _ t ts found w w).
- apply IH. intros Hin. apply Hn. right. exact Hin.
- apply scalar_variant_fails; [exact Ht|]. intros E. apply Hn. left. symmetry. exact E.
Qed.

Lemma union_encode_some m e ts :
Forall (fun T => In T all_scalar_types) ts -> List.NoDup ts -> In (type_of v) ts ->
Union_to_literal_loop (engine (S m)) ts v e None w = (Ok (Some (lv, (scalar_stored_type v))), w).
Proof.
induction 1 as [|t ts Ht Hts IH]; intros Hnd Hin; [destruct Hin|].
apply List.NoDup_cons_iff in Hnd. destruct Hnd as [Hnot Hnd].
destruct (decide (type_of v = t)) as [E | Hne].
- subst t. destruct (scalar_variant_encodes m e Ht) as [tr Henc].
  rewrite (union_loop_encodes _ _ _ _ ts None w tr lv (scalar_stored_type v) w Henc).
  apply union_encode_none; [exact Hts | exact Hnot].
- rewrite (union_loop_skips _ _ _ t ts None w w).
  + apply IH; [exact Hnd|]. destruct Hin as [E | Hin]; [|exact Hin].
    contradiction Hne. symmetry. exact E.
  + apply scalar_variant_fails; [exact Ht | exact Hne].
Qed.

Lemma scalar_variant_skipped t :
In t all_scalar_types -> In (type_of v) all_scalar_types -> type_of v <> t ->
variant_skipped_by_tag (scalar_name (type_of v)) t w w.
Proof.
intros Ht Hv Hne. destruct (scalar_lookup w t Hb Ht) as (tr & Htr & Hg).
destruct (scalar_lookup w _ Hb Hv) as (tr0 & Htr0 & _).
exists tr. split; [exact Hg|]. split.
- unfold scalar_name. rewrite Htr0. intros E. apply Hne. symmetry.
  exact (scalar_names_differ t (type_of v) tr tr0 Ht Hv Htr Htr0 E).
- simpl in Ht. repeat (destruct Ht as [<- | Ht]; [reflexivity|]). contradiction.
Qed.

Lemma scalar_variant_decodes n :
In (type_of v) all_scalar_types ->
variant_decodes_tagged (engine (2 + n)) (Literal_union lv (scalar_stored_type v)) (scalar_stored_type v)
  (scalar_name (type_of v)) (type_of v) w v w.
Proof.
intros Ht. destruct (scalar_lookup w _ Hb Ht) as (tr & Htr & Hg).
destruct (scalar_codec _ v tr Ht Htr eq_refl)
  as (name & k & enc & dec & lv' & -> & Hl & He & Hd).
rewrite Hlv in Hl. injection Hl as <-.
eexists _, w, w, (scalar_literal_type (type_of v)), _, _.
split; [exact Hg|].
split; [left; unfold scalar_name; rewrite Htr; reflexivity|].
split; [exact (scalar_to_literal_type n _ Ht)|].
split.
{ unfold scalar_stored_type, scalar_literal_type, scalar_name. rewrite Htr.
  cbn [tr_name]. destruct k; reflexivity. }
split; [reflexivity|]. split; [reflexivity|].
cbn [Nat.add value engine transformer_to_python_value_ Transformer_to_python_value].
unfold Simple_to_python_value.
assert (Hs : strip_Annotated (type_of v) = type_of v).
{ simpl in Ht. repeat (destruct Ht as [<- | Ht]; [reflexivity|]). contradiction. }
cbv zeta. rewrite Hs. rewrite bool_decide_eq_true_2 by reflexivity. cbn [negb].
unfold try_except, bind, lift. rewrite Hd.
rewrite bool_decide_eq_true_2 by reflexivity. reflexivity.
Qed.

Lemma union_decode_none n ts found :
Forall (fun T => In T all_scalar_types) ts -> In (type_of v) all_scalar_types ->
~ In (type_of v) ts ->
Union_to_python_value_loop (engine (2 + n)) ts (Literal_union lv (scalar_stored_type v))
  (Some (scalar_stored_type v)) (Some (scalar_name (type_of v))) found w = (Ok found, w).
Proof.
intros Hts Hv. induction Hts as [|t ts Ht _ IH]; intros Hn; [reflexivity|].
rewrite (union_decode_skips _ _ _ _ t ts found w w).
- apply IH. intros Hin. apply Hn. right. exact Hin.
- apply scalar_variant_skipped; [exact Ht | exact Hv|].
  intros E. apply Hn. left. symmetry. exact E.
Qed.

Lemma union_decode_some n ts :
Forall (fun T => In T all_scalar_types) ts -> List.NoDup ts -> In (type_of v) ts ->
Union_to_python_value_loop (engine (2 + n)) ts (Literal_union lv (scalar_stored_type v))
  (Some (scalar_stored_type v)) (Some (scalar_name (type_of v))) None w = (Ok (Some v), w).
Proof.
intros Hts Hnd Hin.
assert (Hv : In (type_of v) all_scalar_types).
{ rewrite List.Forall_forall in Hts. apply Hts. exact Hin. }
induction Hts as [|t ts Ht Hts IH]; [destruct Hin|].
apply List.NoDup_cons_iff in Hnd. destruct Hnd as [Hnot Hnd].
destruct (decide (type_of v = t)) as [E | Hne].
- rewrite <- E in *.
  rewrite (union_decode_tagged _ _ _ _ _ ts None w v w (scalar_variant_decodes n Hv)).
  apply union_decode_none; [exact Hts | exact Hv | exact Hnot].
- rewrite (union_decode_skips _ _ _ _ t ts None w w).
  + apply IH; [exact Hnd|]. destruct Hin as [E | Hin]; [|exact Hin].
    contradiction Hne. symmetry. exact E.
  + apply scalar_variant_skipped; [exact Ht | exact Hv | exact Hne].
Qed.

End ScalarUnions.

Lemma union_codec n ts v lv :
  Forall (fun T => In T all_scalar_types) ts -> List.NoDup ts -> In (type_of v) ts ->
  scalar_literal v = Some lv ->
  codec (4 + n) (Union_ ts) (scalar_union_literal_type ts) v
    (Literal_union lv (scalar_stored_type v)).
Proof.
  intros Hts Hnd Hin Hlv w Hb. change (4 + n) with (2 + (2 + n)). split.
  - rewrite (to_literal_step (2 + n) v (Union_ ts) _ UnionTransformer w w);
      [| destruct v; try exact I; discriminate
       | apply get_transformer_generic; [exact Hb | reflexivity]
       | reflexivity | reflexivity].
    cbn [Transformer_to_literal]. rewrite union_to_literal_unfold.
    cbn [strip_Annotated Union_ get_args]. change (2 + n) with (S (S n)).
    rewrite (union_encode_some w Hb v lv Hlv (S n) _ ts Hts Hnd Hin). reflexivity.
  - exists 1.
    rewrite (to_python_value_step (2 + n) _ (Union_ ts) UnionTransformer w (bump 1 w));
      [| apply get_transformer_generic; [exact Hb | reflexivity]].
    cbn [Transformer_to_python_value]. rewrite union_to_python_value_unfold.
    cbn [strip_Annotated Union_ get_args].
    change (stored_union_type (Literal_union lv (scalar_stored_type v)))
      with (Some (scalar_stored_type v)).
    change (stored_union_tag (Literal_union lv (scalar_stored_type v)))
      with (Some (scalar_name (type_of v))).
    rewrite (union_decode_some (bump 1 w) Hb v lv Hlv n ts Hts Hnd Hin). reflexivity.
Qed.

(** *** Nested types *)

Lemma simple_scalar_builtin T :
  T ∈ simple_scalar_types -> In T simple_scalar_types /\ exists b, T = TBuiltin b.
Proof.
  intros H. apply list_elem_of_In in H. split; [exact H|]. simpl in H.
  repeat (destruct H as [<- | H]; [eexists; reflexivity|]). contradiction.
Qed.

Lemma nested_type_inv T :
  nested_type T = true ->
  (exists a, T = List_ a /\ nested_type a = true)
  \/ (exists a, T = Dict_ str a /\ nested_type a = true)
  \/ (exists ts, T = Union_ ts /\ Forall (fun t => In t all_scalar_types) ts
                 /\ List.NoDup ts)
  \/ In T simple_scalar_types.
Proof.
  intros H.
  assert (Hdefault : bool_decide (T ∈ simple_scalar_types) = true ->
                     In T simple_scalar_types).
  { intros E. apply bool_decide_eq_true_1 in E. apply simple_scalar_builtin. exact E. }
  assert (Hgen : forall o args, T = TGeneric o args ->
                 bool_decide (T ∈ simple_scalar_types) = true -> False).
  { intros o args -> E. apply bool_decide_eq_true_1 in E.
    destruct (simple_scalar_builtin _ E) as [_ [b Hb]]. discriminate Hb. }
  destruct T as [b | origin args | base extras | c];
    try (right; right; right; apply Hdefault; exact H).
  destruct origin as [b | | |]; try (exfalso; exact (Hgen _ _ eq_refl H)).
  destruct b; try (exfalso; exact (Hgen _ _ eq_refl H)).
  - destruct args as [|a [|]]; try (exfalso; exact (Hgen _ _ eq_refl H)).
    left. exists a. split; [reflexivity | exact H].
  - destruct args as [|k [|a [|]]]; try (exfalso; exact (Hgen _ _ eq_refl H)).
    cbn [nested_type] in H. apply andb_true_iff in H. destruct H as [Hk Ha].
    apply bool_decide_eq_true_1 in Hk. subst k.
    right. left. exists a. split; [reflexivity | exact Ha].
  - cbn [nested_type] in H. apply andb_true_iff in H. destruct H as [Hs Hnd].
    right. right. left. exists args. split; [reflexivity|]. split.
    + apply List.Forall_forall. intros t Ht.
      rewrite forallb_forall in Hs. specialize (Hs t Ht).
      apply bool_decide_eq_true_1 in Hs. apply list_elem_of_In. exact Hs.
    + apply NoDup_ListNoDup. apply bool_decide_eq_true_1 in Hnd. exact Hnd.
Qed.

Lemma exists_Forall2 {A B} (R : A -> B -> Prop) xs :
  (forall x, In x xs -> exists y, R x y) -> exists ys, Forall2 R xs ys.
Proof.
  induction xs as [|x xs IH]; intros H.
  - exists []. constructor.
  - destruct (H x (or_introl eq_refl)) as [y Hy].
    destruct IH as [ys Hys]; [intros x' Hx'; apply H; right; exact Hx'|].
    exists (y :: ys). constructor; assumption.
Qed.

Lemma simple_scalar_shape T :
  In T simple_scalar_types ->
  fuel_for T = 2 /\ nested_literal_type T = scalar_literal_type T
  /\ forall v, value_of_type T v = bool_decide (type_of v = T).
Proof.
  intros HT. simpl in HT.
  repeat (destruct HT as [<- | HT]; [repeat split|]). contradiction.
Qed.

Lemma nested_ok_scalar T : In T simple_scalar_types -> nested_ok T.
Proof.
  intros HT n. destruct (simple_scalar_shape T HT) as (-> & -> & Ev). split.
  - intros w Hb. apply scalar_to_literal_type; [exact Hb|].
    apply simple_scalar_is_scalar. exact HT.
  - intros v Hv. rewrite Ev in Hv. apply bool_decide_eq_true_1 in Hv.
    destruct (scalar_type_codec n T v HT Hv) as (lv & _ & Hc). exists lv. exact Hc.
Qed.

Lemma nested_ok_union ts :
  Forall (fun t => In t all_scalar_types) ts -> List.NoDup ts -> nested_ok (Union_ ts).
Proof.
  intros Hts Hnd n. cbn [Union_ fuel_for nested_literal_type]. split.
  - intros w Hb. apply (scalar_union_to_literal_type w Hb n ts Hts).
  - intros v Hv. cbn [value_of_type] in Hv. apply bool_decide_eq_true_1 in Hv.
    apply list_elem_of_In in Hv.
    assert (Hs : In (type_of v) all_scalar_types).
    { rewrite List.Forall_forall in Hts. apply Hts. exact Hv. }
    destruct (scalar_value_literal _ v Hs eq_refl) as [lv Hlv].
    eexists. exact (union_codec n ts v lv Hts Hnd Hv Hlv).
Qed.

Lemma nested_ok_list a : nested_ok a -> nested_ok (List_ a).
Proof.
  intros Ha n. destruct (Ha n) as [Hlt Hc].
  change (fuel_for (List_ a)) with (2 + fuel_for a).
  change (nested_literal_type (List_ a)) with (lt_collection (nested_literal_type a)).
  change (2 + fuel_for a + n) with (2 + (fuel_for a + n)). split.
  - intros w Hb. apply list_to_literal_type; [exact Hb | apply Hlt; exact Hb].
  - intros v Hv. cbn [List_ value_of_type] in Hv. destruct v; try discriminate Hv.
    match type of Hv with forallb _ ?l = true => rename l into items end.
    rewrite forallb_forall in Hv.
    destruct (exists_Forall2 (codec (fuel_for a + n) a (nested_literal_type a)) items)
      as [lvs Hf]; [intros x Hx; apply Hc, Hv, Hx|].
    exists (Literal_collection lvs). apply list_codec. exact Hf.
Qed.

Lemma dict_items_entries n a lt items :
  (forall kv, In kv items ->
     match fst kv with
     | VStr _ => exists lv, codec n a lt (snd kv) lv
     | _ => False
     end) ->
  exists lits, Forall2 (dict_entry n a lt) items lits
               /\ List.map fst lits = str_keys items.
Proof.
  induction items as [|[key v] items IH]; intros H.
  - exists []. split; [constructor | reflexivity].
  - pose proof (H _ (or_introl eq_refl)) as Hkv. cbn [fst snd] in Hkv.
    destruct key; try contradiction. destruct Hkv as [lv Hlv].
    destruct IH as (lits & Hf & Hk); [intros kv Hin; apply H; right; exact Hin|].
    exists ((s, lv) :: lits). split.
    + constructor; [split; [reflexivity | exact Hlv] | exact Hf].
    + cbn [List.map fst]. rewrite Hk. reflexivity.
Qed.

Lemma nested_ok_dict a : nested_ok a -> nested_ok (Dict_ str a).
Proof.
  intros Ha n. destruct (Ha n) as [Hlt Hc].
  change (fuel_for (Dict_ str a)) with (2 + fuel_for a).
  change (nested_literal_type (Dict_ str a)) with (lt_map (nested_literal_type a)).
  change (2 + fuel_for a + n) with (2 + (fuel_for a + n)). split.
  - intros w Hb. apply dict_to_literal_type; [exact Hb | apply Hlt; exact Hb].
  - intros v Hv. cbn [Dict_ value_of_type] in Hv. destruct v; try discriminate Hv.
    apply andb_true_iff in Hv. destruct Hv as [Hnd Hv].
    match type of Hv with forallb _ ?l = true => rename l into items end.
    apply bool_decide_eq_true_1 in Hnd. apply NoDup_ListNoDup in Hnd.
    rewrite forallb_forall in Hv.
    destruct (dict_items_entries (fuel_for a + n) a (nested_literal_type a) items)
      as (lits & Hf & Hk).
    { intros kv Hin. specialize (Hv kv Hin). destruct (fst kv); try discriminate Hv.
      apply Hc. exact Hv. }
    exists (Literal_map lits). apply dict_codec; [exact Hf|]. rewrite Hk. exact Hnd.
Qed.

Lemma nested_conversions T : nested_type T = true -> nested_ok T.
Proof.
  induction T as [b | origin args _ IH | base extras _ | c _ _] using PyType_nested_ind;
    intros Hn;
    destruct (nested_type_inv _ Hn)
      as [(a & E & Ha) | [(a & E & Ha) | [(ts & E & Hts & Hnd) | Hs]]];
    try discriminate E; try (apply nested_ok_scalar; exact Hs).
  - injection E as -> ->. apply nested_ok_list.
    apply (List.Forall_inv IH). exact Ha.
  - injection E as -> ->. apply nested_ok_dict.
    apply (List.Forall_inv (List.Forall_inv_tail IH)). exact Ha.
  - rewrite E. apply nested_ok_union; assumption.
Qed.

(** X10.  A value of a type built from the simple scalars with [List],
    [Dict] with [str] keys and unions of scalars at the leaves comes back
    from the round trip through the engine unchanged, and nothing but the
    count of decoding calls has changed in the process. *)
Theorem nested_round_trip T v w n :
  builtin_registry (_REGISTRY w) ->
  nested_type T = true -> value_of_type T v = true ->
  exists k, round_trip (fuel_for T + n) v T w = (Ok v, bump k w).
Proof.
  intros Hb HT Hv. destruct (nested_conversions T HT n) as [Hlt Hc].
  destruct (Hc v Hv) as [lv Hlv]. destruct (Hlv w Hb) as [He [k Hd]].
  exists k. unfold round_trip, bind. rewrite (Hlt w Hb), He. exact Hd.
Qed.

Lemma nested_round_trip_witness :
  exists k,
    round_trip 8 (VDict [(VStr "a", VList [VInt 1; VNone]); (VStr "b", VList [])])
      (Dict_ str (List_ (Union_ [int; NoneType]))) initial_world
    = (Ok (VDict [(VStr "a", VList [VInt 1; VNone]); (VStr "b", VList [])]),
       bump k initial_world).
Proof.
  refine (nested_round_trip (Dict_ str (List_ (Union_ [int; NoneType])))
            (VDict [(VStr "a", VList [VInt 1; VNone]); (VStr "b", VList [])])
            initial_world 0 _ _ _).
  - split; [exists []; reflexivity | reflexivity].
  - reflexivity.
  - reflexivity.
Defined.

(** ** Guessing the native type back *)

Lemma guess_loop_prefix self l e lt w T w' :
  guess_loop self l lt w = (Ok T, w') ->
  guess_loop self (l ++ e)%list lt w = (Ok T, w').
Proof.
  revert w. induction l as [|[t tr] l IH]; intros w H.
  - discriminate H.
  - cbn [guess_loop app] in *. unfold try_except in *.
    destruct (transformer_guess_python_type_ self tr lt w) as [[T'|err|] w1];
      try exact H.
    destruct (existsb (err_isinstance err) [E_ValueError]); [|exact H].
    apply IH. exact H.
Qed.

Lemma guess_from_initial n lt w T :
  builtin_registry (_REGISTRY w) ->
  guess_loop (engine (S n)) (_REGISTRY initial_world) lt w = (Ok T, w) ->
  guess_python_type (2 + n) lt w = (Ok T, w).
Proof.
  intros [[extra He] _] H. unfold guess_python_type.
  cbn [Nat.add engine guess_python_type_]. unfold TypeEngine_guess_python_type, bind, get_registry.
  rewrite He. apply guess_loop_prefix. exact H.
Qed.

Lemma guess_initial_scalar n T w :
  In T all_scalar_types ->
  guess_loop (engine (S n)) (_REGISTRY initial_world) (scalar_literal_type T) w = (Ok T, w)
  /\ guess_loop (engine (S n)) (_REGISTRY initial_world)
       (_add_tag_to_type (scalar_literal_type T) (scalar_name T)) w = (Ok T, w).
Proof.
  intros HT. simpl in HT.
  repeat (destruct HT as [<- | HT]; [split; lazy -[float_of_int]; reflexivity|]).
  contradiction.
Qed.

Lemma initial_registry :
  _REGISTRY initial_world
  = [(int, int_transformer); (float, float_transformer); (bool_, bool_transformer);
     (str, str_transformer); (datetime_, datetime_transformer);
     (timedelta_, timedelta_transformer); (NoneType, none_transformer);
     (TBuiltin B_None, none_transformer); (TBuiltin B_list, ListTransformer);
     (TBuiltin B_typing_Union, UnionTransformer); (TBuiltin B_dict, DictTransformer);
     (TBuiltin B_typing_TextIO, TextIOTransformer);
     (TBuiltin B_typing_BinaryIO, BinaryIOTransformer);
     (TBuiltin B_enum_Enum, EnumTransformer);
     (TBuiltin B_protobuf_Message, ProtobufTransformer);
     (TBuiltin B_tuple, RestrictedTypeTransformer "non typed tuple" (TBuiltin B_tuple));
     (TBuiltin B_typing_Tuple,
      RestrictedTypeTransformer "non typed tuple" (TBuiltin B_typing_Tuple));
     (TBuiltin B_typing_NamedTuple,
      RestrictedTypeTransformer "named tuple" (TBuiltin B_typing_NamedTuple))].
Proof. reflexivity. Qed.

Lemma guess_loop_skip self t tr l lt w e :
  transformer_guess_python_type_ self tr lt w = (Raise e, w) ->
  err_isinstance e E_ValueError = true ->
  guess_loop self ((t, tr) :: l) lt w = guess_loop self l lt w.
Proof.
  intros H He. cbn [guess_loop]. unfold try_except. rewrite H.
  cbn [existsb]. rewrite He. reflexivity.
Qed.

Lemma guess_loop_hit self t tr l lt w T w' :
  transformer_guess_python_type_ self tr lt w = (Ok T, w') ->
  guess_loop self ((t, tr) :: l) lt w = (Ok T, w').
Proof.
  intros H. cbn [guess_loop]. unfold try_except. rewrite H. reflexivity.
Qed.

Ltac skip_transformers :=
  repeat (erewrite guess_loop_skip; [| reflexivity | reflexivity]).

Lemma guess_initial_list n lt a w :
  guess_python_type n lt w = (Ok a, w) ->
  guess_loop (engine (S n)) (_REGISTRY initial_world) (lt_collection lt) w
  = (Ok (List_ a), w).
Proof.
  intros H. unfold guess_python_type in H. rewrite initial_registry.
  skip_transformers. apply guess_loop_hit.
  cbn [engine transformer_guess_python_type_ Transformer_guess_python_type
       collection_type lt_collection].
  unfold bind. rewrite H. reflexivity.
Qed.

Lemma guess_initial_dict n lt a w :
  guess_python_type n lt w = (Ok a, w) ->
  guess_loop (engine (S n)) (_REGISTRY initial_world) (lt_map lt) w
  = (Ok (Dict_ str a), w).
Proof.
  intros H. unfold guess_python_type in H. rewrite initial_registry.
  skip_transformers. apply guess_loop_hit.
  cbn [engine transformer_guess_python_type_ Transformer_guess_python_type
       map_value_type lt_map].
  unfold bind. rewrite H. reflexivity.
Qed.

Lemma guess_initial_union n vs ts U w :
  for_each vs (guess_python_type n) w = (Ok ts, w) ->
  typing_Union ts = Ok U ->
  guess_loop (engine (S n)) (_REGISTRY initial_world) (lt_union vs) w = (Ok U, w).
Proof.
  intros H HU. unfold guess_python_type in H. rewrite initial_registry.
  skip_transformers. apply guess_loop_hit.
  cbn [engine transformer_guess_python_type_ Transformer_guess_python_type
       union_type lt_union variants].
  unfold bind. rewrite H. unfold lift. rewrite HU. reflexivity.
Qed.

Lemma flatten_union_scalars ts :
  Forall (fun t => In t all_scalar_types) ts -> flatten_union ts = ts.
Proof.
  induction 1 as [|t ts Ht _ IH]; [reflexivity|].
  unfold flatten_union in *. cbn [flat_map]. rewrite IH.
  simpl in Ht. repeat (destruct Ht as [<- | Ht]; [reflexivity|]). contradiction.
Qed.

Lemma dedup_types_NoDup ts :
  List.NoDup ts -> forall seen, (forall t, In t ts -> ~ In t seen) ->
  dedup_types seen ts = ts.
Proof.
  induction 1 as [|t ts Hnot _ IH]; intros seen Hs; [reflexivity|].
  cbn [dedup_types].
  assert (E : existsb (fun s => bool_decide (s = t)) seen = false).
  { apply not_true_is_false. intros E. apply existsb_exists in E.
    destruct E as (s & Hin & Hst). apply bool_decide_eq_true_1 in Hst. subst s.
    exact (Hs t (or_introl eq_refl) Hin). }
  rewrite E. f_equal. apply IH. intros t' Hin [<- | Hin'].
  - exact (Hnot Hin).
  - exact (Hs t' (or_intror Hin) Hin').
Qed.

Lemma typing_Union_scalars ts :
  Forall (fun t => In t all_scalar_types) ts -> List.NoDup ts -> 2 <= length ts ->
  typing_Union ts = Ok (Union_ ts).
Proof.
  intros Hts Hnd Hlen. unfold typing_Union.
  rewrite (flatten_union_scalars ts Hts).
  rewrite (dedup_types_NoDup ts Hnd []) by (intros t _ []).
  destruct ts as [|t1 [|t2 ts]]; [simpl in Hlen; lia | simpl in Hlen; lia | reflexivity].
Qed.

Lemma guess_scalar_variants n ts w :
  builtin_registry (_REGISTRY w) ->
  Forall (fun t => In t all_scalar_types) ts ->
  for_each (List.map (fun T => _add_tag_to_type (scalar_literal_type T) (scalar_name T)) ts)
    (guess_python_type (2 + n)) w = (Ok ts, w).
Proof.
  intros Hb. induction 1 as [|t ts Ht _ IH]; [reflexivity|].
  cbn [List.map]. apply (for_each_cons_ok _ _ _ _ _ w w w); [|exact IH].
  apply guess_from_initial; [exact Hb|]. apply guess_initial_scalar. exact Ht.
Qed.

Lemma nested_guess T :
  nested_type T = true -> proper_unions T = true ->
  forall n w, builtin_registry (_REGISTRY w) ->
  guess_python_type (fuel_for T + n) (nested_literal_type T) w = (Ok T, w).
Proof.
  induction T as [b | origin args _ IH | base extras _ | c _ _] using PyType_nested_ind;
    intros Hn Hp n w Hb;
    destruct (nested_type_inv _ Hn)
      as [(a & E & Ha) | [(a & E & Ha) | [(ts & E & Hts & Hnd) | Hs]]];
    try discriminate E.
  5, 6, 7: exfalso; apply list_elem_of_In in Hs;
    destruct (simple_scalar_builtin _ Hs) as [_ [b Eb]]; discriminate Eb.
  - destruct (simple_scalar_shape _ Hs) as (Ef & El & _). rewrite Ef, El.
    apply guess_from_initial; [exact Hb|].
    apply guess_initial_scalar. apply simple_scalar_is_scalar. exact Hs.
  - injection E as -> ->.
    change (fuel_for (List_ a) + n) with (2 + (fuel_for a + n)).
    change (nested_literal_type (List_ a)) with (lt_collection (nested_literal_type a)).
    apply guess_from_initial; [exact Hb|]. apply guess_initial_list.
    apply (List.Forall_inv IH); [exact Ha | exact Hp | exact Hb].
  - injection E as -> ->.
    change (fuel_for (Dict_ str a) + n) with (2 + (fuel_for a + n)).
    change (nested_literal_type (Dict_ str a)) with (lt_map (nested_literal_type a)).
    apply guess_from_initial; [exact Hb|]. apply guess_initial_dict.
    apply (List.Forall_inv (List.Forall_inv_tail IH)); [exact Ha | exact Hp | exact Hb].
  - injection E as -> ->. cbn [proper_unions] in Hp. apply Nat.leb_le in Hp.
    change (fuel_for (Union_ ts) + n) with (2 + (2 + n)).
    change (nested_literal_type (Union_ ts)) with (scalar_union_literal_type ts).
    apply guess_from_initial; [exact Hb|].
    apply (guess_initial_union _ _ ts).
    + apply guess_scalar_variants; [exact Hb | exact Hts].
    + apply typing_Union_scalars; assumption.
Qed.

(** X11.  For a type built from the simple scalars with [List], [Dict]
    with [str] keys and unions of scalars, [guess_python_type] returns the
    type from the literal type that [to_literal_type] computed for it. *)
Theorem guess_inverts_to_literal_type T w n :
  builtin_registry (_REGISTRY w) ->
  nested_type T = true -> proper_unions T = true ->
  (lt <- to_literal_type (fuel_for T + n) T ;; guess_python_type (fuel_for T + n) lt) w
  = (Ok T, w).
Proof.
  intros Hb HT Hp. destruct (nested_conversions T HT n) as [Hlt _].
  unfold bind. rewrite (Hlt w Hb). exact (nested_guess T HT Hp n w Hb).
Qed.

Lemma guess_inverts_to_literal_type_witness :
  (lt <- to_literal_type 6 (List_ (Union_ [int; NoneType])) ;; guess_python_type 6 lt)
    initial_world
  = (Ok (List_ (Union_ [int; NoneType])), initial_world).
Proof.
  refine (guess_inverts_to_literal_type (List_ (Union_ [int; NoneType]))
            initial_world 0 _ _ _).
  - split; [exists []; reflexivity | reflexivity].
  - reflexivity.
  - reflexivity.
Defined.

(** ** Maps of named values *)

Lemma dict_get_In {A} (k : string) (l : list (string * A)) a :
  dict_get k l = Some a -> In k (List.map fst l).
Proof.
  induction l as [|[k' a'] l IH]; [discriminate|]. cbn [dict_get List.map fst].
  destruct (bool_decide (k' = k)) eqn:E.
  - intros _. left. apply bool_decide_eq_true_1 in E. exact E.
  - intros H. right. apply IH. exact H.
Qed.

Lemma dict_get_NoDup {A} (k : string) (l : list (string * A)) a :
  List.NoDup (List.map fst l) -> In (k, a) l -> dict_get k l = Some a.
Proof.
  induction l as [|[k' a'] l IH]; intros Hnd Hin; [destruct Hin|].
  cbn [List.map fst] in Hnd. apply List.NoDup_cons_iff in Hnd. destruct Hnd as [Hnot Hnd].
  cbn [dict_get]. destruct Hin as [E | Hin].
  - injection E as -> ->. rewrite bool_decide_eq_true_2 by reflexivity. reflexivity.
  - rewrite bool_decide_eq_false_2; [exact (IH Hnd Hin)|].
    intros ->. apply Hnot. apply (in_map fst) in Hin. exact Hin.
Qed.

Section NamedValues.

Variables (fuel : nat) (type_hints : list (string * PyType)).

Lemma hinted_entries d :
Forall (hinted fuel type_hints) d ->
exists lm, Forall2 (entry_codec fuel type_hints) d lm.
Proof.
induction 1 as [|[k v] d (T & Hh & HT & Hv & Hf) _ [lm IH]].
- exists []. constructor.
- cbn [fst snd] in *.
  destruct (nested_conversions T HT (fuel - fuel_for T)) as [Hlt Hc].
  replace (fuel_for T + (fuel - fuel_for T)) with fuel in * by lia.
  destruct (Hc v Hv) as [lv Hlv].
  exists ((k, lv) :: lm). constructor; [|exact IH].
  split; [reflexivity|]. exists T. cbn [fst snd].
  split; [exact Hh | split; [exact Hlt | exact Hlv]].
Qed.

Lemma entry_codec_keys d lm :
Forall2 (entry_codec fuel type_hints) d lm -> List.map fst lm = List.map fst d.
Proof.
induction 1 as [|kv klv d lm [Hk _] _ IH]; [reflexivity|].
cbn [List.map]. rewrite Hk, IH. reflexivity.
Qed.

Lemma dict_to_literal_map_entries d lm w :
builtin_registry (_REGISTRY w) ->
Forall2 (entry_codec fuel type_hints) d lm ->
forall acc, List.NoDup (List.map fst acc ++ List.map fst lm) ->
dict_to_literal_map_loop fuel d type_hints acc w = (Ok (acc ++ lm)%list, w).
Proof.
intros Hb. induction 1 as [|[k v] [k' lv] d lm [Hk (T & Hh & Hlt & Hc)] _ IH];
  intros acc Hnd.
- cbn [dict_to_literal_map_loop]. rewrite app_nil_r. reflexivity.
- cbn [fst snd] in *. subst k'. destruct (Hc w Hb) as [He _].
  destruct (NoDup_app_fresh _ _ _ Hnd) as [Hfresh Hnd'].
  cbn [dict_to_literal_map_loop]. rewrite Hh. unfold bind at 1.
  unfold try_except, bind. rewrite (Hlt w Hb), He.
  rewrite (dict_set_fresh k lv acc Hfresh), IH.
  + rewrite <- app_assoc. reflexivity.
  + rewrite List.map_app. exact Hnd'.
Qed.

Lemma literal_map_to_kwargs_entries literals d items :
Forall2 (entry_codec fuel type_hints) d items ->
(forall k lv, In (k, lv) items -> dict_get k literals = Some lv) ->
forall acc w, builtin_registry (_REGISTRY w) ->
List.NoDup (List.map fst acc ++ List.map fst items) ->
exists j,
  literal_map_to_kwargs_loop fuel literals items type_hints acc w
  = (Ok (acc ++ d)%list, bump j w).
Proof.
induction 1 as [|[k v] [k' lv] d items [Hk (T & Hh & Hlt & Hc)] _ IH];
  intros Hlit acc w Hb Hnd.
- exists 0. cbn [literal_map_to_kwargs_loop]. rewrite app_nil_r, bump_0. reflexivity.
- cbn [fst snd] in *. subst k'. destruct (Hc w Hb) as [_ [j Hd]].
  destruct (NoDup_app_fresh _ _ _ Hnd) as [Hfresh Hnd'].
  destruct (IH (fun k0 lv0 Hin => Hlit k0 lv0 (or_intror Hin))
              (acc ++ [(k, v)])%list (bump j w) Hb) as [i Hi].
  { rewrite List.map_app. exact Hnd'. }
  exists (i + j).
  cbn [literal_map_to_kwargs_loop]. unfold getitem.
  rewrite (Hlit k lv (or_introl eq_refl)), Hh.
  unfold bind at 1. cbn [lift]. unfold bind at 1. cbn [lift].
  unfold bind at 1. rewrite Hd.
  rewrite (dict_set_fresh k v acc Hfresh), Hi, bump_bump, <- app_assoc. reflexivity.
Qed.

End NamedValues.

(** X12.  A map of named values whose entries all have a hint of a nested
    type converts to a map of literals with the same keys, and
    [literal_map_to_kwargs] gives the values back from it, in the same
    order. *)
Theorem kwargs_round_trip fuel d type_hints w :
  builtin_registry (_REGISTRY w) ->
  List.NoDup (List.map fst d) ->
  Forall (hinted fuel type_hints) d ->
  exists lm k,
    dict_to_literal_map fuel d (Some type_hints) w = (Ok lm, w)
    /\ List.map fst lm = List.map fst d
    /\ literal_map_to_kwargs fuel lm type_hints w = (Ok d, bump k w).
Proof.
  intros Hb Hnd Hh. destruct (hinted_entries fuel type_hints d Hh) as [lm Hf].
  pose proof (entry_codec_keys fuel type_hints d lm Hf) as Hk.
  assert (Hnd' : List.NoDup (List.map fst lm)) by (rewrite Hk; exact Hnd).
  destruct (literal_map_to_kwargs_entries fuel type_hints lm d lm Hf
              (fun k lv Hin => dict_get_NoDup k lm lv Hnd' Hin) [] w Hb Hnd') as [j Hj].
  exists lm, j. split; [|split; [exact Hk|]].
  - unfold dict_to_literal_map.
    exact (dict_to_literal_map_entries fuel type_hints d lm w Hb Hf [] Hnd').
  - unfold literal_map_to_kwargs.
    assert (Hlen : List.length lm <= List.length type_hints).
    { rewrite <- (List.length_map fst lm), <- (List.length_map fst type_hints), Hk.
      apply List.NoDup_incl_length; [exact Hnd|].
      intros k Hin. apply in_map_iff in Hin. destruct Hin as ([k' v] & <- & Hin).
      rewrite List.Forall_forall in Hh. destruct (Hh _ Hin) as (T & HT & _).
      exact (dict_get_In _ _ _ HT). }
    apply Nat.ltb_ge in Hlen. rewrite Hlen. exact Hj.
Qed.

Lemma kwargs_round_trip_witness :
  exists lm k,
    dict_to_literal_map 4 [("n", VInt 3); ("xs", VList [VStr "a"])]
      (Some [("xs", List_ str); ("n", int)]) initial_world = (Ok lm, initial_world)
    /\ List.map fst lm = ["n"; "xs"]
    /\ literal_map_to_kwargs 4 lm [("xs", List_ str); ("n", int)] initial_world
       = (Ok [("n", VInt 3); ("xs", VList [VStr "a"])], bump k initial_world).
Proof.
  refine (kwargs_round_trip 4 [("n", VInt 3); ("xs", VList [VStr "a"])]
            [("xs", List_ str); ("n", int)] initial_world _ _ _).
  - split; [exists []; reflexivity | reflexivity].
  - constructor; [intros [H | []]; discriminate H|].
    constructor; [intros [] | constructor].
  - repeat constructor.
    + exists int. repeat split. cbn. lia.
    + exists (List_ str). repeat split. cbn. lia.
Defined.

(** ** Failures of [dict_to_literal_map] *)

Lemma to_literal_unfold n v t e w :
  is_Annotated t = false ->
  to_literal (2 + n) v t (Some e) w
  = if match v with VNone => bool_decide (union_type e = None) | _ => false end
    then (Raise (TypeTransformerFailedError "Python value cannot be None"), w)
    else match get_transformer t w with
         | (Ok tr, w') =>
             match assert_type tr t v with
             | Ok _ => Transformer_to_literal (engine n) tr v t (Some e) w'
             | Raise err => (Raise err, w')
             | OutOfFuel => (OutOfFuel, w')
             end
         | (Raise err, w') => (Raise err, w')
         | (OutOfFuel, w') => (OutOfFuel, w')
         end.
Proof.
  intros Ha. unfold to_literal. cbn [Nat.add engine to_literal_].
  unfold TypeEngine_to_literal. unfold bind at 1. unfold lift at 1.
  assert (E : (match v with
               | VNone => attr (Some e) (fun e => bool_decide (union_type e = None)) "union_type"
               | _ => Ok false
               end)
              = Ok (match v with VNone => bool_decide (union_type e = None) | _ => false end)).
  { destruct v; reflexivity. }
  rewrite E.
  destruct (match v with VNone => bool_decide (union_type e = None) | _ => false end);
    [reflexivity|].
  unfold bind at 1. destruct (get_transformer t w) as [[tr| |] w']; try reflexivity.
  unfold type_assertions_enabled. unfold bind at 1. unfold lift at 1.
  destruct (assert_type tr t v) as [[]| |]; try reflexivity.
  cbn [transformer_to_literal_]. unfold bind, ret.
  destruct (Transformer_to_literal (engine n) tr v t (Some e) w') as [[lv| |] w''];
    try reflexivity.
  destruct t; try reflexivity. discriminate Ha.
Qed.

Lemma scalar_to_literal_mismatch n T v e w :
  builtin_registry (_REGISTRY w) -> In T simple_scalar_types ->
  type_of v <> T -> union_type e = None ->
  exists msg, to_literal (2 + n) v T (Some e) w = (Raise (TypeTransformerFailedError msg), w).
Proof.
  intros Hb HT Hne Hu. pose proof (simple_scalar_is_scalar T HT) as HT'.
  destruct (scalar_lookup w T Hb HT') as (tr & Htr & Hg).
  destruct (scalar_transformer_shape T tr HT' Htr) as (name & k & enc & dec & ->).
  rewrite to_literal_unfold
    by (simpl in HT; repeat (destruct HT as [<- | HT]; [reflexivity|]); contradiction).
  destruct (match v with VNone => bool_decide (union_type e = None) | _ => false end);
    [eexists; reflexivity|].
  rewrite Hg.
  assert (Hat : assert_type (SimpleTransformer name T (lt_simple k) enc dec) T v = Ok tt
                \/ exists msg, assert_type (SimpleTransformer name T (lt_simple k) enc dec) T v
                               = Raise (TypeTransformerFailedError msg)).
  { simpl in HT. repeat (destruct HT as [<- | HT]; [|]); try contradiction.
    all: cbn [assert_type has_origin int float bool_ str datetime_ timedelta_];
      unfold isinstance; cbn [as_class_for_check isclass int float bool_ str datetime_ timedelta_].
    all: match goal with
         | |- context [issubclass ?a ?b] => destruct (issubclass a b)
         end; [left; reflexivity | right; eexists; reflexivity]. }
  destruct Hat as [-> | [msg ->]]; [|eexists; reflexivity].
  cbn [Transformer_to_literal]. unfold Simple_to_literal.
  rewrite bool_decide_eq_false_2 by exact Hne. eexists. reflexivity.
Qed.

Lemma dict_to_literal_map_prefix fuel type_hints d1 w :
  builtin_registry (_REGISTRY w) ->
  Forall (hinted fuel type_hints) d1 ->
  forall acc, exists acc', forall rest,
    dict_to_literal_map_loop fuel (d1 ++ rest) type_hints acc w
    = dict_to_literal_map_loop fuel rest type_hints acc' w.
Proof.
  intros Hb. induction 1 as [|[k v] d1 (T & Hh & HT & Hv & Hf) _ IH]; intros acc.
  - exists acc. reflexivity.
  - cbn [fst snd] in *.
    destruct (nested_conversions T HT (fuel - fuel_for T)) as [Hlt Hc].
    replace (fuel_for T + (fuel - fuel_for T)) with fuel in * by lia.
    destruct (Hc v Hv) as [lv Hlv]. destruct (Hlv w Hb) as [He _].
    destruct (IH (dict_set k lv acc)) as [acc' Hacc]. exists acc'. intros rest.
    cbn [app dict_to_literal_map_loop]. rewrite Hh. unfold bind at 1.
    unfold try_except, bind. rewrite (Hlt w Hb), He. apply Hacc.
Qed.

(** X13.  When the value of an entry is not of the scalar type that its
    hint names, [dict_to_literal_map] raises [FlyteTypeException]: the
    [TypeTransformerFailedError] of the conversion is a [TypeError], which
    the loop catches and replaces. *)
Theorem dict_to_literal_map_type_mismatch n d1 k v d2 type_hints T w :
  builtin_registry (_REGISTRY w) ->
  Forall (hinted (2 + n) type_hints) d1 ->
  dict_get k type_hints = Some T -> In T simple_scalar_types -> type_of v <> T ->
  exists msg,
    dict_to_literal_map (2 + n) (d1 ++ (k, v) :: d2) (Some type_hints) w
    = (Raise (FlyteTypeException msg), w).
Proof.
  intros Hb Hd1 Hh HT Hne. unfold dict_to_literal_map.
  destruct (dict_to_literal_map_prefix (2 + n) type_hints d1 w Hb Hd1 []) as [acc Hacc].
  rewrite Hacc. cbn [dict_to_literal_map_loop]. rewrite Hh.
  pose proof (scalar_to_literal_type w Hb n T (simple_scalar_is_scalar T HT)) as Hlt.
  destruct (scalar_to_literal_mismatch n T v (scalar_literal_type T) w Hb HT Hne)
    as [msg Hm].
  { simpl in HT. repeat (destruct HT as [<- | HT]; [reflexivity|]). contradiction. }
  eexists. unfold bind at 1. unfold try_except, bind. rewrite Hlt, Hm. reflexivity.
Qed.

Lemma dict_to_literal_map_type_mismatch_witness :
  exists msg,
    dict_to_literal_map 2 ([("a", VStr "x")] ++ ("n", VBool true) :: [("b", VInt 1)])
      (Some [("a", str); ("n", int); ("b", int)]) initial_world
    = (Raise (FlyteTypeException msg), initial_world).
Proof.
  refine (dict_to_literal_map_type_mismatch 0 [("a", VStr "x")] "n" (VBool true)
            [("b", VInt 1)] [("a", str); ("n", int); ("b", int)] int initial_world
            _ _ _ _ _).
  - split; [exists []; reflexivity | reflexivity].
  - repeat constructor. exists str. repeat split. cbn. lia.
  - reflexivity.
  - left. reflexivity.
  - discriminate.
Defined.

(** X14.  A list value without a hint is converted at the bare type
    [list], whose literal type cannot be computed: the [ValueError] of
    [ListTransformer.get_literal_type] leaves [dict_to_literal_map] as it
    is, it is no [TypeError] and is not replaced. *)
Theorem dict_to_literal_map_untyped_list n d1 k items d2 type_hints w :
  builtin_registry (_REGISTRY w) ->
  Forall (hinted (2 + n) type_hints) d1 ->
  dict_get k type_hints = None ->
  dict_to_literal_map (2 + n) (d1 ++ (k, VList items) :: d2) (Some type_hints) w
  = (Raise (ValueError "Type of Generic List type is not supported"), w).
Proof.
  intros Hb Hd1 Hh. unfold dict_to_literal_map.
  destruct (dict_to_literal_map_prefix (2 + n) type_hints d1 w Hb Hd1 []) as [acc Hacc].
  rewrite Hacc. cbn [dict_to_literal_map_loop type_of]. rewrite Hh.
  assert (Hg : get_transformer (TBuiltin B_list) w = (Ok ListTransformer, w)).
  { apply get_transformer_registered; [|reflexivity].
    destruct Hb as [[extra ->] _]. apply dict_get_app. reflexivity. }
  unfold bind at 1. unfold try_except at 1. unfold bind at 1.
  rewrite (to_literal_type_step n (TBuiltin B_list) ListTransformer w w Hg eq_refl).
  reflexivity.
Qed.

Lemma dict_to_literal_map_untyped_list_witness :
  dict_to_literal_map 2 ([("a", VStr "x")] ++ ("xs", VList [VInt 1]) :: [])
    (Some [("a", str)]) initial_world
  = (Raise (ValueError "Type of Generic List type is not supported"), initial_world).
Proof.
  refine (dict_to_literal_map_untyped_list 0 [("a", VStr "x")] "xs" [VInt 1] []
            [("a", str)] initial_world _ _ _).
  - split; [exists []; reflexivity | reflexivity].
  - repeat constructor. exists str. repeat split. cbn. lia.
  - reflexivity.
Defined.

(** ** What a lookup does to the registry *)

Lemma registry_extended_refl w : registry_extended w w.
Proof. exists []. split; [symmetry; apply app_nil_r | constructor]. Qed.

Lemma registry_extended_trans w1 w2 w3 :
  registry_extended w1 w2 -> registry_extended w2 w3 -> registry_extended w1 w3.
Proof.
  intros (e1 & H1 & F1) (e2 & H2 & F2). exists (e1 ++ e2)%list. split.
  - rewrite H2, H1, app_assoc. reflexivity.
  - apply Forall_app. split; assumption.
Qed.

Lemma dict_set_app_None {A} (k : PyType) (a : A) l e :
  dict_get k l = None -> dict_set k a (l ++ e)%list = (l ++ dict_set k a e)%list.
Proof.
  induction l as [|[k' a'] l IH]; intros H; [reflexivity|].
  cbn [dict_get] in H. cbn [app dict_set].
  destruct (bool_decide (k' = k)); [discriminate H|]. rewrite (IH H). reflexivity.
Qed.

Lemma dict_set_Forall {A} (P : PyType -> Prop) (k : PyType) (a : A) e :
  P k -> Forall (fun kv => P (fst kv)) e -> Forall (fun kv => P (fst kv)) (dict_set k a e).
Proof.
  intros Hk. induction 1 as [|[k' a'] e Hkv He IH]; cbn [dict_set].
  - repeat constructor. exact Hk.
  - destruct (bool_decide (k' = k)); constructor; assumption.
Qed.

Lemma set_entry_extends k tr w0 w1 :
  dict_get k (_REGISTRY w0) = None -> has_origin k = false ->
  registry_extended w0 w1 ->
  registry_extended w0 (snd (set_registry_entry k tr w1)).
Proof.
  intros Hk Ho (e & He & Fe). exists (dict_set k tr e). split.
  - cbn. rewrite He. apply dict_set_app_None. exact Hk.
  - apply (dict_set_Forall (fun t => has_origin t = false)); assumption.
Qed.

Lemma steps_4_5_extend t w :
  dict_get t (_REGISTRY w) = None -> has_origin t = false ->
  registry_extended w
    (snd (match inheritance_match t (_REGISTRY w) with
          | Some tr => ret tr
          | None =>
              log_warning ("No applicable TypeTransformer found. Falling back to pickling for type "
                           ++ type_name t) ;;;
              set_registry_entry t (FlytePickleTransformer t) ;;;
              ret (FlytePickleTransformer t)
          end w)).
Proof.
  intros Hk Ho. destruct (inheritance_match t (_REGISTRY w)) as [tr|].
  - apply registry_extended_refl.
  - exact (set_entry_extends t _ w _ Hk Ho (registry_extended_refl _)).
Qed.

Lemma init_extends fs :
  Forall (fun f => forall w, registry_extended w (snd (get_transformer (field_type f) w))) fs ->
  forall acc w,
    registry_extended w (snd (DataclassTransformer_init get_transformer fs acc w)).
Proof.
  induction 1 as [|f fs Hf _ IH]; intros acc w.
  - apply registry_extended_refl.
  - cbn [DataclassTransformer_init]. unfold bind. specialize (Hf w).
    destruct (get_transformer (field_type f) w) as [[tr|e|] w1]; cbn [snd] in *;
      try exact Hf.
    exact (registry_extended_trans _ _ _ Hf (IH _ w1)).
Qed.

Lemma get_transformer_extends_strong t :
  (forall w, registry_extended w (snd (get_transformer t w)))
  /\ (forall base extras, t = TAnnotated base extras ->
      forall w, registry_extended w (snd (get_transformer base w))).
Proof.
  induction t as [b|origin args _ _|base extras IH|c _ IHf] using PyType_nested_ind.
  - split; [|intros ? ? H; discriminate H].
    intros w. cbn [get_transformer]. unfold bind, get_registry.
    destruct (dict_get (TBuiltin b) (_REGISTRY w)) as [tr|] eqn:E.
    + apply registry_extended_refl.
    + exact (steps_4_5_extend (TBuiltin b) w E eq_refl).
  - split; [|intros ? ? H; discriminate H].
    intros w. cbn [get_transformer]. unfold bind, get_registry.
    destruct (dict_get (TGeneric origin args) (_REGISTRY w)) as [tr|];
      [apply registry_extended_refl|].
    destruct (dict_get origin (_REGISTRY w)) as [tr|]; apply registry_extended_refl.
  - destruct IH as [IH IH2].
    split; [|intros ? ? H; injection H as <- _; exact IH].
    intros w. destruct (is_Annotated base) eqn:Hb.
    + destruct base as [| |base2 extras2|]; try discriminate Hb.
      specialize (IH2 base2 extras2 eq_refl w).
      cbn [get_transformer] in *. unfold bind, get_registry in *.
      destruct (dict_get (TAnnotated base2 extras2) (_REGISTRY w)) as [tr|] eqn:E.
      * apply registry_extended_refl.
      * exact IH2.
    + rewrite (get_transformer_Annotated base extras w Hb). apply IH.
  - split; [|intros ? ? H; discriminate H].
    intros w. destruct c as [m q bs [fs|] ms].
    + rewrite (get_transformer_dataclass m q bs fs ms w). cbv zeta.
      destruct (dict_get (TClassOf m q bs (Some fs) ms) (_REGISTRY w)) as [tr|] eqn:E.
      * apply registry_extended_refl.
      * assert (Hfs : Forall (fun f => forall w,
                    registry_extended w (snd (get_transformer (field_type f) w))) fs).
        { specialize (IHf fs eq_refl). eapply Forall_impl; [exact IHf|].
          intros f [Hf _]. exact Hf. }
        pose proof (init_extends fs Hfs [] w) as Hi. unfold bind.
        destruct (DataclassTransformer_init get_transformer fs [] w) as [[trs|e|] w1];
          cbn [snd] in Hi; try exact Hi.
        exact (set_entry_extends _ _ w w1 E eq_refl Hi).
    + cbn [get_transformer]. unfold bind, get_registry.
      destruct (dict_get (TClassOf m q bs None ms) (_REGISTRY w)) as [tr|] eqn:E.
      * apply registry_extended_refl.
      * exact (steps_4_5_extend (TClassOf m q bs None ms) w E eq_refl).
Qed.

Lemma builtin_registry_extended w w' :
  registry_extended w w' -> builtin_registry (_REGISTRY w) ->
  builtin_registry (_REGISTRY w').
Proof.
  intros (e & He & Fe) [[extra Hx] Hg]. split.
  - exists (extra ++ e)%list. rewrite He, Hx, app_assoc. reflexivity.
  - intros origin args. rewrite He. clear He.
    assert (Hn : forall l : list (PyType * Transformer),
               dict_get (TGeneric origin args) l = None ->
               dict_get (TGeneric origin args) (l ++ e)%list = None).
    { induction l as [|[k a] l IH]; cbn [app dict_get].
      - intros _. induction Fe as [|[k a] e Hk _ IHe]; [reflexivity|].
        cbn [dict_get]. rewrite bool_decide_eq_false_2; [exact IHe|].
        intros ->. discriminate Hk.
      - destruct (bool_decide (k = TGeneric origin args)); [discriminate|exact IH]. }
    apply Hn, Hg.
Qed.

(** X15.  A lookup only ever appends to the registry: the registry after
    [get_transformer] is the registry before it, followed by entries whose
    keys are classes or built-in types; no entry is changed or removed, and
    no parameterized generic becomes a key. *)
Theorem get_transformer_extends_registry t w :
  registry_extended w (snd (get_transformer t w)).
Proof. apply get_transformer_extends_strong. Qed.

(** X16.  The built-in registrations survive every lookup: whatever type
    is looked up, and whether the lookup returns or raises, the registry
    still starts with the entries of the module and has no parameterized
    generic as a key. *)
Theorem get_transformer_keeps_builtins t w :
  builtin_registry (_REGISTRY w) ->
  builtin_registry (_REGISTRY (snd (get_transformer t w))).
Proof.
  intros Hb. exact (builtin_registry_extended _ _ (proj1 (get_transformer_extends_strong t) w) Hb).
Qed.

Lemma get_transformer_keeps_builtins_witness :
  builtin_registry (_REGISTRY (snd (get_transformer (List_ PointA) initial_world))).
Proof.
  apply get_transformer_keeps_builtins.
  split; [exists []; reflexivity | reflexivity].
Defined.

(** ** What the conversions do to the registry *)

Lemma keeps_same {A} (m : M A) :
  (forall w, _REGISTRY (snd (m w)) = _REGISTRY w) -> keeps m.
Proof.
  intros H w. exists []. split; [rewrite H, app_nil_r; reflexivity | constructor].
Qed.

Lemma keeps_ret {A} (a : A) : keeps (ret a).
Proof. apply keeps_same. reflexivity. Qed.

Lemma keeps_raise {A} e : keeps (@raise A e).
Proof. apply keeps_same. reflexivity. Qed.

Lemma keeps_out_of_fuel {A} : keeps (@out_of_fuel A).
Proof. apply keeps_same. reflexivity. Qed.

Lemma keeps_lift {A} (r : Result A) : keeps (lift r).
Proof. apply keeps_same. reflexivity. Qed.

Lemma keeps_bind {A B} (m : M A) (k : A -> M B) :
  keeps m -> (forall a, keeps (k a)) -> keeps (bind m k).
Proof.
  intros Hm Hk w. unfold bind. specialize (Hm w).
  destruct (m w) as [[a|e|] w1]; cbn [snd] in *; try exact Hm.
  exact (registry_extended_trans _ _ _ Hm (Hk a w1)).
Qed.

Lemma keeps_try_except {A} (m : M A) classes handler :
  keeps m -> (forall e, keeps (handler e)) -> keeps (try_except m classes handler).
Proof.
  intros Hm Hh w. unfold try_except. specialize (Hm w).
  destruct (m w) as [[a|e|] w1]; cbn [snd] in *; try exact Hm.
  destruct (existsb (err_isinstance e) classes); [|exact Hm].
  exact (registry_extended_trans _ _ _ Hm (Hh e w1)).
Qed.

Lemma keeps_for_each {A B} (xs : list A) (body : A -> M B) :
  (forall x, keeps (body x)) -> keeps (for_each xs body).
Proof.
  intros Hb. induction xs as [|x xs IH]; cbn [for_each].
  - apply keeps_ret.
  - apply keeps_bind; [apply Hb|]. intros b.
    apply keeps_bind; [exact IH|]. intros bs. apply keeps_ret.
Qed.

Lemma keeps_get_transformer t : keeps (get_transformer t).
Proof. intros w. apply get_transformer_extends_strong. Qed.

Lemma keeps_read_file path : keeps (read_file path).
Proof.
  apply keeps_same. intros w. unfold read_file.
  destruct (dict_get path (file_store w)); reflexivity.
Qed.

Lemma keeps_load_type_from_tag tag : keeps (load_type_from_tag tag).
Proof.
  apply keeps_same. intros w. unfold load_type_from_tag.
  destruct (dict_get tag (modules w)); reflexivity.
Qed.

Ltac keeps_step :=
  match goal with
  | |- keeps (bind _ _) => apply keeps_bind; [|intros ?]
  | |- keeps (ret _) => apply keeps_ret
  | |- keeps (raise _) => apply keeps_raise
  | |- keeps (lift _) => apply keeps_lift
  | |- keeps out_of_fuel => apply keeps_out_of_fuel
  | |- keeps cannot_reverse => apply keeps_raise
  | |- keeps (try_except _ _ _) => apply keeps_try_except; [|intros ?]
  | |- keeps (for_each _ _) => apply keeps_for_each; intros ?
  | |- keeps (get_transformer _) => apply keeps_get_transformer
  | |- keeps (read_file _) => apply keeps_read_file
  | |- keeps (load_type_from_tag _) => apply keeps_load_type_from_tag
  | |- keeps get_registry => apply keeps_same; reflexivity
  | |- keeps count_decode => apply keeps_same; reflexivity
  | |- keeps (fresh_path _) => apply keeps_same; reflexivity
  | |- keeps (write_file _ _) => apply keeps_same; reflexivity
  | |- keeps (copy_file _ _) => unfold copy_file
  | |- keeps (match ?x with _ => _ end) => destruct x
  | |- keeps (if ?b then _ else _) => destruct b
  | H : engine_keeps ?self |- keeps (to_literal_type_ ?self _) => apply H
  | H : engine_keeps ?self |- keeps (to_literal_ ?self _ _ _) => apply H
  | H : engine_keeps ?self |- keeps (to_python_value_ ?self _ _) => apply H
  | H : engine_keeps ?self |- keeps (guess_python_type_ ?self _) => apply H
  | H : engine_keeps ?self |- keeps (get_literal_type_ ?self _ _) => apply H
  | H : engine_keeps ?self |- keeps (transformer_to_literal_ ?self _ _ _ _) => apply H
  | H : engine_keeps ?self |- keeps (transformer_to_python_value_ ?self _ _ _) => apply H
  | H : engine_keeps ?self |- keeps (transformer_guess_python_type_ ?self _ _) => apply H
  | |- keeps _ => assumption
  | |- keeps _ => progress cbv zeta
  end.

Ltac keeps_all := repeat keeps_step.

Section EngineKeeps.

Variable self : Engine.
Hypothesis Hself : engine_keeps self.

Lemma keeps_TypeEngine_to_literal_type t : keeps (TypeEngine_to_literal_type self t).
Proof. unfold TypeEngine_to_literal_type. keeps_all. Qed.

Lemma keeps_Dataclass_subtypes trs acc : keeps (Dataclass_subtypes self trs acc).
Proof.
revert acc. induction trs as [|[f tr] trs IH]; intros acc; cbn [Dataclass_subtypes].
- keeps_all.
- keeps_step; [keeps_all|]. apply IH.
Qed.

Lemma keeps_Transformer_get_literal_type tr t :
keeps (Transformer_get_literal_type self tr t).
Proof.
destruct tr; cbn [Transformer_get_literal_type];
  unfold Dataclass_get_literal_type, Protobuf_get_literal_type,
    FlytePickle_get_literal_type, List_get_literal_type, Union_get_literal_type,
    Dict_get_literal_type, Enum_get_literal_type;
  keeps_all; try apply keeps_Dataclass_subtypes.
Qed.

Lemma keeps_Dataclass_literals trs v subtypes acc :
keeps (Dataclass_literals self trs v subtypes acc).
Proof.
revert acc. induction trs as [|[f tr] trs IH]; intros acc; cbn [Dataclass_literals].
- keeps_all.
- keeps_step; [keeps_all|]. keeps_step; [keeps_all|]. keeps_step; [keeps_all|].
  apply IH.
Qed.

Lemma keeps_Union_to_literal_loop variants v e found :
keeps (Union_to_literal_loop self variants v e found).
Proof.
revert found. induction variants as [|t rest IH]; intros found;
  cbn [Union_to_literal_loop].
- keeps_all.
- keeps_step; [keeps_all|].
  destruct a as [[trans res]|]; [|apply IH].
  keeps_step; [keeps_all|].
  destruct a as [res_type|]; [|apply IH].
  destruct found; [keeps_all | apply IH].
Qed.

Lemma keeps_Dict_to_literal_loop items t e acc :
keeps (Dict_to_literal_loop self items t e acc).
Proof.
revert acc. induction items as [|[k v] items IH]; intros acc;
  cbn [Dict_to_literal_loop].
- keeps_all.
- destruct k; try (keeps_all; fail).
  keeps_step; [keeps_all|].
  destruct a as [|k_type [|v_type [|]]]; try (keeps_all; fail).
  keeps_step; [keeps_all|]. keeps_step; [keeps_all|]. apply IH.
Qed.

Lemma keeps_Transformer_to_literal tr v t e :
keeps (Transformer_to_literal self tr v t e).
Proof.
destruct tr; cbn [Transformer_to_literal];
  unfold Simple_to_literal, Dataclass_to_literal, Protobuf_to_literal,
    FlytePickle_to_literal, List_to_literal, Union_to_literal, Dict_to_literal,
    Enum_to_literal;
  keeps_all;
  first [apply keeps_Dataclass_literals | apply keeps_Union_to_literal_loop
        | apply keeps_Dict_to_literal_loop].
Qed.

Lemma keeps_TypeEngine_to_literal v t e : keeps (TypeEngine_to_literal self v t e).
Proof. unfold TypeEngine_to_literal. keeps_all. Qed.

Lemma keeps_Dataclass_fields trs lv acc : keeps (Dataclass_fields self trs lv acc).
Proof.
revert acc. induction trs as [|[f tr] trs IH]; intros acc; cbn [Dataclass_fields].
- keeps_all.
- keeps_step; [keeps_all|].
  destruct (dict_get (field_name f) a) as [sub|]; [|apply IH].
  keeps_step; [keeps_all|]. apply IH.
Qed.

Lemma keeps_Union_to_python_value_loop variants lv ut tag found :
keeps (Union_to_python_value_loop self variants lv ut tag found).
Proof.
revert found. induction variants as [|v rest IH]; intros found;
  cbn [Union_to_python_value_loop].
- keeps_all.
- keeps_step; [keeps_all|]. destruct a; apply IH.
Qed.

Lemma keeps_Dict_to_python_value_loop literals tp acc :
keeps (Dict_to_python_value_loop self literals tp acc).
Proof.
revert acc. induction literals as [|[k v] literals IH]; intros acc;
  cbn [Dict_to_python_value_loop].
- keeps_all.
- keeps_step; [keeps_all|]. keeps_step; [keeps_all|]. apply IH.
Qed.

Lemma keeps_Transformer_to_python_value tr lv t :
keeps (Transformer_to_python_value self tr lv t).
Proof.
destruct tr; cbn [Transformer_to_python_value];
  unfold Simple_to_python_value, Dataclass_to_python_value, Protobuf_to_python_value,
    FlytePickle_to_python_value, List_to_python_value, Union_to_python_value,
    Dict_to_python_value, IO_to_python_value, Enum_to_python_value;
  keeps_all;
  first [apply keeps_Dataclass_fields | apply keeps_Union_to_python_value_loop
        | apply keeps_Dict_to_python_value_loop].
Qed.

Lemma keeps_TypeEngine_to_python_value lv t :
keeps (TypeEngine_to_python_value self lv t).
Proof. unfold TypeEngine_to_python_value. keeps_all. Qed.

Lemma keeps_Transformer_guess_python_type tr lt :
keeps (Transformer_guess_python_type self tr lt).
Proof. destruct tr; cbn [Transformer_guess_python_type]; keeps_all. Qed.

Lemma keeps_guess_loop reg lt : keeps (guess_loop self reg lt).
Proof.
induction reg as [|[t tr] reg IH]; cbn [guess_loop]; keeps_all.
Qed.

Lemma keeps_TypeEngine_guess_python_type lt :
keeps (TypeEngine_guess_python_type self lt).
Proof.
unfold TypeEngine_guess_python_type. keeps_step; [keeps_all|]. apply keeps_guess_loop.
Qed.

End EngineKeeps.

Lemma engine_keeps_registry fuel : engine_keeps (engine fuel).
Proof.
  induction fuel as [|fuel IH].
  - repeat split; intros; apply keeps_out_of_fuel.
  - cbn [engine]. unfold engine_keeps.
    cbn [to_literal_type_ to_literal_ to_python_value_ guess_python_type_
         get_literal_type_ transformer_to_literal_ transformer_to_python_value_
         transformer_guess_python_type_].
    split; [intros; apply keeps_TypeEngine_to_literal_type; exact IH|].
    split; [intros; apply keeps_TypeEngine_to_literal; exact IH|].
    split; [intros; apply keeps_TypeEngine_to_python_value; exact IH|].
    split; [intros; apply keeps_TypeEngine_guess_python_type; exact IH|].
    split; [intros; apply keeps_Transformer_get_literal_type; exact IH|].
    split; [intros; apply keeps_Transformer_to_literal; exact IH|].
    split; [intros; apply keeps_Transformer_to_python_value; exact IH|].
    intros; apply keeps_Transformer_guess_python_type; exact IH.
Qed.

(** X17.  No conversion of the engine changes or removes a registration:
    after [to_literal_type], [to_literal], [to_python_value] or
    [guess_python_type], whatever their arguments and whether they return or
    raise, the registry is the registry before the call followed by entries
    for classes and built-in types. *)
Theorem conversions_extend_registry fuel :
  (forall t w, registry_extended w (snd (to_literal_type fuel t w)))
  /\ (forall v t e w, registry_extended w (snd (to_literal fuel v t e w)))
  /\ (forall lv t w, registry_extended w (snd (to_python_value fuel lv t w)))
  /\ (forall lt w, registry_extended w (snd (guess_python_type fuel lt w))).
Proof.
  destruct (engine_keeps_registry fuel) as (H1 & H2 & H3 & H4 & _).
  split; [exact H1|]. split; [exact H2|]. split; [exact H3 | exact H4].
Qed.

(** ** Enumerations *)

Lemma inheritance_match_prefix t l e tr :
  inheritance_match t l = Some tr -> inheritance_match t (l ++ e)%list = Some tr.
Proof.
  induction l as [|[base tr'] l IH]; [discriminate|]. cbn [inheritance_match app].
  destruct (bool_decide (base = TBuiltin B_None)); [exact IH|].
  destruct (as_class_for_check base) as [c|]; [|exact IH].
  destruct (issubclass (metatype t) c || (isclass t && issubclass t c)); [trivial | exact IH].
Qed.

Lemma enum_values_strings ms :
  string_valued ms = true -> enum_values ms = Ok (member_strings ms).
Proof.
  induction ms as [|[name [| | |s]] ms IH]; intros H; try discriminate H; [reflexivity|].
  cbn [string_valued forallb snd] in H. cbn [enum_values]. rewrite (IH H). reflexivity.
Qed.

Lemma find_member (ms : list (string * Const)) name s :
  List.NoDup (List.map snd ms) -> In (name, CStr s) ms ->
  List.find (fun m => bool_decide (Some (snd m) = Some (CStr s))) ms = Some (name, CStr s).
Proof.
  induction ms as [|[name' val] ms IH]; intros Hnd Hin; [destruct Hin|].
  cbn [List.map snd] in Hnd. apply List.NoDup_cons_iff in Hnd. destruct Hnd as [Hnot Hnd].
  cbn [List.find snd]. destruct Hin as [E | Hin].
  - injection E as -> ->. rewrite bool_decide_eq_true_2 by reflexivity. reflexivity.
  - rewrite bool_decide_eq_false_2; [exact (IH Hnd Hin)|].
    intros E. injection E as ->. apply Hnot.
    exact (in_map snd _ _ Hin).
Qed.

Lemma issubclass_refl t : issubclass t t = true.
Proof.
  destruct t; cbn [issubclass]; rewrite bool_decide_eq_true_2 by reflexivity; reflexivity.
Qed.

Section Enumerations.

Variables (m q : string) (ms : list (string * Const)).


Lemma enum_lookup_transformer w :
builtin_registry (_REGISTRY w) ->
dict_get (TClass (enum_class m q ms)) (_REGISTRY w) = None ->
get_transformer (TClass (enum_class m q ms)) w = (Ok EnumTransformer, w).
Proof.
intros [[extra He] _] Hn. unfold enum_class in *. cbn [get_transformer].
unfold bind, get_registry. rewrite Hn. rewrite He.
rewrite (inheritance_match_prefix _ _ extra EnumTransformer); reflexivity.
Qed.

Lemma enum_to_literal_type n w name s :
builtin_registry (_REGISTRY w) ->
dict_get (TClass (enum_class m q ms)) (_REGISTRY w) = None ->
string_valued ms = true -> In (name, CStr s) ms ->
to_literal_type (2 + n) (TClass (enum_class m q ms)) w = (Ok (lt_enum (member_strings ms)), w).
Proof.
intros Hb Hn Hs Hin.
rewrite (to_literal_type_step n _ EnumTransformer w w (enum_lookup_transformer w Hb Hn) eq_refl).
cbn [Transformer_get_literal_type]. unfold Enum_get_literal_type. cbn [enum_class].
change (metatype (TClassOf m q [TBuiltin B_enum_Enum] None ms)) with (TBuiltin B_EnumMeta).
rewrite bool_decide_eq_true_2 by reflexivity. cbn [negb].
pose proof (enum_values_strings ms Hs) as Hv.
destruct ms as [|[name0 [| | |s0]] ms']; try discriminate Hs; [destruct Hin|].
unfold bind, lift. rewrite Hv. reflexivity.
Qed.

Lemma enum_member_codec n name s :
List.NoDup (List.map snd ms) -> In (name, CStr s) ms ->
forall e w, builtin_registry (_REGISTRY w) ->
dict_get (TClass (enum_class m q ms)) (_REGISTRY w) = None ->
to_literal (2 + n) (VEnumMember (enum_class m q ms) name (CStr s)) (TClass (enum_class m q ms)) (Some e) w
= (Ok (Literal_primitive (mkPrimitive None None (Some s) None None None)), w)
/\ to_python_value (2 + n)
     (Literal_primitive (mkPrimitive None None (Some s) None None None)) (TClass (enum_class m q ms)) w
   = (Ok (VEnumMember (enum_class m q ms) name (CStr s)), bump 1 w).
Proof.
intros Hnd Hin e w Hb Hn. split.
- rewrite (to_literal_step n (VEnumMember (enum_class m q ms) name (CStr s)) _ e EnumTransformer w w I
             (enum_lookup_transformer w Hb Hn) eq_refl).
  + reflexivity.
  + cbn [assert_type has_origin]. unfold isinstance.
    cbn [as_class_for_check type_of enum_class]. rewrite issubclass_refl. reflexivity.
- rewrite (to_python_value_step n _ _ EnumTransformer w (bump 1 w)
             (enum_lookup_transformer (bump 1 w) Hb Hn)).
  cbn [Transformer_to_python_value]. unfold Enum_to_python_value, bind, lift.
  cbn [scalar_primitive Literal_primitive Literal_scalar scalar attr rbind primitive
       string_value opt_val].
  unfold enum_lookup. cbn [strip_Annotated enum_class members to_const].
  rewrite (find_member ms name s Hnd Hin). reflexivity.
Qed.

End Enumerations.

(** X18.  A member of a plain enumeration with string values comes back
    from the round trip through the engine: the class is resolved to the
    enum transformer by its base [enum.Enum], no registration is added, and
    the member is found again by its value. *)
Theorem enum_round_trip n m q ms name s w :
  builtin_registry (_REGISTRY w) ->
  dict_get (TClass (enum_class m q ms)) (_REGISTRY w) = None ->
  string_valued ms = true -> List.NoDup (List.map snd ms) -> In (name, CStr s) ms ->
  round_trip (2 + n) (VEnumMember (enum_class m q ms) name (CStr s))
    (TClass (enum_class m q ms)) w
  = (Ok (VEnumMember (enum_class m q ms) name (CStr s)), bump 1 w).
Proof.
  intros Hb Hn Hs Hnd Hin. unfold round_trip, bind.
  rewrite (enum_to_literal_type m q ms n w name s Hb Hn Hs Hin).
  destruct (enum_member_codec m q ms n name s Hnd Hin (lt_enum (member_strings ms)) w Hb Hn)
    as [He Hd].
  rewrite He. exact Hd.
Qed.

Lemma enum_round_trip_witness :
  round_trip 2 (VEnumMember (enum_class "app" "Color" [("RED", CStr "red"); ("BLUE", CStr "blue")])
                  "BLUE" (CStr "blue"))
    (TClass (enum_class "app" "Color" [("RED", CStr "red"); ("BLUE", CStr "blue")]))
    initial_world
  = (Ok (VEnumMember (enum_class "app" "Color" [("RED", CStr "red"); ("BLUE", CStr "blue")])
           "BLUE" (CStr "blue")),
     bump 1 initial_world).
Proof.
  refine (enum_round_trip 0 "app" "Color" [("RED", CStr "red"); ("BLUE", CStr "blue")]
            "BLUE" "blue" initial_world _ _ _ _ _).
  - split; [exists []; reflexivity | reflexivity].
  - reflexivity.
  - reflexivity.
  - constructor; [intros [H | []]; discriminate H|].
    constructor; [intros [] | constructor].
  - right. left. reflexivity.
Defined.

(** ** Classes resolved by inheritance *)

(** X19.  A class that is not registered and inherits from a scalar type
    is resolved, by the walk over the registry, to the transformer of that
    scalar type; an instance of the class can then not be encoded, since
    the transformer wants a value whose type is the scalar type itself.  An
    enumeration that mixes in [str] is such a class. *)
Theorem inherited_scalar_transformer_rejects n c T tr v e w :
  builtin_registry (_REGISTRY w) ->
  dict_get (TClass c) (_REGISTRY w) = None -> dataclass_fields c = None ->
  In T all_scalar_types -> scalar_transformer T = Some tr ->
  inheritance_match (TClass c) (_REGISTRY initial_world) = Some tr ->
  type_of v = TClass c ->
  get_transformer (TClass c) w = (Ok tr, w)
  /\ exists msg,
       to_literal (2 + n) v (TClass c) (Some e) w
       = (Raise (TypeTransformerFailedError msg), w).
Proof.
  intros Hb Hn Hd HT Htr Hm Hv.
  assert (Hg : get_transformer (TClass c) w = (Ok tr, w)).
  { destruct Hb as [[extra He] _]. destruct c as [m q bs fs ms]. cbn in Hd. subst fs.
    cbn [get_transformer]. unfold bind, get_registry. rewrite Hn, He.
    rewrite (inheritance_match_prefix _ _ extra tr Hm). reflexivity. }
  split; [exact Hg|].
  destruct (scalar_transformer_shape T tr HT Htr) as (name & k & enc & dec & ->).
  rewrite (to_literal_unfold n v (TClass c) e w eq_refl).
  assert (Hnone : match v with VNone => bool_decide (union_type e = None) | _ => false end
                  = false) by (destruct v; try reflexivity; discriminate Hv).
  rewrite Hnone, Hg. cbn [assert_type has_origin]. unfold isinstance.
  destruct c as [m q bs fs ms]. cbn [as_class_for_check]. rewrite Hv, issubclass_refl.
  cbn [Transformer_to_literal]. unfold Simple_to_literal.
  rewrite bool_decide_eq_false_2.
  - eexists. reflexivity.
  - rewrite Hv. intros <-. simpl in HT.
    repeat (destruct HT as [HT | HT]; [discriminate HT|]). contradiction.
Qed.

Lemma inherited_scalar_transformer_rejects_witness :
  get_transformer
    (TClass (mkClass "app" "Color" [str; TBuiltin B_enum_Enum] None [("RED", CStr "red")]))
    initial_world
  = (Ok str_transformer, initial_world)
  /\ exists msg,
       to_literal 2
         (VEnumMember (mkClass "app" "Color" [str; TBuiltin B_enum_Enum] None
                         [("RED", CStr "red")]) "RED" (CStr "red"))
         (TClass (mkClass "app" "Color" [str; TBuiltin B_enum_Enum] None
                    [("RED", CStr "red")]))
         (Some (lt_simple STRING)) initial_world
       = (Raise (TypeTransformerFailedError msg), initial_world).
Proof.
  refine (inherited_scalar_transformer_rejects 0
            (mkClass "app" "Color" [str; TBuiltin B_enum_Enum] None [("RED", CStr "red")])
            str str_transformer _ (lt_simple STRING) initial_world _ _ _ _ _ _ _).
  - split; [exists []; reflexivity | reflexivity].
  - reflexivity.
  - reflexivity.
  - right. right. right. right. left. reflexivity.
  - reflexivity.
  - reflexivity.
  - reflexivity.
Defined.

(** ** The pickle fallback *)

Lemma pickle_to_literal v w :
  exists uri w',
    FlytePickle_to_literal v w
    = (Ok (Literal_scalar
             (mkScalar None
                (Some (mkBlob (mkBlobMetadata (mkBlobType PYTHON_PICKLE_FORMAT SINGLE)) uri))
                None None None)), w')
    /\ _REGISTRY w' = _REGISTRY w /\ is_remote uri = true
    /\ dict_get uri (file_store w') = Some v.
Proof.
  eexists _, _. unfold FlytePickle_to_literal, copy_file.
  unfold bind, fresh_path, write_file, read_file, ret. cbn [file_store paths_used].
  rewrite dict_get_set_same. cbn [file_store].
  split; [reflexivity|]. cbn [_REGISTRY file_store].
  split; [reflexivity|]. split; [reflexivity|]. apply dict_get_set_same.
Qed.

Lemma pickle_to_python_value remote v w :
  is_remote remote = true -> dict_get remote (file_store w) = Some v ->
  exists w',
    FlytePickle_to_python_value
      (Literal_scalar
         (mkScalar None
            (Some (mkBlob (mkBlobMetadata (mkBlobType PYTHON_PICKLE_FORMAT SINGLE)) remote))
            None None None)) w
    = (Ok v, w')
    /\ _REGISTRY w' = _REGISTRY w.
Proof.
  intros Hr Hf. eexists. unfold FlytePickle_to_python_value.
  unfold bind at 1. cbn [lift scalar_blob_uri Literal_scalar scalar rbind attr scalar_blob uri].
  rewrite Hr. unfold copy_file, bind, fresh_path, write_file, read_file.
  cbn [file_store paths_used]. rewrite Hf. cbn [file_store].
  rewrite dict_get_set_same. split; reflexivity.
Qed.

(** X20.  A class that is no dataclass, is not registered and has no
    registered base falls back to pickling: the lookup registers the pickle
    transformer for it, and any value other than [None] then comes back
    from the round trip through the file store. *)
Theorem pickle_fallback_round_trip n c v w :
  dict_get (TClass c) (_REGISTRY w) = None -> dataclass_fields c = None ->
  inheritance_match (TClass c) (_REGISTRY w) = None -> v <> VNone ->
  fst (round_trip (2 + n) v (TClass c) w) = Ok v
  /\ dict_get (TClass c) (_REGISTRY (snd (round_trip (2 + n) v (TClass c) w)))
     = Some (FlytePickleTransformer (TClass c)).
Proof.
  intros Hn Hd Hm Hv.
  destruct (get_transformer (TClass c) w) as [r w1] eqn:Hg.
  assert (Hr : r = Ok (FlytePickleTransformer (TClass c))
               /\ dict_get (TClass c) (_REGISTRY w1) = Some (FlytePickleTransformer (TClass c))).
  { destruct c as [m q bs fs ms]. cbn in Hd. subst fs.
    cbn [get_transformer] in Hg. unfold bind, get_registry in Hg. rewrite Hn, Hm in Hg.
    injection Hg as <- <-. split; [reflexivity|]. cbn [_REGISTRY]. apply dict_get_set_same. }
  destruct Hr as [-> Hreg].
  destruct (pickle_to_literal v w1) as (uri & w2 & He & Hreg2 & Hrem & Hfile).
  destruct (pickle_to_python_value uri v (bump 1 w2) Hrem Hfile) as (w3 & Hdec & Hreg3).
  unfold round_trip, bind.
  rewrite (to_literal_type_step n _ _ w w1 Hg eq_refl).
  cbn [Transformer_get_literal_type]. unfold FlytePickle_get_literal_type, ret.
  rewrite (to_literal_step n v (TClass c) _ (FlytePickleTransformer (TClass c)) w1 w1);
    [| destruct v; try exact I; contradiction Hv; reflexivity
     | exact (get_transformer_registered _ _ _ Hreg eq_refl)
     | reflexivity | reflexivity].
  cbn [Transformer_to_literal]. rewrite He.
  rewrite (to_python_value_step n _ (TClass c) (FlytePickleTransformer (TClass c)) w2 (bump 1 w2)).
  - cbn [Transformer_to_python_value]. rewrite Hdec. cbn [fst snd].
    split; [reflexivity|]. rewrite Hreg3. cbn [bump _REGISTRY]. rewrite Hreg2. exact Hreg.
  - apply get_transformer_registered; [|reflexivity].
    cbn [bump _REGISTRY]. rewrite Hreg2. exact Hreg.
Qed.

Lemma pickle_fallback_round_trip_witness :
  fst (round_trip 2 (VObject (mkClass "app" "Thing" [] None []) [("x", VInt 1)])
         (TClass (mkClass "app" "Thing" [] None [])) initial_world)
  = Ok (VObject (mkClass "app" "Thing" [] None []) [("x", VInt 1)])
  /\ dict_get (TClass (mkClass "app" "Thing" [] None []))
       (_REGISTRY (snd (round_trip 2
                          (VObject (mkClass "app" "Thing" [] None []) [("x", VInt 1)])
                          (TClass (mkClass "app" "Thing" [] None [])) initial_world)))
     = Some (FlytePickleTransformer (TClass (mkClass "app" "Thing" [] None []))).
Proof.
  refine (pickle_fallback_round_trip 0 (mkClass "app" "Thing" [] None [])
            (VObject (mkClass "app" "Thing" [] None []) [("x", VInt 1)])
            initial_world _ _ _ _).
  - reflexivity.
  - reflexivity.
  - reflexivity.
  - discriminate.
Defined.

(** ** The resolver and the types it decodes into *)

(** X21.  A fresh resolver whose variable map gives, for a key, the
    literal type of a nested type decodes the literal of a value of that
    type back into the value: the type is guessed from the variable map
    when neither an [as_type] nor a hint is given. *)
Theorem resolver_guesses_nested_type n T v lv lits vm d k r w :
  builtin_registry (_REGISTRY w) ->
  nested_type T = true -> proper_unions T = true -> value_of_type T v = true ->
  to_literal (fuel_for T + n) v T (Some (nested_literal_type T)) w = (Ok lv, w) ->
  LiteralsResolver_init (Some lits) (Some vm) = Ok r ->
  lits !! k = Some lv -> vm !! k = Some (mkVariable (nested_literal_type T) d) ->
  exists j,
    LiteralsResolver_get (fuel_for T + n) r k None w
    = (Ok (v, mkLiteralsResolver lits (Some vm) (<[k := v]> ∅) ∅), bump j w).
Proof.
  intros Hb HT Hp Hv He Hr Hl Hvm. injection Hr as <-.
  destruct (nested_conversions T HT n) as [_ Hc].
  destruct (Hc v Hv) as [lv' Hlv']. destruct (Hlv' w Hb) as [He' [j Hd]].
  rewrite He in He'. injection He' as <-. exists j.
  rewrite (resolver_get_miss _ (mkLiteralsResolver lits (Some vm) ∅ ∅) k None lv w
             Hl (lookup_empty k)).
  unfold bind at 1.
  rewrite (proj2 (proj2 (resolver_type_priority _ (mkLiteralsResolver lits (Some vm) ∅ ∅) k w))
             vm _ (lookup_empty k) eq_refl Hvm).
  cbn [var_type]. rewrite (nested_guess T HT Hp n w Hb).
  unfold bind. rewrite Hd. reflexivity.
Qed.

Lemma resolver_guesses_nested_type_witness :
  exists j,
    LiteralsResolver_get 4
      (mkLiteralsResolver
         (<["xs" := Literal_collection [int_literal 1; int_literal 2]]> ∅)
         (Some (<["xs" := mkVariable (lt_collection (lt_simple INTEGER)) "0"]> ∅)) ∅ ∅)
      "xs" None initial_world
    = (Ok (VList [VInt 1; VInt 2],
           mkLiteralsResolver
             (<["xs" := Literal_collection [int_literal 1; int_literal 2]]> ∅)
             (Some (<["xs" := mkVariable (lt_collection (lt_simple INTEGER)) "0"]> ∅))
             (<["xs" := VList [VInt 1; VInt 2]]> ∅) ∅),
       bump j initial_world).
Proof.
  refine (resolver_guesses_nested_type 0 (List_ int) (VList [VInt 1; VInt 2])
            (Literal_collection [int_literal 1; int_literal 2])
            (<["xs" := Literal_collection [int_literal 1; int_literal 2]]> ∅)
            (<["xs" := mkVariable (lt_collection (lt_simple INTEGER)) "0"]> ∅)
            "0" "xs" _ initial_world _ _ _ _ _ eq_refl _ _).
  - split; [exists []; reflexivity | reflexivity].
  - reflexivity.
  - reflexivity.
  - reflexivity.
  - reflexivity.
  - apply lookup_insert_eq.
  - apply lookup_insert_eq.
Defined.



(** X23.  Indexing the resolver is [get] without a type on every key of
    the literal map; on a key that is absent the two differ in the
    exception only, [ValueError] against [AttributeError], and neither
    touches the process. *)
Theorem resolver_getitem_is_get fuel r k w :
  match _literals r !! k with
  | Some _ => LiteralsResolver_getitem fuel r k w = LiteralsResolver_get fuel r k None w
  | None =>
      (exists msg, LiteralsResolver_getitem fuel r k w = (Raise (ValueError msg), w))
      /\ (exists msg, LiteralsResolver_get fuel r k None w = (Raise (AttributeError msg), w))
  end.
Proof.
  unfold LiteralsResolver_getitem, LiteralsResolver_get.
  destruct (_literals r !! k) as [lv|].
  - destruct (_native_values r !! k); reflexivity.
  - split; eexists; reflexivity.
Qed.

(** ** Variable maps *)

Section VariableMaps.

Variables (fuel : nat) (w : World).
Hypothesis Hb : builtin_registry (_REGISTRY w).

Lemma variables_from_keys idx ann :
List.map fst (variables_from idx ann) = List.map fst ann.
Proof.
revert idx. induction ann as [|[k t] ann IH]; intros idx; [reflexivity|].
cbn [variables_from List.map fst]. rewrite IH. reflexivity.
Qed.

Lemma named_tuple_loop ann :
Forall (annotated_nested fuel) ann ->
forall idx acc, List.NoDup (List.map fst acc ++ List.map fst ann) ->
named_tuple_to_variable_map_loop fuel idx ann acc w
= (Ok (acc ++ variables_from idx ann)%list, w).
Proof.
induction 1 as [|[k t] ann (HT & _ & Hf) _ IH]; intros idx acc Hnd.
- cbn [named_tuple_to_variable_map_loop variables_from]. rewrite app_nil_r. reflexivity.
- cbn [fst snd] in *. destruct (NoDup_app_fresh _ _ _ Hnd) as [Hfresh Hnd'].
  destruct (nested_conversions t HT (fuel - fuel_for t)) as [Hlt _].
  replace (fuel_for t + (fuel - fuel_for t)) with fuel in Hlt by lia.
  cbn [named_tuple_to_variable_map_loop variables_from]. unfold bind.
  rewrite (Hlt w Hb), (dict_set_fresh k _ acc Hfresh), IH.
  + rewrite <- app_assoc. reflexivity.
  + rewrite List.map_app. exact Hnd'.
Qed.

Lemma guess_python_types_variables ann :
Forall (annotated_nested fuel) ann ->
forall idx acc, List.NoDup (List.map fst acc ++ List.map fst ann) ->
guess_python_types_loop fuel (variables_from idx ann) acc w = (Ok (acc ++ ann)%list, w).
Proof.
induction 1 as [|[k t] ann (HT & Hp & Hf) _ IH]; intros idx acc Hnd.
- cbn [guess_python_types_loop variables_from]. rewrite app_nil_r. reflexivity.
- cbn [fst snd] in *. destruct (NoDup_app_fresh _ _ _ Hnd) as [Hfresh Hnd'].
  pose proof (nested_guess t HT Hp (fuel - fuel_for t) w Hb) as Hg.
  replace (fuel_for t + (fuel - fuel_for t)) with fuel in Hg by lia.
  cbn [guess_python_types_loop variables_from var_type]. unfold bind.
  rewrite Hg, (dict_set_fresh k t acc Hfresh), IH.
  + rewrite <- app_assoc. reflexivity.
  + rewrite List.map_app. exact Hnd'.
Qed.

End VariableMaps.

(** X24.  The variable map of a named tuple whose fields are annotated
    with nested types gives the annotations back: [guess_python_types] of
    [named_tuple_to_variable_map] returns the field names with their types,
    in order. *)
Theorem guess_python_types_inverts_variable_map fuel ann w :
  builtin_registry (_REGISTRY w) ->
  List.NoDup (List.map fst ann) -> Forall (annotated_nested fuel) ann ->
  (vm <- named_tuple_to_variable_map fuel ann ;; guess_python_types fuel vm) w
  = (Ok ann, w).
Proof.
  intros Hb Hnd Ha. unfold bind, named_tuple_to_variable_map, guess_python_types.
  rewrite (named_tuple_loop fuel w Hb ann Ha 0 [] Hnd). cbn [app].
  exact (guess_python_types_variables fuel w Hb ann Ha 0 [] Hnd).
Qed.

Lemma guess_python_types_inverts_variable_map_witness :
  (vm <- named_tuple_to_variable_map 4 [("a", int); ("b", Dict_ str float)] ;;
   guess_python_types 4 vm) initial_world
  = (Ok [("a", int); ("b", Dict_ str float)], initial_world).
Proof.
  refine (guess_python_types_inverts_variable_map 4 [("a", int); ("b", Dict_ str float)]
            initial_world _ _ _).
  - split; [exists []; reflexivity | reflexivity].
  - constructor; [intros [H | []]; discriminate H|].
    constructor; [intros [] | constructor].
  - repeat constructor; cbn; lia.
Defined.

(** ** Annotated scalars *)

Lemma flyte_annotation_data_spec extras acc :
  flyte_annotation_data extras acc
  = match acc, flyte_annotations extras with
    | None, [] => Ok None
    | None, [d] => Ok (Some d)
    | Some a, [] => Ok (Some a)
    | _, _ =>
        Raise (ValueError "More than one FlyteAnnotation used within typehint. Flytekit requires a max of one.")
    end.
Proof.
  revert acc. induction extras as [|[d| |] extras IH]; intros acc.
  - destruct acc; reflexivity.
  - cbn [flyte_annotation_data]. change (flyte_annotations (FlyteAnnotation d :: extras))
      with (d :: flyte_annotations extras).
    destruct acc as [a|].
    + destruct (flyte_annotations extras) as [|? [|]]; reflexivity.
    + rewrite IH. destruct (flyte_annotations extras) as [|? [|]]; reflexivity.
  - cbn [flyte_annotation_data]. rewrite IH. reflexivity.
  - cbn [flyte_annotation_data]. rewrite IH. reflexivity.
Qed.

Lemma get_transformer_annotated T extras tr w :
  dict_get T (_REGISTRY w) = Some tr ->
  get_transformer (TAnnotated T extras) w = (Ok tr, w).
Proof.
  intros H. cbn [get_transformer]. unfold bind, get_registry. rewrite H. reflexivity.
Qed.

Lemma annotated_scalar_literal_type_data n T extras w :
  builtin_registry (_REGISTRY w) -> In T all_scalar_types ->
  to_literal_type (2 + n) (TAnnotated T extras) w
  = match flyte_annotation_data extras None with
    | Ok (Some d) => (Ok (set_annotation (scalar_literal_type T) (Some d)), w)
    | Ok None => (Ok (scalar_literal_type T), w)
    | Raise e => (Raise e, w)
    | OutOfFuel => (OutOfFuel, w)
    end.
Proof.
  intros Hb HT. destruct (scalar_registered _ T Hb HT) as (tr & Htr & Hr).
  destruct (scalar_transformer_shape T tr HT Htr) as (name & k & enc & dec & ->).
  unfold to_literal_type. cbn [Nat.add engine to_literal_type_].
  unfold TypeEngine_to_literal_type. unfold bind at 1.
  rewrite (get_transformer_annotated T extras _ w Hr).
  cbn [get_literal_type_ Transformer_get_literal_type]. unfold bind, ret, lift.
  unfold scalar_literal_type. rewrite Htr.
  destruct (flyte_annotation_data extras None) as [[d|]| |]; reflexivity.
Qed.

(** X25.  The literal type of an annotated scalar type is the scalar's
    literal type when no [FlyteAnnotation] is among the annotations, that
    type with the annotation's payload when there is one, and a
    [ValueError] when there are two or more. *)
Theorem annotated_scalar_literal_type n T extras w :
  builtin_registry (_REGISTRY w) -> In T all_scalar_types ->
  to_literal_type (2 + n) (TAnnotated T extras) w
  = match flyte_annotations extras with
    | [] => (Ok (scalar_literal_type T), w)
    | [d] => (Ok (set_annotation (scalar_literal_type T) (Some d)), w)
    | _ =>
        (Raise (ValueError "More than one FlyteAnnotation used within typehint. Flytekit requires a max of one."), w)
    end.
Proof.
  intros Hb HT. rewrite (annotated_scalar_literal_type_data n T extras w Hb HT).
  rewrite flyte_annotation_data_spec.
  destruct (flyte_annotations extras) as [|d [|]]; reflexivity.
Qed.

Lemma annotated_scalar_literal_type_witness :
  to_literal_type 2
    (TAnnotated int [OtherAnnotation "x"; FlyteAnnotation [("k", "v")]; HashMethod "h"])
    initial_world
  = (Ok (set_annotation (lt_simple INTEGER) (Some [("k", "v")])), initial_world).
Proof.
  refine (annotated_scalar_literal_type 0 int
            [OtherAnnotation "x"; FlyteAnnotation [("k", "v")]; HashMethod "h"]
            initial_world _ _).
  - split; [exists []; reflexivity | reflexivity].
  - right. left. reflexivity.
Defined.

(** X26.  A scalar value comes back from the round trip at an annotated
    scalar type with at most one [FlyteAnnotation]: the annotations pick
    the literal type's annotation and the literal's hash, and decoding reads
    neither. *)
Theorem annotated_scalar_round_trip n T extras v w :
  builtin_registry (_REGISTRY w) -> In T simple_scalar_types -> type_of v = T ->
  List.length (flyte_annotations extras) <= 1 ->
  round_trip (2 + n) v (TAnnotated T extras) w = (Ok v, bump 1 w).
Proof.
  intros Hb HT Hv Hlen. pose proof (simple_scalar_is_scalar T HT) as HT'.
  destruct (scalar_registered _ T Hb HT') as (tr & Htr & Hr).
  destruct (scalar_codec T v tr HT' Htr Hv) as (name & k & enc & dec & lv & -> & Hl & He & Hd).
  assert (Hdh : forall h, dec (set_hash lv h) = Ok v).
  { intros h. simpl in HT. repeat (destruct HT as [<- | HT]; [|]); try contradiction.
    all: injection Htr as <- <- <- <-; rewrite <- Hd; reflexivity. }
  assert (Hnn : (match v with
                 | VNone => fun e : option LiteralType =>
                     attr e (fun e => bool_decide (union_type e = None)) "union_type"
                 | _ => fun _ => Ok false
                 end) = fun _ => Ok false).
  { destruct v; try reflexivity. exfalso. simpl in Hv. subst T. simpl in HT.
    repeat (destruct HT as [HT | HT]; [discriminate HT|]). contradiction. }
  assert (Hlt : exists lt, to_literal_type (2 + n) (TAnnotated T extras) w = (Ok lt, w)).
  { rewrite (annotated_scalar_literal_type_data n T extras w Hb HT').
    rewrite flyte_annotation_data_spec.
    destruct (flyte_annotations extras) as [|d [|]]; try (eexists; reflexivity).
    simpl in Hlen. lia. }
  destruct Hlt as [lt Hlt]. unfold round_trip. unfold bind at 1. rewrite Hlt.
  assert (Henc : to_literal (2 + n) v (TAnnotated T extras) (Some lt) w
                 = (Ok (match first_hash_method extras v with
                        | Some h => set_hash lv (Some h)
                        | None => lv
                        end), w)).
  { unfold to_literal. cbn [Nat.add engine to_literal_]. unfold TypeEngine_to_literal.
    unfold bind at 1. unfold lift at 1.
    replace (match v with
             | VNone => attr (Some lt) (fun e => bool_decide (union_type e = None)) "union_type"
             | _ => Ok false
             end) with (@Ok bool false) by (destruct v; try reflexivity;
               exact (eq_sym (f_equal (fun f => f (Some lt)) Hnn))).
    unfold bind at 1. rewrite (get_transformer_annotated T extras _ w Hr).
    unfold type_assertions_enabled. cbn [assert_type has_origin].
    unfold bind at 1. cbn [lift].
    cbn [transformer_to_literal_ Transformer_to_literal]. unfold Simple_to_literal.
    rewrite Hv, bool_decide_eq_true_2 by reflexivity. cbn [negb].
    unfold bind, lift. rewrite He.
    destruct (first_hash_method extras v); reflexivity. }
  unfold bind. rewrite Henc.
  rewrite (to_python_value_step n _ _ _ w (bump 1 w)
             (get_transformer_annotated T extras _ (bump 1 w) Hr)).
  cbn [Transformer_to_python_value].
  unfold Simple_to_python_value. cbv zeta. cbn [strip_Annotated].
  rewrite bool_decide_eq_true_2 by reflexivity. cbn [negb].
  unfold try_except, bind, lift.
  assert (Hdec : dec (match first_hash_method extras v with
                      | Some h => set_hash lv (Some h)
                      | None => lv
                      end) = Ok v).
  { destruct (first_hash_method extras v); [apply Hdh | exact Hd]. }
  rewrite Hdec, Hv, bool_decide_eq_true_2 by reflexivity. reflexivity.
Qed.

Lemma annotated_scalar_round_trip_witness :
  round_trip 2 (VStr "a")
    (TAnnotated str [HashMethod "h"; FlyteAnnotation [("k", "v")]]) initial_world
  = (Ok (VStr "a"), bump 1 initial_world).
Proof.
  refine (annotated_scalar_round_trip 0 str [HashMethod "h"; FlyteAnnotation [("k", "v")]]
            (VStr "a") initial_world _ _ _ _).
  - split; [exists []; reflexivity | reflexivity].
  - right. right. right. left. reflexivity.
  - reflexivity.
  - cbn. lia.
Defined.

(** ** Dataclasses of scalar fields *)



Section ScalarDataclass.

Variable w : World.
Hypothesis Hb : builtin_registry (_REGISTRY w).


End ScalarDataclass.

Section ScalarDataclassLoops.

Variable k : nat.



Variable c : ClassOf PyType.
Variable all : list (string * PyVal).






End ScalarDataclassLoops.







(** ** [None] inside a list *)

Lemma to_literal_refuses_None n T e w :
  is_Annotated T = false -> union_type e = None ->
  to_literal (2 + n) VNone T (Some e) w
  = (Raise (TypeTransformerFailedError "Python value cannot be None"), w).
Proof.
  intros Ha Hu. rewrite (to_literal_unfold n VNone T e w Ha).
  rewrite bool_decide_eq_true_2 by exact Hu. reflexivity.
Qed.

Lemma for_each_raise_head {A B} (x : A) xs (body : A -> M B) e w w1 :
  body x w = (Raise e, w1) -> for_each (x :: xs) body w = (Raise e, w1).
Proof. intros H. cbn [for_each]. unfold bind. rewrite H. reflexivity. Qed.

Lemma for_each_raise_tail {A B} (x : A) xs (body : A -> M B) b e w w1 w2 :
  body x w = (Ok b, w1) -> for_each xs body w1 = (Raise e, w2) ->
  for_each (x :: xs) body w = (Raise e, w2).
Proof. intros H Ht. cbn [for_each]. unfold bind. rewrite H, Ht. reflexivity. Qed.

Lemma list_encode_None n T items w :
  builtin_registry (_REGISTRY w) -> In T all_scalar_types ->
  Forall (fun x => x = VNone \/ type_of x = T) items -> In VNone items ->
  for_each items
    (fun x => ct <- lift (attr (Some (lt_collection (scalar_literal_type T)))
                            collection_type "collection_type") ;;
              to_literal_ (engine (2 + n)) x T ct) w
  = (Raise (TypeTransformerFailedError "Python value cannot be None"), w).
Proof.
  intros Hb HT Hall. induction Hall as [|x items Hx _ IH]; intros Hin; [destruct Hin|].
  assert (Ha : is_Annotated T = false).
  { simpl in HT. repeat (destruct HT as [<- | HT]; [reflexivity|]). contradiction. }
  assert (Hu : union_type (scalar_literal_type T) = None).
  { simpl in HT. repeat (destruct HT as [<- | HT]; [reflexivity|]). contradiction. }
  assert (Hnone : to_literal_ (engine (2 + n)) VNone T (Some (scalar_literal_type T)) w
                  = (Raise (TypeTransformerFailedError "Python value cannot be None"), w))
    by exact (to_literal_refuses_None n T _ w Ha Hu).
  assert (Hdec : x = VNone \/ x <> VNone)
    by (destruct x; (left; reflexivity) || (right; discriminate)).
  destruct Hdec as [-> | Hnn].
  - apply for_each_raise_head. exact Hnone.
  - destruct Hx as [Hx | Hx]; [contradiction|].
    assert (HT' : In T simple_scalar_types).
    { destruct HT as [<- | HT]; [|exact HT]. exfalso. apply Hnn.
      destruct x; try discriminate Hx; try reflexivity.
      simpl in Hx. destruct (bool_decide _); discriminate Hx. }
    destruct (scalar_type_codec n T x HT' Hx) as (lv & _ & Hc).
    destruct (Hc w Hb) as [He _].
    apply (for_each_raise_tail _ _ _ lv _ w w w); [exact He|].
    apply IH. destruct Hin as [E | Hin]; [|exact Hin]. contradiction Hnn.
Qed.

(** X28.  A list that holds [None] cannot be encoded at a list of a
    scalar type, not even at a list of [NoneType]: [None] is refused for
    every expected literal type that is no union, before the element's
    transformer is looked at. *)
Theorem list_with_None_is_refused n T items w :
  builtin_registry (_REGISTRY w) -> In T all_scalar_types ->
  Forall (fun x => x = VNone \/ type_of x = T) items -> In VNone items ->
  round_trip (4 + n) (VList items) (List_ T) w
  = (Raise (TypeTransformerFailedError "Python value cannot be None"), w).
Proof.
  intros Hb HT Hall Hin. unfold round_trip. unfold bind at 1.
  change (4 + n) with (2 + (2 + n)).
  rewrite (list_to_literal_type (2 + n) T _ w Hb (scalar_to_literal_type w Hb n T HT)).
  unfold bind at 1.
  rewrite (to_literal_step (2 + n) (VList items) (List_ T) _ ListTransformer w w I);
    [ | apply get_transformer_generic; [exact Hb | reflexivity] | reflexivity | reflexivity].
  cbn [Transformer_to_literal]. unfold List_to_literal.
  unfold bind at 1. cbn [List_ get_sub_type lift]. unfold bind at 1.
  rewrite (list_encode_None n T items w Hb HT Hall Hin). reflexivity.
Qed.

Lemma list_with_None_is_refused_witness :
  round_trip 4 (VList [VNone]) (List_ NoneType) initial_world
  = (Raise (TypeTransformerFailedError "Python value cannot be None"), initial_world).
Proof.
  refine (list_with_None_is_refused 0 NoneType [VNone] initial_world _ _ _ _).
  - split; [exists []; reflexivity | reflexivity].
  - left. reflexivity.
  - constructor; [left; reflexivity | constructor].
  - left. reflexivity.
Defined.

(** ** Files *)


